(** * gorm-soft-delete: the soft-delete plugin of [gorm_soft_delete.go]

    A shallow embedding of the package [gorm_soft_delete]: the nullable
    timestamp [DeletedAt] with its JSON methods, the resolution of the
    [ZEROVALUE] tag, and the three statement modifiers
    ([SoftDeleteQueryClause], [SoftDeleteUpdateClause],
    [SoftDeleteDeleteClause]).

    The package is a plugin of the gorm pipeline.  What it consumes from
    gorm, [database/sql], [encoding/json] and [jinzhu/now] is either
    written out here from the library's code (the clause map and
    [AddClause], [clause.Where.MergeClause], [clause.And], the position
    switch that [clause.Where.Build] leaves in the statement,
    [Statement.SetColumn], [sql.NullTime.Scan]) or taken as a
    [Variable] of a section (the JSON codec of [time.Time],
    [now.Parse], reflection on the record, the text of the rendering). *)

From stdpp Require Import gmap strings list.
From Stdlib Require Import ZArith.

Local Open Scope Z_scope.
Local Open Scope string_scope.
Local Open Scope list_scope.

(** ** Go values the package handles *)

(** [time.Time].  The package never looks inside a point in time: it takes
    it from the clock, stores it, and hands it to the JSON codec.  It is
    represented by its number of seconds since Go's zero time, so that
    the zero value [time.Time{}] is [0]. *)
Definition time_Time : Type := Z.

(** Go's [error]: [nil] is [None], an error carries its message. *)
Definition error : Type := string.

(** A Go result pair [(T, error)]. *)
Inductive result (A : Type) : Type :=
| Ok (a : A)
| Err (e : error).
Arguments Ok {A} a.
Arguments Err {A} e.

(** [sql.NullString]. *)
Module NullString.
Record t : Type := mk { String : string; Valid : bool }.

#[global] Instance eq_dec : EqDecision t.
Proof. solve_decision. Defined.

(** [sql.NullString{Valid: false}]: the string is Go's zero value. *)
Definition null : t := {| String := ""; Valid := false |}.
End NullString.

(** Go's [interface{}] values that pass through the package: the
    sentinel ([sql.NullString]), the deletion time, the actor taken from
    the context, primary-key values and their tuples.  [Nil] is the nil
    interface. *)
#[warnings="-register-all"]
Inductive any : Type :=
| Nil
| Int (z : Z)
| Str (s : string)
| TimeVal (t : time_Time)
| NullStr (ns : NullString.t)
| Tuple (vs : list any).

(** ** The nullable timestamp: [type DeletedAt sql.NullTime] *)
Module DeletedAt.
Record t : Type := mk { Time : time_Time; Valid : bool }.

#[global] Instance eq_dec : EqDecision t.
Proof. solve_decision. Defined.

(** The zero value, [var n DeletedAt]. *)
Definition zero : t := {| Time := 0; Valid := false |}.

(** [func (n DeletedAt) Value() (driver.Value, error)]: the driver value
    is [nil] ([None]) or the time; the error is always [nil]. *)
Definition Value (n : t) : option time_Time * option error :=
  if Valid n then (Some (Time n), None) else (None, None).

(** [json.Marshal(nil)] of [encoding/json]: the four bytes [null]. *)
Definition json_Marshal_nil : result string := Ok "null".

Section JSON.
(** [json.Marshal(t)] and [json.Unmarshal(b, &t)] at type [time.Time]
    belong to [encoding/json] and [time].  The decoder receives the
    address of the wrapper's [Time] field: it sees the field's current
    value, returns the field's new value and the error. *)
Variable json_Marshal_Time : time_Time -> result string.
Variable json_Unmarshal_Time : string -> time_Time -> time_Time * option error.

(** [func (n DeletedAt) MarshalJSON() ([]byte, error)] *)
Definition MarshalJSON (n : t) : result string :=
  if Valid n then json_Marshal_Time (Time n) else json_Marshal_nil.

(** [func (n *DeletedAt) UnmarshalJSON(b []byte) error]: the receiver
    is mutated in place, so the function returns the receiver after
    the call together with the error. *)
Definition UnmarshalJSON (n : t) (b : string) : t * option error :=
  if decide (b = "null") then
    ({| Time := Time n; Valid := false |}, None)
  else
    let '(tm, err) := json_Unmarshal_Time b (Time n) in
    match err with
    | None => ({| Time := tm; Valid := true |}, None)
    | Some e => ({| Time := tm; Valid := Valid n |}, Some e)
    end.
End JSON.

(** A [driver.Value] as an [interface{}]: nil or the time. *)
Definition driverValue (v : option time_Time) : any :=
  match v with
  | Some t => TimeVal t
  | None => Nil
  end.

Section Scan.
(** [convertAssign(&n.Time, value)] of [database/sql]: it sees the
    destination's current value and the source, returns the
    destination's new value and the error. *)
Variable convertAssign : time_Time -> any -> time_Time * option error.

(** [func (n *DeletedAt) Scan(value interface{}) error], which is the
    method [Scan] of [sql.NullTime] on the same receiver: a nil value
    resets the receiver to the zero time, not valid; any other value is
    converted into the receiver's time, and the receiver is valid
    exactly when the conversion returns no error.  The receiver is
    mutated in place: the function returns it after the call with the
    error. *)
Definition Scan (n : t) (value : any) : t * option error :=
  match value with
  | Nil => ({| Time := 0; Valid := false |}, None)
  | _ =>
      let '(tm, err) := convertAssign (Time n) value in
      ({| Time := tm; Valid := match err with None => true | Some _ => false end |}, err)
  end.
End Scan.
End DeletedAt.

(** ** Clauses and expressions ([gorm.io/gorm/clause]) *)
Module clause.

(** [clause.Column]; the fields [Alias] and [Raw] keep their zero value
    in every column the package builds and are left out. *)
Module Column.
Record t : Type := mk { Table : string; Name : string }.
End Column.

(** The [Column] of a [clause.IN] is an [interface{}] that holds one
    column or a slice of columns. *)
Inductive Columns : Type :=
| OneColumn (c : Column.t)
| ManyColumns (cs : list Column.t).

(** [clause.Assignment{Column, Value}]. *)
Record Assignment : Type := mkAssignment {
  Assignment_Column : Column.t;
  Assignment_Value : any;
}.

(** [const CurrentTable] *)
Definition CurrentTable : string := "~~~ct~~~".

(** [clause.Expression], the interface, as the closed set of the
    implementers that the package builds or inspects.  [Expr] is a raw
    SQL condition with its variables; every user predicate that is
    neither a group nor one of the package's own predicates is of this
    kind for the package.  [Where], [Set_] ([clause.Set], a slice of
    assignments) and [Update] ([clause.Update{}]) are the three
    implementers of [clause.Interface] that the package adds to a
    statement. *)
#[warnings="-register-all"]
Inductive Expression : Type :=
| Expr (SQL : string) (Vars : list any)
| Eq (column : Column.t) (value : any)
| IN (column : Columns) (values : list any)
| AndConditions (Exprs : list Expression)
| OrConditions (Exprs : list Expression)
| Where (Exprs : list Expression)
| Set_ (assignments : list Assignment)
| Update.

(** [clause.Clause]: the name and the expression; [None] is a nil
    [Expression].  The fields [BeforeExpression],
    [AfterNameExpression], [AfterExpression] and [Builder] are never
    read or written by the package and are left out. *)
Module Clause.
Record t : Type := mk { Name : string; Expression : option clause.Expression }.

(** [clause.Clause{}] *)
Definition zero : t := {| Name := ""; Expression := None |}.
End Clause.

(** [func And(exprs ...Expression) Expression]; [None] is the nil
    expression returned for no argument. *)
Definition And (exprs : list Expression) : option Expression :=
  match exprs with
  | [] => None
  | [OrConditions _] => Some (AndConditions exprs)
  | [e] => Some e
  | _ => Some (AndConditions exprs)
  end.

(** [func Or(exprs ...Expression) Expression] *)
Definition Or (exprs : list Expression) : option Expression :=
  match exprs with
  | [] => None
  | _ => Some (OrConditions exprs)
  end.

(** The method [Name] of the three [clause.Interface] values; the other
    expressions are no [clause.Interface] and are never added to a
    statement. *)
Definition Name (v : Expression) : string :=
  match v with
  | Where _ => "WHERE"
  | Set_ _ => "SET"
  | Update => "UPDATE"
  | _ => ""
  end.

(** The method [MergeClause] of the three [clause.Interface] values:
    [Where] appends its expressions to those of a [Where] already in
    the clause and otherwise replaces the expression; [Set_] replaces
    it by a copy of itself; [Update{}] takes the modifier and table of
    an [Update] already there, which for the only [Update] of this
    model is itself.  The clause is passed by pointer: the function
    returns it after the call. *)
Definition MergeClause (v : Expression) (c : Clause.t) : Clause.t :=
  match v with
  | Where exprs =>
      match Clause.Expression c with
      | Some (Where w) =>
          {| Clause.Name := Clause.Name c;
             Clause.Expression := Some (Where (w ++ exprs)) |}
      | _ =>
          {| Clause.Name := Clause.Name c;
             Clause.Expression := Some (Where exprs) |}
      end
  | Set_ _ | Update =>
      {| Clause.Name := Clause.Name c; Clause.Expression := Some v |}
  | _ => c
  end.
End clause.

(** ** The position switch of [clause.Where.Build] *)

(** The negation of [v, ok := expr.(OrConditions); !ok || len(v.Exprs) >
    1]: an [OrConditions] of at most one expression. *)
Definition staysBehind (expr : clause.Expression) : bool :=
  match expr with
  | clause.OrConditions (_ :: _ :: _) => false
  | clause.OrConditions _ => true
  | _ => false
  end.

(** The loop at the head of [clause.Where.Build]: the first expression
    for which [v, ok := expr.(OrConditions); !ok || len(v.Exprs) > 1]
    holds changes places with the expression at index 0.  The loop only
    looks at this flag of an expression, so it is written for any list
    of items that carry such a flag; [stays x] is its negation. *)
Fixpoint firstToLead {A : Type} (stays : A -> bool) (xs : list A) : option nat :=
  match xs with
  | [] => None
  | x :: xs' => if stays x then S <$> firstToLead stays xs' else Some 0%nat
  end.

Definition switchPosition {A : Type} (stays : A -> bool) (xs : list A) : list A :=
  match xs, firstToLead stays xs with
  | x0 :: rest, Some (S i) =>
      match rest !! i with
      | Some xi => xi :: <[i := x0]> rest
      | None => xs
      end
  | _, _ => xs
  end.

(** ** Reflected values ([reflect]) *)

(** [reflect.Value] as the package and gorm's [SetColumn] use it: the
    package asks whether the value is addressable and passes it on to
    [schema.GetIdentityFieldValuesMap]; [SetColumn] switches on its kind
    and, for a slice or an array, visits its elements ([Len] and
    [Index]).  [Of] identifies the Go value that is reflected. *)
Module reflect.
Inductive kind : Type :=
| Struct
| Slice
| Array
| Map
| Ptr
| Invalid.

#[warnings="-register-all"]
Inductive Value : Type := mk {
  CanAddr : bool;
  Kind : kind;
  Of : nat;
  Elems : list Value;
}.
End reflect.

(** ** Schema metadata ([gorm.io/gorm/schema]) *)
Module schema.

(** [schema.Schema] as far as the package reads it: the lookup of a
    field by name, the primary fields and their column names.  [F] is
    the type of fields; the record is tied to [Field] below. *)
Record SchemaOf (F : Type) : Type := mkSchema {
  LookUpField : string -> option F;
  PrimaryFields : list F;
  PrimaryFieldDBNames : list string;
}.
Arguments mkSchema {F}.
Arguments LookUpField {F}.
Arguments PrimaryFields {F}.
Arguments PrimaryFieldDBNames {F}.

(** [schema.Field]: its column name, its tag settings, the schema it
    belongs to and its setter [Set_], the function field [Set func(ctx,
    reflect.Value, interface{}) error] that writes a value into the
    field of a reflected record and returns the error of the
    conversion, nil ([None]) when the value has been written. *)
#[warnings="-register-all"]
Inductive Field : Type := mkField {
  DBName : string;
  TagSettings : gmap string string;
  Schema : SchemaOf Field;
  Set_ : reflect.Value -> any -> option error;
}.

(** [func ToQueryValues(table string, foreignKeys []string,
    foreignValues [][]interface{}) (interface{}, []interface{})]: with
    one key the column is a single column and each value is the first
    component of its tuple; otherwise the columns are a slice and each
    value is the whole tuple.  The tuples come from
    [GetIdentityFieldValuesMap], which gives each as many components as
    there are primary fields; on an empty tuple, where Go's [r[0]]
    panics, the model has [Nil]. *)
Definition ToQueryValues (table : string) (foreignKeys : list string)
    (foreignValues : list (list any)) : clause.Columns * list any :=
  match foreignKeys with
  | [key] =>
      (clause.OneColumn {| clause.Column.Table := table; clause.Column.Name := key |},
       map (fun r => hd Nil r) foreignValues)
  | _ =>
      (clause.ManyColumns
         (map (fun key => {| clause.Column.Table := table; clause.Column.Name := key |})
              foreignKeys),
       map Tuple foreignValues)
  end.
End schema.

Section ZeroValue.
(** [now.Parse] of [github.com/jinzhu/now]: the parsed time or an
    error. *)
Variable now_Parse : string -> result time_Time.

(** [func parseZeroValueTag(f *schema.Field) sql.NullString] *)
Definition parseZeroValueTag (f : schema.Field) : NullString.t :=
  match schema.TagSettings f !! "ZEROVALUE" with
  | Some v =>
      match now_Parse v with
      | Ok _ => {| NullString.String := v; NullString.Valid := true |}
      | Err _ => NullString.null
      end
  | None => NullString.null
  end.
End ZeroValue.

(** ** The statement ([gorm.io/gorm]) *)

Module gorm.

(** [gorm.DB] as far as the package reads it: the configurable clock
    [NowFunc] and the clause names of the update callback,
    [Callback().Update().Clauses]. *)
Record DB : Type := mkDB {
  NowFunc : unit -> time_Time;
  Callback_Update_Clauses : list string;
}.

(** [gorm.ErrInvalidField] and [gorm.ErrInvalidValue]. *)
Definition ErrInvalidField : error := "invalid field".
Definition ErrInvalidValue : error :=
  "invalid value, should be pointer to struct or slice".

(** The dynamic type of the destination as the type switch at the head
    of [SetColumn] sees it: a [map[string]interface{}], a slice of such
    maps with its length, or anything else. *)
Inductive DestType : Type :=
| MapOfAny
| SliceOfMaps (len : nat)
| OtherType.

(** [gorm.Statement].  [Clauses] is the Go map from clause names to
    clauses.  [Unscoped] is [stmt.Statement.Unscoped]: gorm sets the
    statement of the embedded [DB] to the statement itself.  [SQL] and
    [Vars] are the SQL buffer and its variables.  [Context] is the
    ambient [context.Context], a map from keys to values whose lookup
    [Value] returns nil for an absent key.  [Dest] and [Model] are
    [interface{}] values, nil ([None]) or the identity of the value
    they hold, which is what [!=] compares; [DestKind] is the dynamic
    type of [Dest].  [Assigned] is the in-memory record: the columns
    that [SetColumn] has set on it, in order, one entry for each record
    or map that has taken the value.  [Error] is [stmt.Error]: the
    errors added by [AddError], in order. *)
Module Statement.
Record t : Type := mk {
  Clauses : gmap string clause.Clause.t;
  Unscoped : bool;
  SQL : string;
  Vars : list any;
  Context : gmap string any;
  Table : string;
  Schema : option (schema.SchemaOf schema.Field);
  ReflectValue : reflect.Value;
  Dest : option nat;
  Model : option nat;
  DB : gorm.DB;
  Assigned : list (string * any);
  DestKind : DestType;
  Error : list error;
}.

Definition with_Clauses (f : gmap string clause.Clause.t -> gmap string clause.Clause.t)
    (stmt : t) : t :=
  {| Clauses := f (Clauses stmt); Unscoped := Unscoped stmt; SQL := SQL stmt;
     Vars := Vars stmt; Context := Context stmt; Table := Table stmt;
     Schema := Schema stmt; ReflectValue := ReflectValue stmt; Dest := Dest stmt;
     Model := Model stmt; DB := DB stmt; Assigned := Assigned stmt;
     DestKind := DestKind stmt; Error := Error stmt |}.

(** [stmt.Context.Value(key)] *)
Definition Context_Value (stmt : t) (key : string) : any :=
  default Nil (Context stmt !! key).

(** [func (stmt *Statement) AddClause(v clause.Interface)].  None of
    [Where], [Set_] and [Update] is a [StatementModifier], so the
    clause of that name is read from the map (the zero clause when
    absent), named, merged and stored back. *)
Definition AddClause (stmt : t) (v : clause.Expression) : t :=
  let name := clause.Name v in
  let c := default clause.Clause.zero (Clauses stmt !! name) in
  let c := {| clause.Clause.Name := name;
              clause.Clause.Expression := clause.Clause.Expression c |} in
  let c := clause.MergeClause v c in
  with_Clauses (insert name c) stmt.

(** [func (stmt *Statement) AddClauseIfNotExists(v clause.Interface)] *)
Definition AddClauseIfNotExists (stmt : t) (v : clause.Expression) : t :=
  match Clauses stmt !! clause.Name v with
  | Some {| clause.Clause.Expression := Some _ |} => stmt
  | _ => AddClause stmt v
  end.

(** [stmt.AddError(err)]: a nil error adds nothing. *)
Definition AddError (stmt : t) (err : option error) : t :=
  match err with
  | Some e =>
      {| Clauses := Clauses stmt; Unscoped := Unscoped stmt; SQL := SQL stmt;
         Vars := Vars stmt; Context := Context stmt; Table := Table stmt;
         Schema := Schema stmt; ReflectValue := ReflectValue stmt; Dest := Dest stmt;
         Model := Model stmt; DB := DB stmt; Assigned := Assigned stmt;
         DestKind := DestKind stmt; Error := Error stmt ++ [e] |}
  | None => stmt
  end.

(** The records and maps of the statement take the columns [cols]. *)
Definition assigned (stmt : t) (cols : list (string * any)) : t :=
  {| Clauses := Clauses stmt; Unscoped := Unscoped stmt; SQL := SQL stmt;
     Vars := Vars stmt; Context := Context stmt; Table := Table stmt;
     Schema := Schema stmt; ReflectValue := ReflectValue stmt; Dest := Dest stmt;
     Model := Model stmt; DB := DB stmt; Assigned := Assigned stmt ++ cols;
     DestKind := DestKind stmt; Error := Error stmt |}.

(** [stmt.AddError(field.Set(stmt.Context, rv, value))]: the setter of
    the field writes the value into the reflected record [rv], or
    returns an error and the record is as it was. *)
Definition setField (field : schema.Field) (rv : reflect.Value) (name : string)
    (value : any) (stmt : t) : t :=
  match schema.Set_ field rv value with
  | None => assigned stmt [(name, value)]
  | Some e => AddError stmt (Some e)
  end.

(** [func (stmt *Statement) SetColumn(name string, value interface{},
    fromCallbacks ...bool)] as the package calls it, with
    [fromCallbacks] given.  A destination that is a map, or a slice of
    maps, takes the value under the name.  Otherwise the statement
    needs a schema that knows the field: then every element of a
    reflected slice or array is set, and a reflected struct is set when
    it is addressable and refused with [ErrInvalidValue] when it is
    not; a statement without schema or without such a field gets
    [ErrInvalidField].  Gorm's processor makes the reflected value of
    the statement the reflected destination before the callbacks run,
    and the model takes the two to agree: what [SetColumn] does on top
    of this for a destination whose reflected value is another one is
    not written out. *)
Definition SetColumn (stmt : t) (name : string) (value : any) : t :=
  match DestKind stmt with
  | MapOfAny => assigned stmt [(name, value)]
  | SliceOfMaps len => assigned stmt (replicate len (name, value))
  | OtherType =>
      match Schema stmt with
      | Some sch =>
          match schema.LookUpField sch name with
          | Some field =>
              match reflect.Kind (ReflectValue stmt) with
              | reflect.Slice | reflect.Array =>
                  foldl (fun stmt elem => setField field elem name value stmt)
                    stmt (reflect.Elems (ReflectValue stmt))
              | reflect.Struct =>
                  if reflect.CanAddr (ReflectValue stmt)
                  then setField field (ReflectValue stmt) name value stmt
                  else AddError stmt (Some ErrInvalidValue)
              | _ => stmt
              end
          | None => AddError stmt (Some ErrInvalidField)
          end
      | None => AddError stmt (Some ErrInvalidField)
      end
  end.

(** What [clause.Where.Build] leaves in the slice of expressions it is
    called on.  [Where] is passed by value and its slice shares the
    array of the stored clause, so the switch of positions, which the
    method does in place before it writes the expressions, stays in the
    statement: a lone [AndConditions] is opened first, and then the
    switch takes place in the slice of that group. *)
Definition Where_Build (exprs : list clause.Expression) : list clause.Expression :=
  match exprs with
  | [e0] =>
      match e0 with
      | clause.AndConditions exprs' =>
          [clause.AndConditions (switchPosition staysBehind exprs')]
      | _ => exprs
      end
  | _ => switchPosition staysBehind exprs
  end.

(** The clauses after [Build] has gone through the names [clauses]:
    of the clauses of this model only a [clause.Where], stored under
    its name, is changed by being written. *)
Definition built (clauses : list string) (m : gmap string clause.Clause.t)
    : gmap string clause.Clause.t :=
  if bool_decide ("WHERE" ∈ clauses) then
    match m !! "WHERE" with
    | Some c =>
        match clause.Clause.Expression c with
        | Some (clause.Where exprs) =>
            <["WHERE" := {| clause.Clause.Name := clause.Clause.Name c;
                            clause.Clause.Expression :=
                              Some (clause.Where (Where_Build exprs)) |}]> m
        | _ => m
        end
    | None => m
    end
  else m.

Section Build.
(** The rendering of the named clauses of a statement by the host
    (dialect, quoting, clause builders): the SQL text and the
    variables it writes. *)
Variable render : t -> list string -> string * list any.

(** [func (stmt *Statement) Build(clauses ...string)]: each named
    clause of the statement is written to the SQL buffer.
    [clause.Where.Build] switches positions before it writes, so the
    text is the rendering of the clauses as [Build] leaves them. *)
Definition Build (stmt : t) (clauses : list string) : t :=
  let stmt := with_Clauses (built clauses) stmt in
  {| Clauses := Clauses stmt; Unscoped := Unscoped stmt;
     SQL := SQL stmt +:+ fst (render stmt clauses);
     Vars := Vars stmt ++ snd (render stmt clauses);
     Context := Context stmt; Table := Table stmt;
     Schema := Schema stmt; ReflectValue := ReflectValue stmt; Dest := Dest stmt;
     Model := Model stmt; DB := DB stmt; Assigned := Assigned stmt;
     DestKind := DestKind stmt; Error := Error stmt |}.
End Build.
End Statement.
End gorm.

(** ** The query modifier *)

(** [orCond, ok := expr.(clause.OrConditions); ok && len(orCond.Exprs) == 1] *)
Definition isSingleOr (expr : clause.Expression) : bool :=
  match expr with
  | clause.OrConditions [_] => true
  | _ => false
  end.

Module SoftDeleteQueryClause.
Record t : Type := mk {
  ZeroValue : NullString.t;
  Field : schema.Field;
  ActorField : option schema.Field;
}.

(** The loop [for _, expr := range where.Exprs] of [ModifyStatement]:
    [rest] is what remains to be visited of the expressions [exprs]
    the loop ranges over.  At the first single OR condition the
    expressions become the one-element slice [{clause.And(exprs...)}]
    and the loop breaks; [None] when the loop ends without a match.
    [clause.And] is nil for no expression only, which cannot be here:
    the loop has found one. *)
Fixpoint wrapLoop (exprs rest : list clause.Expression)
    : option (list clause.Expression) :=
  match rest with
  | [] => None
  | expr :: rest' =>
      if isSingleOr expr then Some (option_list (clause.And exprs))
      else wrapLoop exprs rest'
  end.

(** The block [if c, ok := stmt.Clauses["WHERE"]; ok { ... }]. *)
Definition normalizeWhere (stmt : gorm.Statement.t) : gorm.Statement.t :=
  match gorm.Statement.Clauses stmt !! "WHERE" with
  | Some c =>
      match clause.Clause.Expression c with
      | Some (clause.Where exprs) =>
          if (1 <=? length exprs)%nat then
            match wrapLoop exprs exprs with
            | Some exprs' =>
                gorm.Statement.with_Clauses
                  (insert "WHERE"
                     {| clause.Clause.Name := clause.Clause.Name c;
                        clause.Clause.Expression := Some (clause.Where exprs') |})
                  stmt
            | None => stmt
            end
          else stmt
      | _ => stmt
      end
  | None => stmt
  end.

(** The exclusion predicate [clause.Eq{Column: clause.Column{Table:
    clause.CurrentTable, Name: sd.Field.DBName}, Value: sd.ZeroValue}]. *)
Definition notDeleted (sd : t) : clause.Expression :=
  clause.Eq
    {| clause.Column.Table := clause.CurrentTable;
       clause.Column.Name := schema.DBName (Field sd) |}
    (NullStr (ZeroValue sd)).

(** [func (sd SoftDeleteQueryClause) ModifyStatement(stmt *gorm.Statement)] *)
Definition ModifyStatement (sd : t) (stmt : gorm.Statement.t) : gorm.Statement.t :=
  match gorm.Statement.Clauses stmt !! "soft_delete_enabled",
        gorm.Statement.Unscoped stmt with
  | None, false =>
      let stmt := normalizeWhere stmt in
      let stmt := gorm.Statement.AddClause stmt (clause.Where [notDeleted sd]) in
      gorm.Statement.with_Clauses (insert "soft_delete_enabled" clause.Clause.zero) stmt
  | _, _ => stmt
  end.
End SoftDeleteQueryClause.

(** ** The update modifier *)
Module SoftDeleteUpdateClause.
Record t : Type := mk {
  ZeroValue : NullString.t;
  Field : schema.Field;
  ActorField : option schema.Field;
}.

(** The conversion [SoftDeleteQueryClause(sd)]. *)
Definition toQuery (sd : t) : SoftDeleteQueryClause.t :=
  {| SoftDeleteQueryClause.ZeroValue := ZeroValue sd;
     SoftDeleteQueryClause.Field := Field sd;
     SoftDeleteQueryClause.ActorField := ActorField sd |}.

(** [func (sd SoftDeleteUpdateClause) ModifyStatement(stmt *gorm.Statement)] *)
Definition ModifyStatement (sd : t) (stmt : gorm.Statement.t) : gorm.Statement.t :=
  if (String.length (gorm.Statement.SQL stmt) =? 0)%nat && negb (gorm.Statement.Unscoped stmt)
  then SoftDeleteQueryClause.ModifyStatement (toQuery sd) stmt
  else stmt.
End SoftDeleteUpdateClause.

(** ** The delete modifier *)
Module SoftDeleteDeleteClause.
Record t : Type := mk {
  ZeroValue : NullString.t;
  Field : schema.Field;
  ActorField : option schema.Field;
}.

(** The conversion [SoftDeleteQueryClause(sd)]. *)
Definition toQuery (sd : t) : SoftDeleteQueryClause.t :=
  {| SoftDeleteQueryClause.ZeroValue := ZeroValue sd;
     SoftDeleteQueryClause.Field := Field sd;
     SoftDeleteQueryClause.ActorField := ActorField sd |}.

(** [clause.Column{Name: name}]: the table is Go's zero value. *)
Definition column (name : string) : clause.Column.t :=
  {| clause.Column.Table := ""; clause.Column.Name := name |}.

Section Host.
(** The context key [GORM_CTX_DELETED_BY]: the file uses this
    constant of the package and does not declare it. *)
Variable GORM_CTX_DELETED_BY : string.

(** [reflect.ValueOf] on the value held by an [interface{}]. *)
Variable reflect_ValueOf : nat -> reflect.Value.

(** The second result of [schema.GetIdentityFieldValuesMap(ctx,
    reflectValue, fields)]: the tuples of primary-key values found in
    the reflected record or records. *)
Variable GetIdentityFieldValuesMap :
  gmap string any -> reflect.Value -> list schema.Field -> list (list any).

(** The host's rendering of clauses, see [gorm.Statement.Build]. *)
Variable render : gorm.Statement.t -> list string -> string * list any.

(** The block [if sd.ActorField != nil { ... }]: the assignment set
    and the statement after it. *)
Definition bindActor (sd : t) (clauseSet : list clause.Assignment)
    (stmt : gorm.Statement.t) : list clause.Assignment * gorm.Statement.t :=
  match ActorField sd with
  | Some actorField =>
      match gorm.Statement.Context_Value stmt GORM_CTX_DELETED_BY with
      | Nil => (clauseSet, stmt)
      | actorName =>
          (clauseSet ++
             [{| clause.Assignment_Column := column (schema.DBName actorField);
                 clause.Assignment_Value := actorName |}],
           gorm.Statement.SetColumn stmt (schema.DBName actorField) actorName)
      end
  | None => (clauseSet, stmt)
  end.

(** The two lines that extract the primary-key values of a reflected
    value and, [if len(values) > 0], add the [IN] predicate. *)
Definition scopeByKeys (sch : schema.SchemaOf schema.Field) (rv : reflect.Value)
    (stmt : gorm.Statement.t) : gorm.Statement.t :=
  let queryValues :=
    GetIdentityFieldValuesMap (gorm.Statement.Context stmt) rv
      (schema.PrimaryFields sch) in
  let '(column, values) :=
    schema.ToQueryValues (gorm.Statement.Table stmt)
      (schema.PrimaryFieldDBNames sch) queryValues in
  if (0 <? length values)%nat
  then gorm.Statement.AddClause stmt (clause.Where [clause.IN column values])
  else stmt.

(** The block [if stmt.Schema != nil { ... }]. *)
Definition scopeByPrimaryKeys (stmt : gorm.Statement.t) : gorm.Statement.t :=
  match gorm.Statement.Schema stmt with
  | Some sch =>
      let stmt := scopeByKeys sch (gorm.Statement.ReflectValue stmt) stmt in
      match gorm.Statement.Model stmt with
      | Some model =>
          if reflect.CanAddr (gorm.Statement.ReflectValue stmt)
             && bool_decide (gorm.Statement.Dest stmt <> gorm.Statement.Model stmt)
          then scopeByKeys sch (reflect_ValueOf model) stmt
          else stmt
      | None => stmt
      end
  | None => stmt
  end.

(** [func (sd SoftDeleteDeleteClause) ModifyStatement(stmt *gorm.Statement)] *)
Definition ModifyStatement (sd : t) (stmt : gorm.Statement.t) : gorm.Statement.t :=
  if (String.length (gorm.Statement.SQL stmt) =? 0)%nat
     && negb (gorm.Statement.Unscoped stmt)
  then
    let curTime := gorm.NowFunc (gorm.Statement.DB stmt) () in
    let clauseSet :=
      [{| clause.Assignment_Column := column (schema.DBName (Field sd));
          clause.Assignment_Value := TimeVal curTime |}] in
    let '(clauseSet, stmt) := bindActor sd clauseSet stmt in
    let stmt := gorm.Statement.AddClause stmt (clause.Set_ clauseSet) in
    let stmt := gorm.Statement.SetColumn stmt (schema.DBName (Field sd)) (TimeVal curTime) in
    let stmt := scopeByPrimaryKeys stmt in
    let stmt := SoftDeleteQueryClause.ModifyStatement (toQuery sd) stmt in
    let stmt := gorm.Statement.AddClauseIfNotExists stmt clause.Update in
    gorm.Statement.Build render stmt
      (gorm.Callback_Update_Clauses (gorm.Statement.DB stmt))
  else stmt.
End Host.
End SoftDeleteDeleteClause.

(** ** The clauses a [DeletedAt] field registers *)
Section Registration.
Variable now_Parse : string -> result time_Time.

(** [if v := f.TagSettings["ACTORFIELD"]; len(v) >= 1 { ... =
    f.Schema.LookUpField(v) }]: a missing tag reads as the empty
    string. *)
Definition actorFieldOf (f : schema.Field) : option schema.Field :=
  let v := default "" (schema.TagSettings f !! "ACTORFIELD") in
  if (1 <=? String.length v)%nat
  then schema.LookUpField (schema.Schema f) v
  else None.

(** [func (DeletedAt) QueryClauses(f *schema.Field) []clause.Interface] *)
Definition QueryClauses (f : schema.Field) : list SoftDeleteQueryClause.t :=
  [{| SoftDeleteQueryClause.ZeroValue := parseZeroValueTag now_Parse f;
      SoftDeleteQueryClause.Field := f;
      SoftDeleteQueryClause.ActorField := actorFieldOf f |}].

(** [func (DeletedAt) UpdateClauses(f *schema.Field) []clause.Interface] *)
Definition UpdateClauses (f : schema.Field) : list SoftDeleteUpdateClause.t :=
  [{| SoftDeleteUpdateClause.ZeroValue := parseZeroValueTag now_Parse f;
      SoftDeleteUpdateClause.Field := f;
      SoftDeleteUpdateClause.ActorField := actorFieldOf f |}].

(** [func (DeletedAt) DeleteClauses(f *schema.Field) []clause.Interface] *)
Definition DeleteClauses (f : schema.Field) : list SoftDeleteDeleteClause.t :=
  [{| SoftDeleteDeleteClause.ZeroValue := parseZeroValueTag now_Parse f;
      SoftDeleteDeleteClause.Field := f;
      SoftDeleteDeleteClause.ActorField := actorFieldOf f |}].
End Registration.

(** ** Reading a filter *)

(** The predicates of an expression, in the order in which they are
    written: groups are flattened, everything else is a predicate. *)
Fixpoint predicates (e : clause.Expression) : list clause.Expression :=
  match e with
  | clause.AndConditions es | clause.OrConditions es | clause.Where es =>
      flat_map predicates es
  | _ => [e]
  end.

(** An [OrConditions] value, whatever its length. *)
Definition isOrGroup (e : clause.Expression) : bool :=
  match e with
  | clause.OrConditions _ => true
  | _ => false
  end.

(** The expressions of the statement's WHERE clause: those of the
    [clause.Where] stored under ["WHERE"], none when there is no such
    clause or its expression is not a [clause.Where]. *)
Definition whereExprs (stmt : gorm.Statement.t) : list clause.Expression :=
  match gorm.Statement.Clauses stmt !! "WHERE" with
  | Some {| clause.Clause.Expression := Some (clause.Where es) |} => es
  | _ => []
  end.

(** Whether [e] is the exclusion predicate of [sd]. *)
Definition isNotDeleted (sd : SoftDeleteQueryClause.t) (e : clause.Expression) : bool :=
  match e with
  | clause.Eq {| clause.Column.Table := tbl; clause.Column.Name := name |} (NullStr ns) =>
      bool_decide (tbl = clause.CurrentTable)
      && bool_decide (name = schema.DBName (SoftDeleteQueryClause.Field sd))
      && bool_decide (ns = SoftDeleteQueryClause.ZeroValue sd)
  | _ => false
  end.

(** The number of exclusion predicates of [sd] in the WHERE clause. *)
Definition countNotDeleted (sd : SoftDeleteQueryClause.t) (stmt : gorm.Statement.t) : nat :=
  length (filter (fun e => isNotDeleted sd e = true) (flat_map predicates (whereExprs stmt))).

(** How gorm's [clause.Where.Build] and [buildExprs] write a list of
    expressions, read as SQL.  The expressions are written in sequence;
    in front of every expression but the first stands [OR] when the
    expression is a single OR condition and the joining word otherwise;
    a group of more than one expression is put in parentheses.  In SQL
    [AND] binds tighter than [OR], so a sequence joined by [AND] is the
    disjunction of its runs between single OR conditions, each run a
    conjunction. *)
Section Reading.
(** The truth of the predicates on the row at hand. *)
Variable rho : clause.Expression -> bool.

(** [orAcc] is the disjunction of the runs already closed, [andAcc]
    the conjunction of the current run; an item is an expression's
    [isSingleOr] flag and its truth. *)
Fixpoint joinFrom (orAcc andAcc : bool) (items : list (bool * bool)) : bool :=
  match items with
  | [] => orAcc || andAcc
  | (true, v) :: rest => joinFrom (orAcc || andAcc) v rest
  | (false, v) :: rest => joinFrom orAcc (andAcc && v) rest
  end.

(** [buildExprs(exprs, builder, AndWithSpace)] *)
Definition joinAnd (items : list (bool * bool)) : bool :=
  match items with
  | [] => true
  | (_, v) :: rest => joinFrom false v rest
  end.

(** [buildExprs(exprs, builder, OrWithSpace)]: every join is [OR]. *)
Definition joinOr (items : list (bool * bool)) : bool :=
  existsb snd items.

(** [AndConditions.Build], [OrConditions.Build] and, for a
    [clause.Where], [Where.Build], which first opens a lone
    [AndConditions] and switches positions; a predicate is true as the
    row has it. *)
Fixpoint holds (e : clause.Expression) : bool :=
  match e with
  | clause.AndConditions es => joinAnd (map (fun x => (isSingleOr x, holds x)) es)
  | clause.OrConditions es => joinOr (map (fun x => (isSingleOr x, holds x)) es)
  | clause.Where es =>
      let es :=
        match es with
        | [e0] => match e0 with clause.AndConditions es' => es' | _ => es end
        | _ => es
        end in
      joinAnd (map snd (switchPosition fst
                 (map (fun x => (staysBehind x, (isSingleOr x, holds x))) es)))
  | _ => rho e
  end.

(** The filter of a WHERE clause with the expressions [es]. *)
Definition whereHolds (es : list clause.Expression) : bool :=
  holds (clause.Where es).
End Reading.

(** ** What the properties observe *)

(** [Unmarshal(Marshal(x))] as a program computes it: the text of [x] is
    decoded into a fresh wrapper, [var y DeletedAt]. *)
Definition roundTrip (ma : time_Time -> result string)
    (un : string -> time_Time -> time_Time * option error)
    (x : DeletedAt.t) : option DeletedAt.t :=
  match DeletedAt.MarshalJSON ma x with
  | Ok b => Some (fst (DeletedAt.UnmarshalJSON un DeletedAt.zero b))
  | Err _ => None
  end.

(** The number of OR groups among the top-level expressions. *)
Definition countOrGroups (es : list clause.Expression) : nat :=
  length (List.filter isOrGroup es).

(** The defensive normalization has taken place: the WHERE clause holds
    the former expressions as one AND group, followed by the exclusion
    predicate. *)
Definition normalized (sd : SoftDeleteQueryClause.t) (stmt : gorm.Statement.t) : Prop :=
  whereExprs (SoftDeleteQueryClause.ModifyStatement sd stmt)
  = [clause.AndConditions (whereExprs stmt); SoftDeleteQueryClause.notDeleted sd].

(** C4 as stated: the normalization takes place exactly when there is
    exactly one OR group at the top level. *)
Definition normalizedIffOneOrGroup (sd : SoftDeleteQueryClause.t)
    (stmt : gorm.Statement.t) : Prop :=
  normalized sd stmt <-> countOrGroups (whereExprs stmt) = 1%nat.

(** C2 as stated: after two applications the WHERE clause has exactly
    one exclusion predicate and the first application has set the
    marker. *)
Definition onePredicateAfterTwo (sd : SoftDeleteQueryClause.t)
    (stmt : gorm.Statement.t) : Prop :=
  countNotDeleted sd
    (SoftDeleteQueryClause.ModifyStatement sd
       (SoftDeleteQueryClause.ModifyStatement sd stmt)) = 1%nat
  /\ is_Some (gorm.Statement.Clauses (SoftDeleteQueryClause.ModifyStatement sd stmt)
                !! "soft_delete_enabled").

(** The size of an expression: no expression is one of its own parts. *)
Fixpoint exprSize (e : clause.Expression) : nat :=
  match e with
  | clause.AndConditions es | clause.OrConditions es | clause.Where es =>
      S (list_sum (map exprSize es))
  | _ => 1
  end.

(** The fields of a statement that no step of the package writes. *)
Definition sameHost (s s' : gorm.Statement.t) : Prop :=
  gorm.Statement.Unscoped s' = gorm.Statement.Unscoped s
  /\ gorm.Statement.Context s' = gorm.Statement.Context s
  /\ gorm.Statement.Table s' = gorm.Statement.Table s
  /\ gorm.Statement.Schema s' = gorm.Statement.Schema s
  /\ gorm.Statement.ReflectValue s' = gorm.Statement.ReflectValue s
  /\ gorm.Statement.Dest s' = gorm.Statement.Dest s
  /\ gorm.Statement.Model s' = gorm.Statement.Model s
  /\ gorm.Statement.DB s' = gorm.Statement.DB s.

(** A step from [s] to [s'] that writes no clause but those named in
    [K] and sets the columns [log] on the record. *)
Record step (K : list string) (log : list (string * any)) (s s' : gorm.Statement.t)
    : Prop := mkStep {
  step_host : sameHost s s';
  step_clauses : forall k, k ∉ K ->
    gorm.Statement.Clauses s' !! k = gorm.Statement.Clauses s !! k;
  step_assigned : gorm.Statement.Assigned s' = gorm.Statement.Assigned s ++ log;
  step_dest : gorm.Statement.DestKind s' = gorm.Statement.DestKind s;
}.

(** [s'] is [s] after the record has taken the columns [cols] and the
    errors [errs] have been added, and nothing else. *)
Definition recorded (cols : list (string * any)) (errs : list error)
    (s s' : gorm.Statement.t) : Prop :=
  s' = {| gorm.Statement.Clauses := gorm.Statement.Clauses s;
          gorm.Statement.Unscoped := gorm.Statement.Unscoped s;
          gorm.Statement.SQL := gorm.Statement.SQL s;
          gorm.Statement.Vars := gorm.Statement.Vars s;
          gorm.Statement.Context := gorm.Statement.Context s;
          gorm.Statement.Table := gorm.Statement.Table s;
          gorm.Statement.Schema := gorm.Statement.Schema s;
          gorm.Statement.ReflectValue := gorm.Statement.ReflectValue s;
          gorm.Statement.Dest := gorm.Statement.Dest s;
          gorm.Statement.Model := gorm.Statement.Model s;
          gorm.Statement.DB := gorm.Statement.DB s;
          gorm.Statement.Assigned := gorm.Statement.Assigned s ++ cols;
          gorm.Statement.DestKind := gorm.Statement.DestKind s;
          gorm.Statement.Error := gorm.Statement.Error s ++ errs |}.

(** The SQL buffer and its variables are as they were. *)
Definition sameBuffers (s s' : gorm.Statement.t) : Prop :=
  gorm.Statement.SQL s' = gorm.Statement.SQL s
  /\ gorm.Statement.Vars s' = gorm.Statement.Vars s.

Section DeleteObservations.
Variable GORM_CTX_DELETED_BY : string.
Variable reflect_ValueOf : nat -> reflect.Value.
Variable GetIdentityFieldValuesMap :
  gmap string any -> reflect.Value -> list schema.Field -> list (list any).
Variable render : gorm.Statement.t -> list string -> string * list any.

(** The actor of a delete: the actor field and the value under the
    context key, when there are both. *)
Definition actorOf (sd : SoftDeleteDeleteClause.t) (stmt : gorm.Statement.t)
    : option (string * any) :=
  match SoftDeleteDeleteClause.ActorField sd with
  | Some actorField =>
      match gorm.Statement.Context_Value stmt GORM_CTX_DELETED_BY with
      | Nil => None
      | actorName => Some (schema.DBName actorField, actorName)
      end
  | None => None
  end.

(** The assignment [column = value] of a [clause.Set]. *)
Definition assign (cv : string * any) : clause.Assignment :=
  {| clause.Assignment_Column := SoftDeleteDeleteClause.column (fst cv);
     clause.Assignment_Value := snd cv |}.

(** The [IN] predicate over the primary-key values of the reflected
    value [rv], if it has any. *)
Definition keyPredicate (sch : schema.SchemaOf schema.Field) (rv : reflect.Value)
    (stmt : gorm.Statement.t) : list clause.Expression :=
  let '(column, values) :=
    schema.ToQueryValues (gorm.Statement.Table stmt) (schema.PrimaryFieldDBNames sch)
      (GetIdentityFieldValuesMap (gorm.Statement.Context stmt) rv
         (schema.PrimaryFields sch)) in
  if (0 <? length values)%nat then [clause.IN column values] else [].

(** The [IN] predicates of a delete: that of the reflected value and,
    when the reflected value is addressable and the model is not nil and
    is not the destination, that of the model. *)
Definition keyPredicates (stmt : gorm.Statement.t) : list clause.Expression :=
  match gorm.Statement.Schema stmt with
  | Some sch =>
      keyPredicate sch (gorm.Statement.ReflectValue stmt) stmt ++
      match gorm.Statement.Model stmt with
      | Some model =>
          if reflect.CanAddr (gorm.Statement.ReflectValue stmt)
             && bool_decide (gorm.Statement.Dest stmt <> gorm.Statement.Model stmt)
          then keyPredicate sch (reflect_ValueOf model) stmt
          else []
      | None => []
      end
  | None => []
  end.

(** C7 as stated, second part: whenever destination and model are both
    there and differ, the [IN] predicate over the keys of the model is in
    the WHERE clause after the delete modifier. *)
Definition modelKeysScoped (sd : SoftDeleteDeleteClause.t) (stmt : gorm.Statement.t) : Prop :=
  forall d m sch,
    gorm.Statement.Dest stmt = Some d -> gorm.Statement.Model stmt = Some m -> d <> m ->
    gorm.Statement.Schema stmt = Some sch ->
    keyPredicate sch (reflect_ValueOf m) stmt
    ⊆ flat_map predicates
        (whereExprs
           (SoftDeleteDeleteClause.ModifyStatement GORM_CTX_DELETED_BY reflect_ValueOf
              GetIdentityFieldValuesMap render sd stmt)).

(** C8 as stated, second part: in a delete that its guard lets run,
    with an actor field and a value under the context key, the actor
    column is among the columns set on the in-memory record. *)
Definition actorMarked (sd : SoftDeleteDeleteClause.t) (stmt : gorm.Statement.t) : Prop :=
  forall actorField actor,
    gorm.Statement.SQL stmt = EmptyString ->
    gorm.Statement.Unscoped stmt = false ->
    SoftDeleteDeleteClause.ActorField sd = Some actorField ->
    gorm.Statement.Context stmt !! GORM_CTX_DELETED_BY = Some actor -> actor <> Nil ->
    (schema.DBName actorField, actor)
    ∈ gorm.Statement.Assigned
        (SoftDeleteDeleteClause.ModifyStatement GORM_CTX_DELETED_BY reflect_ValueOf
           GetIdentityFieldValuesMap render sd stmt).
End DeleteObservations.

(** ** Test doubles of the host, for the examples *)
Module Fixture.
Definition quote : Ascii.ascii := Ascii.ascii_of_nat 34.

(** 2000-01-01T00:00:00Z in seconds since Go's zero time. *)
Definition y2k : time_Time := 63082281600.
Definition y2k_json : string := String quote ("2000-01-01T00:00:00Z" +:+ String quote EmptyString).

(** A codec that knows one point in time. *)
Definition json_Marshal_Time (t : time_Time) : result string :=
  if decide (t = y2k) then Ok y2k_json else Err "Time.MarshalJSON: year outside of range [0,9999]".

Definition json_Unmarshal_Time (b : string) (t : time_Time) : time_Time * option error :=
  if decide (b = y2k_json) then (y2k, None)
  else (0, Some "parsing time: cannot parse").

(** A date parser that knows one date. *)
Definition now_Parse (v : string) : result time_Time :=
  if decide (v = "2000-01-01") then Ok y2k else Err "Can't parse string as time".

Definition noSchema : schema.SchemaOf schema.Field :=
  schema.mkSchema (fun _ => None) [] [].

(** A setter that takes every value. *)
Definition set (rv : reflect.Value) (value : any) : option error := None.

Definition idField : schema.Field := schema.mkField "id" ∅ noSchema set.
Definition deletedByField : schema.Field := schema.mkField "deleted_by" ∅ noSchema set.

(** The schema of a table with the primary key [id] and the columns
    [deleted_at] and [deleted_by]; a field is found by the name of its
    column or by the name it has in the struct. *)
Definition users : schema.SchemaOf schema.Field :=
  schema.mkSchema
    (fun name =>
       if decide (name = "DeletedBy" \/ name = "deleted_by") then Some deletedByField
       else if decide (name = "DeletedAt" \/ name = "deleted_at")
       then Some (schema.mkField "deleted_at" ∅ noSchema set)
       else if decide (name = "ID" \/ name = "id") then Some idField
       else None)
    [idField] ["id"].

(** The soft-delete field, tagged [ZEROVALUE:2000-01-01] and
    [ACTORFIELD:DeletedBy]. *)
Definition deletedAtField : schema.Field :=
  schema.mkField "deleted_at"
    {[ "ZEROVALUE" := "2000-01-01"; "ACTORFIELD" := "DeletedBy" ]} users set.

(** The same field with a tag that is no date. *)
Definition badTagField : schema.Field :=
  schema.mkField "deleted_at" {[ "ZEROVALUE" := "soon" ]} users set.

(** The sentinel of [deletedAtField] and the three clauses the field
    registers. *)
Definition sentinel : NullString.t :=
  {| NullString.String := "2000-01-01"; NullString.Valid := true |}.

Definition sdQuery : SoftDeleteQueryClause.t :=
  SoftDeleteQueryClause.mk sentinel deletedAtField (Some deletedByField).
Definition sdUpdate : SoftDeleteUpdateClause.t :=
  SoftDeleteUpdateClause.mk sentinel deletedAtField (Some deletedByField).
Definition sdDelete : SoftDeleteDeleteClause.t :=
  SoftDeleteDeleteClause.mk sentinel deletedAtField (Some deletedByField).

Definition GORM_CTX_DELETED_BY : string := "gorm:deleted_by".

(** Reflection: every value is a pointer to a struct; the record 1
    holds the keys 1, 2 and 3, the record 2 the key 7. *)
Definition reflect_ValueOf (v : nat) : reflect.Value :=
  {| reflect.CanAddr := false; reflect.Kind := reflect.Ptr; reflect.Of := v;
     reflect.Elems := [] |}.

Definition GetIdentityFieldValuesMap (ctx : gmap string any) (rv : reflect.Value)
    (fields : list schema.Field) : list (list any) :=
  match reflect.Of rv with
  | 1%nat => [[Int 1]; [Int 2]; [Int 3]]
  | 2%nat => [[Int 7]]
  | _ => []
  end.

Definition render (stmt : gorm.Statement.t) (clauses : list string) : string * list any :=
  ("UPDATE", []).

Definition db : gorm.DB :=
  gorm.mkDB (fun _ => y2k) ["UPDATE"; "SET"; "WHERE"].

(** A statement on [users] with the given clauses, flag, SQL buffer,
    context, reflected value, destination and model. *)
Definition statement (clauses : gmap string clause.Clause.t) (unscoped : bool)
    (sql : string) (ctx : gmap string any) (rv : reflect.Value)
    (dest model : option nat) : gorm.Statement.t :=
  gorm.Statement.mk clauses unscoped sql [] ctx "users" (Some users) rv dest model db []
    gorm.OtherType [].

Definition a : clause.Expression := clause.Expr "a" [].
Definition b : clause.Expression := clause.Expr "b" [].
Definition c : clause.Expression := clause.Expr "c" [].

(** A WHERE clause with the given expressions. *)
Definition whereOf (es : list clause.Expression) : gmap string clause.Clause.t :=
  {[ "WHERE" := clause.Clause.mk "WHERE" (Some (clause.Where es)) ]}.

(** The record 1 reflected through a pointer, and reflected as a
    value. *)
Definition rv1 : reflect.Value :=
  {| reflect.CanAddr := true; reflect.Kind := reflect.Struct; reflect.Of := 1;
     reflect.Elems := [] |}.
Definition rv1_unaddressable : reflect.Value :=
  {| reflect.CanAddr := false; reflect.Kind := reflect.Struct; reflect.Of := 1;
     reflect.Elems := [] |}.

(** A conversion that takes a time as it is and nothing else. *)
Definition convertAssign (dest : time_Time) (src : any) : time_Time * option error :=
  match src with
  | TimeVal t => (t, None)
  | _ => (dest, Some "unsupported Scan, storing driver.Value into type *time.Time")
  end.

(** The delete modifier with the test doubles of the host. *)
Definition delete (sd : SoftDeleteDeleteClause.t) (stmt : gorm.Statement.t)
    : gorm.Statement.t :=
  SoftDeleteDeleteClause.ModifyStatement GORM_CTX_DELETED_BY reflect_ValueOf
    GetIdentityFieldValuesMap render sd stmt.

(** Records in which no primary-key value is found. *)
Definition noIdentity (ctx : gmap string any) (rv : reflect.Value)
    (fields : list schema.Field) : list (list any) := [].

(** A table with the composite primary key [(tenant_id, id)], and a
    record with two tuples of key values. *)
Definition orders : schema.SchemaOf schema.Field :=
  schema.mkSchema (fun _ => None)
    [schema.mkField "tenant_id" ∅ noSchema set; idField] ["tenant_id"; "id"].

Definition orderIdentity (ctx : gmap string any) (rv : reflect.Value)
    (fields : list schema.Field) : list (list any) :=
  [[Int 1; Int 10]; [Int 1; Int 11]].

Definition orderStatement : gorm.Statement.t :=
  gorm.Statement.mk ∅ false EmptyString [] ∅ "orders" (Some orders) rv1
    (Some 1%nat) (Some 1%nat) db [] gorm.OtherType [].

(** A soft-delete field whose [ACTORFIELD] tag names no field of the
    schema. *)
Definition strayActorField : schema.Field :=
  schema.mkField "deleted_at" {[ "ACTORFIELD" := "Nobody" ]} users set.
End Fixture.

(** * Properties *)

Ltac not_named :=
  repeat (apply not_elem_of_cons; split; [discriminate |]); apply not_elem_of_nil.


(** ** The nullable timestamp *)

Lemma UnmarshalJSON_null (un : string -> time_Time -> time_Time * option error)
    (n : DeletedAt.t) :
  DeletedAt.UnmarshalJSON un n "null"
  = ({| DeletedAt.Time := DeletedAt.Time n; DeletedAt.Valid := false |}, None).
Proof. reflexivity. Qed.

Lemma MarshalJSON_not_present (ma : time_Time -> result string) (x : DeletedAt.t) :
  DeletedAt.Valid x = false -> DeletedAt.MarshalJSON ma x = Ok "null".
Proof. intros Hx. unfold DeletedAt.MarshalJSON. by rewrite Hx. Qed.

(** C10: when [UnmarshalJSON] returns an error, the receiver's [Valid]
    flag is the one it had before the call; a receiver that was not
    present is still not present. *)
Theorem UnmarshalJSON_error_keeps_Valid
    (un : string -> time_Time -> time_Time * option error)
    (n : DeletedAt.t) (b : string) (e : error) :
  snd (DeletedAt.UnmarshalJSON un n b) = Some e ->
  DeletedAt.Valid (fst (DeletedAt.UnmarshalJSON un n b)) = DeletedAt.Valid n.
Proof.
  unfold DeletedAt.UnmarshalJSON.
  case_decide as Hb; [discriminate |].
  destruct (un b (DeletedAt.Time n)) as [tm [e' |]]; simpl; [done | discriminate].
Qed.

Lemma UnmarshalJSON_error_keeps_Valid_witness :
  snd (DeletedAt.UnmarshalJSON Fixture.json_Unmarshal_Time DeletedAt.zero "tomorrow")
    = Some "parsing time: cannot parse"
  /\ DeletedAt.Valid
       (fst (DeletedAt.UnmarshalJSON Fixture.json_Unmarshal_Time DeletedAt.zero "tomorrow"))
     = false.
Proof.
  split; [reflexivity |].
  exact (UnmarshalJSON_error_keeps_Valid Fixture.json_Unmarshal_Time DeletedAt.zero
           "tomorrow" "parsing time: cannot parse" eq_refl).
Defined.

(** C5, as stated, fails: a wrapper that is not present and still holds
    a time (left there by an earlier decode, say) is written as [null],
    and a fresh wrapper that reads [null] holds the zero time. *)
Lemma roundTrip_not_present_stale_time :
  roundTrip Fixture.json_Marshal_Time Fixture.json_Unmarshal_Time
    {| DeletedAt.Time := Fixture.y2k; DeletedAt.Valid := false |}
  <> Some {| DeletedAt.Time := Fixture.y2k; DeletedAt.Valid := false |}.
Proof. vm_compute. discriminate. Qed.

(** Such a wrapper is what [UnmarshalJSON] itself leaves behind when a
    wrapper holding a time reads [null]. *)
Example UnmarshalJSON_null_keeps_time :
  fst (DeletedAt.UnmarshalJSON Fixture.json_Unmarshal_Time
         {| DeletedAt.Time := Fixture.y2k; DeletedAt.Valid := true |} "null")
  = {| DeletedAt.Time := Fixture.y2k; DeletedAt.Valid := false |}.
Proof. reflexivity. Qed.

(** C5, amended.  If [x] is present and the codec of [time.Time] writes
    the time of [x] as a text [b], other than the literal [null], that it
    reads back as the same time, then [MarshalJSON] writes [x] as [b] and
    decoding [b] into any receiver [r] succeeds and leaves exactly [x].
    If [x] is not present, [MarshalJSON] writes it as the literal text
    [null], whatever the codec, and decoding that text succeeds and
    leaves a wrapper that is not present and has the time the receiver
    had. *)
Theorem json_round_trip (ma : time_Time -> result string)
    (un : string -> time_Time -> time_Time * option error)
    (x r : DeletedAt.t) :
  (DeletedAt.Valid x = true ->
   forall b : string,
     ma (DeletedAt.Time x) = Ok b -> b <> "null" ->
     un b (DeletedAt.Time r) = (DeletedAt.Time x, None) ->
     DeletedAt.MarshalJSON ma x = Ok b
     /\ DeletedAt.UnmarshalJSON un r b = (x, None))
  /\ (DeletedAt.Valid x = false ->
      DeletedAt.MarshalJSON ma x = Ok "null"
      /\ DeletedAt.UnmarshalJSON un r "null"
         = ({| DeletedAt.Time := DeletedAt.Time r; DeletedAt.Valid := false |}, None)).
Proof.
  destruct x as [tx vx]. simpl. split.
  - intros -> b Hma Hb Hun. split.
    + unfold DeletedAt.MarshalJSON. simpl. exact Hma.
    + unfold DeletedAt.UnmarshalJSON. case_decide; [done |].
      rewrite Hun. reflexivity.
  - intros ->. split; [reflexivity | apply UnmarshalJSON_null].
Qed.

Lemma json_round_trip_witness :
  let x := {| DeletedAt.Time := Fixture.y2k; DeletedAt.Valid := true |} in
  DeletedAt.MarshalJSON Fixture.json_Marshal_Time x = Ok Fixture.y2k_json
  /\ DeletedAt.UnmarshalJSON Fixture.json_Unmarshal_Time DeletedAt.zero Fixture.y2k_json
     = (x, None).
Proof.
  intros x.
  refine (proj1 (json_round_trip Fixture.json_Marshal_Time Fixture.json_Unmarshal_Time
    x DeletedAt.zero) eq_refl Fixture.y2k_json eq_refl _ eq_refl).
  vm_compute. discriminate.
Defined.

(** ** The sentinel *)

(** C6: the sentinel is decided by the [ZEROVALUE] tag alone.  A tag that
    [now.Parse] accepts is the sentinel, as written; without the tag, or
    with a tag that [now.Parse] rejects, the sentinel is the null
    [sql.NullString]; and the sentinel so resolved is the value of the
    exclusion predicate of the clause that [QueryClauses] registers.
    [parseZeroValueTag] has a value in every case: it has no error
    result. *)
Theorem sentinel_resolution (now_Parse : string -> result time_Time) (f : schema.Field) :
  (forall v t, schema.TagSettings f !! "ZEROVALUE" = Some v -> now_Parse v = Ok t ->
     parseZeroValueTag now_Parse f = {| NullString.String := v; NullString.Valid := true |})
  /\ (schema.TagSettings f !! "ZEROVALUE" = None ->
      parseZeroValueTag now_Parse f = NullString.null)
  /\ (forall v e, schema.TagSettings f !! "ZEROVALUE" = Some v -> now_Parse v = Err e ->
      parseZeroValueTag now_Parse f = NullString.null)
  /\ (forall f', schema.TagSettings f' !! "ZEROVALUE" = schema.TagSettings f !! "ZEROVALUE" ->
      parseZeroValueTag now_Parse f' = parseZeroValueTag now_Parse f)
  /\ (forall sd, sd ∈ QueryClauses now_Parse f ->
      SoftDeleteQueryClause.notDeleted sd
      = clause.Eq {| clause.Column.Table := clause.CurrentTable;
                     clause.Column.Name := schema.DBName f |}
                  (NullStr (parseZeroValueTag now_Parse f))).
Proof.
  unfold parseZeroValueTag. repeat split.
  - intros v t -> ->. reflexivity.
  - intros ->. reflexivity.
  - intros v e -> ->. reflexivity.
  - intros f' ->. reflexivity.
  - intros sd Hsd. apply list_elem_of_singleton in Hsd. subst sd. reflexivity.
Qed.

(** The tag [2000-01-01] is the sentinel as written; the tag [soon] is
    not a date and gives the null sentinel. *)
Lemma sentinel_resolution_witness :
  parseZeroValueTag Fixture.now_Parse Fixture.deletedAtField
    = {| NullString.String := "2000-01-01"; NullString.Valid := true |}
  /\ parseZeroValueTag Fixture.now_Parse Fixture.badTagField = NullString.null.
Proof.
  split.
  - exact (proj1 (sentinel_resolution Fixture.now_Parse Fixture.deletedAtField)
             "2000-01-01" Fixture.y2k eq_refl eq_refl).
  - exact (proj1 (proj2 (proj2 (sentinel_resolution Fixture.now_Parse Fixture.badTagField)))
             "soon" "Can't parse string as time" eq_refl eq_refl).
Defined.

(** The clauses that the tagged field of the examples registers. *)
Example registered_clauses :
  QueryClauses Fixture.now_Parse Fixture.deletedAtField = [Fixture.sdQuery]
  /\ UpdateClauses Fixture.now_Parse Fixture.deletedAtField = [Fixture.sdUpdate]
  /\ DeleteClauses Fixture.now_Parse Fixture.deletedAtField = [Fixture.sdDelete].
Proof. repeat split. Qed.

(** ** The guards of the three modifiers *)

Section Guards.
Variable GORM_CTX_DELETED_BY : string.
Variable reflect_ValueOf : nat -> reflect.Value.
Variable GetIdentityFieldValuesMap :
  gmap string any -> reflect.Value -> list schema.Field -> list (list any).
Variable render : gorm.Statement.t -> list string -> string * list any.

(** C1: on an unscoped statement each of the three modifiers returns the
    statement as it was: no clause is added to [Clauses], nothing is set
    on the in-memory record. *)
Theorem unscoped_statement_untouched (sdq : SoftDeleteQueryClause.t)
    (sdu : SoftDeleteUpdateClause.t) (sdd : SoftDeleteDeleteClause.t)
    (stmt : gorm.Statement.t) :
  gorm.Statement.Unscoped stmt = true ->
  SoftDeleteQueryClause.ModifyStatement sdq stmt = stmt
  /\ SoftDeleteUpdateClause.ModifyStatement sdu stmt = stmt
  /\ SoftDeleteDeleteClause.ModifyStatement GORM_CTX_DELETED_BY reflect_ValueOf
       GetIdentityFieldValuesMap render sdd stmt = stmt.
Proof.
  intros Hun.
  unfold SoftDeleteQueryClause.ModifyStatement, SoftDeleteUpdateClause.ModifyStatement,
    SoftDeleteDeleteClause.ModifyStatement.
  rewrite Hun, andb_false_r.
  by destruct (gorm.Statement.Clauses stmt !! "soft_delete_enabled").
Qed.

(** C9: on a statement whose SQL buffer is not empty the update modifier
    and the delete modifier return the statement as it was: no clause is
    added, no column is set on the record, nothing is written to the SQL
    buffer. *)
Theorem rendered_statement_untouched (sdu : SoftDeleteUpdateClause.t)
    (sdd : SoftDeleteDeleteClause.t) (stmt : gorm.Statement.t) :
  gorm.Statement.SQL stmt <> EmptyString ->
  SoftDeleteUpdateClause.ModifyStatement sdu stmt = stmt
  /\ SoftDeleteDeleteClause.ModifyStatement GORM_CTX_DELETED_BY reflect_ValueOf
       GetIdentityFieldValuesMap render sdd stmt = stmt.
Proof.
  intros Hsql.
  unfold SoftDeleteUpdateClause.ModifyStatement, SoftDeleteDeleteClause.ModifyStatement.
  destruct (gorm.Statement.SQL stmt) as [| ch s]; [done |]. simpl. done.
Qed.
End Guards.

Lemma unscoped_statement_untouched_witness :
  let stmt := Fixture.statement (Fixture.whereOf [Fixture.a]) true EmptyString ∅
                Fixture.rv1 (Some 1%nat) (Some 1%nat) in
  SoftDeleteQueryClause.ModifyStatement Fixture.sdQuery stmt = stmt
  /\ SoftDeleteUpdateClause.ModifyStatement Fixture.sdUpdate stmt = stmt
  /\ SoftDeleteDeleteClause.ModifyStatement Fixture.GORM_CTX_DELETED_BY
       Fixture.reflect_ValueOf Fixture.GetIdentityFieldValuesMap Fixture.render
       Fixture.sdDelete stmt = stmt.
Proof.
  intros stmt.
  exact (unscoped_statement_untouched Fixture.GORM_CTX_DELETED_BY Fixture.reflect_ValueOf
           Fixture.GetIdentityFieldValuesMap Fixture.render Fixture.sdQuery Fixture.sdUpdate
           Fixture.sdDelete stmt eq_refl).
Defined.

Lemma rendered_statement_untouched_witness :
  let stmt := Fixture.statement (Fixture.whereOf [Fixture.a]) false "UPDATE users" ∅
                Fixture.rv1 (Some 1%nat) (Some 1%nat) in
  SoftDeleteUpdateClause.ModifyStatement Fixture.sdUpdate stmt = stmt
  /\ SoftDeleteDeleteClause.ModifyStatement Fixture.GORM_CTX_DELETED_BY
       Fixture.reflect_ValueOf Fixture.GetIdentityFieldValuesMap Fixture.render
       Fixture.sdDelete stmt = stmt.
Proof.
  intros stmt.
  exact (rendered_statement_untouched Fixture.GORM_CTX_DELETED_BY Fixture.reflect_ValueOf
           Fixture.GetIdentityFieldValuesMap Fixture.render Fixture.sdUpdate
           Fixture.sdDelete stmt ltac:(discriminate)).
Defined.

(** ** The exclusion predicate and the WHERE clause *)

Lemma whereExprs_AddClause_Where (stmt : gorm.Statement.t) (xs : list clause.Expression) :
  whereExprs (gorm.Statement.AddClause stmt (clause.Where xs)) = whereExprs stmt ++ xs.
Proof.
  unfold whereExprs, gorm.Statement.AddClause. simpl. rewrite lookup_insert_eq.
  destruct (gorm.Statement.Clauses stmt !! "WHERE") as [[n [[] |]] |]; reflexivity.
Qed.

Lemma whereExprs_insert_other (stmt : gorm.Statement.t) (k : string) (c : clause.Clause.t) :
  k <> "WHERE" ->
  whereExprs (gorm.Statement.with_Clauses (insert k c) stmt) = whereExprs stmt.
Proof.
  intros Hk. unfold whereExprs. simpl. by rewrite lookup_insert_ne.
Qed.

Lemma wrapLoop_existsb (exprs rest : list clause.Expression) :
  SoftDeleteQueryClause.wrapLoop exprs rest
  = if existsb isSingleOr rest then Some (option_list (clause.And exprs)) else None.
Proof.
  induction rest as [| e rest IH]; simpl; [done |].
  destruct (isSingleOr e); [done | exact IH].
Qed.

Lemma And_of_single_or (es : list clause.Expression) :
  existsb isSingleOr es = true -> clause.And es = Some (clause.AndConditions es).
Proof.
  destruct es as [| e [| e' es]]; simpl.
  - discriminate.
  - rewrite orb_false_r. destruct e; simpl; try discriminate. done.
  - intros _. by destruct e.
Qed.

Lemma whereExprs_normalizeWhere (stmt : gorm.Statement.t) :
  whereExprs (SoftDeleteQueryClause.normalizeWhere stmt)
  = if existsb isSingleOr (whereExprs stmt)
    then [clause.AndConditions (whereExprs stmt)]
    else whereExprs stmt.
Proof.
  unfold SoftDeleteQueryClause.normalizeWhere, whereExprs.
  destruct (gorm.Statement.Clauses stmt !! "WHERE") as [[n [e |]] |] eqn:Hw;
    simpl; try (rewrite Hw; reflexivity).
  destruct e; simpl; try (rewrite Hw; reflexivity).
  rewrite wrapLoop_existsb.
  destruct (existsb isSingleOr Exprs) eqn:Hex.
  - rewrite (And_of_single_or _ Hex).
    destruct Exprs as [| e es]; [discriminate |]. simpl.
    by rewrite lookup_insert_eq.
  - destruct Exprs; simpl; by rewrite Hw.
Qed.

(** What the query modifier does when it fires. *)
Lemma Query_ModifyStatement_fires (sd : SoftDeleteQueryClause.t) (stmt : gorm.Statement.t) :
  gorm.Statement.Unscoped stmt = false ->
  gorm.Statement.Clauses stmt !! "soft_delete_enabled" = None ->
  SoftDeleteQueryClause.ModifyStatement sd stmt
  = gorm.Statement.with_Clauses (insert "soft_delete_enabled" clause.Clause.zero)
      (gorm.Statement.AddClause (SoftDeleteQueryClause.normalizeWhere stmt)
         (clause.Where [SoftDeleteQueryClause.notDeleted sd])).
Proof.
  intros Hun Hm. unfold SoftDeleteQueryClause.ModifyStatement. by rewrite Hun, Hm.
Qed.

(** What it does otherwise. *)
Lemma Query_ModifyStatement_skips (sd : SoftDeleteQueryClause.t) (stmt : gorm.Statement.t) :
  gorm.Statement.Unscoped stmt = true
  \/ is_Some (gorm.Statement.Clauses stmt !! "soft_delete_enabled") ->
  SoftDeleteQueryClause.ModifyStatement sd stmt = stmt.
Proof.
  unfold SoftDeleteQueryClause.ModifyStatement. intros [-> | [c ->]]; [| done].
  by destruct (gorm.Statement.Clauses stmt !! "soft_delete_enabled").
Qed.

Lemma Query_ModifyStatement_marker (sd : SoftDeleteQueryClause.t) (stmt : gorm.Statement.t) :
  gorm.Statement.Unscoped stmt = false ->
  is_Some (gorm.Statement.Clauses (SoftDeleteQueryClause.ModifyStatement sd stmt)
             !! "soft_delete_enabled").
Proof.
  intros Hun.
  destruct (gorm.Statement.Clauses stmt !! "soft_delete_enabled") as [c |] eqn:Hm.
  - rewrite Query_ModifyStatement_skips; [by rewrite Hm | right; by rewrite Hm].
  - rewrite Query_ModifyStatement_fires by done. simpl. by rewrite lookup_insert_eq.
Qed.

Lemma whereExprs_Query_ModifyStatement (sd : SoftDeleteQueryClause.t)
    (stmt : gorm.Statement.t) :
  gorm.Statement.Unscoped stmt = false ->
  gorm.Statement.Clauses stmt !! "soft_delete_enabled" = None ->
  whereExprs (SoftDeleteQueryClause.ModifyStatement sd stmt)
  = if existsb isSingleOr (whereExprs stmt)
    then [clause.AndConditions (whereExprs stmt); SoftDeleteQueryClause.notDeleted sd]
    else whereExprs stmt ++ [SoftDeleteQueryClause.notDeleted sd].
Proof.
  intros Hun Hm. rewrite Query_ModifyStatement_fires by done.
  rewrite whereExprs_insert_other by done.
  rewrite whereExprs_AddClause_Where, whereExprs_normalizeWhere.
  by destruct (existsb isSingleOr (whereExprs stmt)).
Qed.

(** The predicates of the WHERE clause are kept, in their order, and the
    exclusion predicate comes after them. *)
Lemma predicates_Query_ModifyStatement (sd : SoftDeleteQueryClause.t)
    (stmt : gorm.Statement.t) :
  gorm.Statement.Unscoped stmt = false ->
  gorm.Statement.Clauses stmt !! "soft_delete_enabled" = None ->
  flat_map predicates (whereExprs (SoftDeleteQueryClause.ModifyStatement sd stmt))
  = flat_map predicates (whereExprs stmt) ++ [SoftDeleteQueryClause.notDeleted sd].
Proof.
  intros Hun Hm. rewrite whereExprs_Query_ModifyStatement by done.
  destruct (existsb isSingleOr (whereExprs stmt)).
  - reflexivity.
  - by rewrite flat_map_app.
Qed.

Lemma isNotDeleted_notDeleted (sd : SoftDeleteQueryClause.t) :
  isNotDeleted sd (SoftDeleteQueryClause.notDeleted sd) = true.
Proof.
  unfold isNotDeleted, SoftDeleteQueryClause.notDeleted.
  by rewrite !bool_decide_eq_true_2.
Qed.

Lemma holds_single_or (rho : clause.Expression -> bool) (b : clause.Expression) :
  holds rho (clause.OrConditions [b]) = holds rho b.
Proof. simpl. unfold joinOr. simpl. apply orb_false_r. Qed.

(** A chained disjunction reads as a disjunction. *)
Lemma whereHolds_or (rho : clause.Expression -> bool) (a b : clause.Expression) :
  whereHolds rho [a; clause.OrConditions [b]] = holds rho a || holds rho b.
Proof.
  unfold whereHolds.
  change (holds rho (clause.Where [a; clause.OrConditions [b]]))
    with (joinAnd (map snd (switchPosition fst
            [(staysBehind a, (isSingleOr a, holds rho a));
             (true, (true, holds rho (clause.OrConditions [b])))]))).
  rewrite holds_single_or.
  destruct (staysBehind a); reflexivity.
Qed.

(** The same disjunction as a group, followed by a predicate. *)
Lemma whereHolds_group_and (rho : clause.Expression -> bool) (a b e : clause.Expression) :
  isSingleOr e = false ->
  whereHolds rho [clause.AndConditions [a; clause.OrConditions [b]]; e]
  = (holds rho a || holds rho b) && holds rho e.
Proof.
  intros He. unfold whereHolds.
  change (holds rho (clause.Where [clause.AndConditions [a; clause.OrConditions [b]]; e]))
    with (joinAnd (map snd (switchPosition fst
            [(false, (false, joinAnd [(isSingleOr a, holds rho a);
                                      (true, holds rho (clause.OrConditions [b]))]));
             (staysBehind e, (isSingleOr e, holds rho e))]))).
  rewrite holds_single_or. simpl. rewrite He. reflexivity.
Qed.

(** Without the group the new predicate would fall to the last branch
    of the disjunction. *)
Lemma whereHolds_or_then_and (rho : clause.Expression -> bool) (a b e : clause.Expression) :
  staysBehind a = false ->
  isSingleOr e = false ->
  whereHolds rho [a; clause.OrConditions [b]; e]
  = holds rho a || (holds rho b && holds rho e).
Proof.
  intros Ha He. unfold whereHolds.
  change (holds rho (clause.Where [a; clause.OrConditions [b]; e]))
    with (joinAnd (map snd (switchPosition fst
            [(staysBehind a, (isSingleOr a, holds rho a));
             (true, (true, holds rho (clause.OrConditions [b])));
             (staysBehind e, (isSingleOr e, holds rho e))]))).
  rewrite holds_single_or, Ha. simpl. rewrite He. reflexivity.
Qed.

(** Applying the query modifier to its own result changes nothing,
    whatever the statement. *)
Lemma Query_ModifyStatement_idempotent (sd : SoftDeleteQueryClause.t)
    (stmt : gorm.Statement.t) :
  SoftDeleteQueryClause.ModifyStatement sd (SoftDeleteQueryClause.ModifyStatement sd stmt)
  = SoftDeleteQueryClause.ModifyStatement sd stmt.
Proof.
  destruct (gorm.Statement.Unscoped stmt) eqn:Hun.
  - rewrite (Query_ModifyStatement_skips sd stmt) by (by left).
    apply Query_ModifyStatement_skips. by left.
  - apply Query_ModifyStatement_skips. right. by apply Query_ModifyStatement_marker.
Qed.

Lemma Query_ModifyStatement_iter (sd : SoftDeleteQueryClause.t) (stmt : gorm.Statement.t)
    (n : nat) :
  Nat.iter n (SoftDeleteQueryClause.ModifyStatement sd)
    (SoftDeleteQueryClause.ModifyStatement sd stmt)
  = SoftDeleteQueryClause.ModifyStatement sd stmt.
Proof.
  induction n as [| n IH]; simpl; [done |].
  rewrite IH. apply Query_ModifyStatement_idempotent.
Qed.

Lemma countNotDeleted_fires (sd : SoftDeleteQueryClause.t) (stmt : gorm.Statement.t) :
  gorm.Statement.Unscoped stmt = false ->
  gorm.Statement.Clauses stmt !! "soft_delete_enabled" = None ->
  countNotDeleted sd (SoftDeleteQueryClause.ModifyStatement sd stmt)
  = S (countNotDeleted sd stmt).
Proof.
  intros Hun Hm. unfold countNotDeleted.
  rewrite predicates_Query_ModifyStatement by done.
  rewrite filter_app, length_app, filter_cons_True by apply isNotDeleted_notDeleted.
  simpl. lia.
Qed.

(** C2, as stated, fails on a statement that is unscoped: neither
    application adds the predicate or sets the marker. *)
Lemma unscoped_twice_no_predicate :
  ~ onePredicateAfterTwo Fixture.sdQuery
      (Fixture.statement (Fixture.whereOf [Fixture.a]) true EmptyString ∅
         Fixture.rv1 (Some 1%nat) (Some 1%nat)).
Proof. intros [Hcount _]. vm_compute in Hcount. discriminate. Qed.

(** C2, amended: on a statement that is not unscoped and does not carry
    the marker ["soft_delete_enabled"], the first application of the
    query modifier sets the marker and adds one exclusion predicate to
    the WHERE clause; every later application leaves the statement as
    it is, so that after two applications the clause has exactly one
    exclusion predicate more than before. *)
Theorem exclusion_applied_once (sd : SoftDeleteQueryClause.t) (stmt : gorm.Statement.t) :
  gorm.Statement.Unscoped stmt = false ->
  gorm.Statement.Clauses stmt !! "soft_delete_enabled" = None ->
  is_Some (gorm.Statement.Clauses (SoftDeleteQueryClause.ModifyStatement sd stmt)
             !! "soft_delete_enabled")
  /\ (forall n, Nat.iter n (SoftDeleteQueryClause.ModifyStatement sd)
                  (SoftDeleteQueryClause.ModifyStatement sd stmt)
                = SoftDeleteQueryClause.ModifyStatement sd stmt)
  /\ countNotDeleted sd
       (SoftDeleteQueryClause.ModifyStatement sd
          (SoftDeleteQueryClause.ModifyStatement sd stmt))
     = S (countNotDeleted sd stmt).
Proof.
  intros Hun Hm. split; [by apply Query_ModifyStatement_marker |].
  split; [intros n; apply Query_ModifyStatement_iter |].
  rewrite Query_ModifyStatement_idempotent. by apply countNotDeleted_fires.
Qed.

Lemma exclusion_applied_once_witness :
  let stmt := Fixture.statement (Fixture.whereOf [Fixture.a]) false EmptyString ∅
                Fixture.rv1 (Some 1%nat) (Some 1%nat) in
  countNotDeleted Fixture.sdQuery stmt = 0%nat
  /\ countNotDeleted Fixture.sdQuery
       (SoftDeleteQueryClause.ModifyStatement Fixture.sdQuery
          (SoftDeleteQueryClause.ModifyStatement Fixture.sdQuery stmt)) = 1%nat.
Proof.
  intros stmt. split; [reflexivity |].
  exact (proj2 (proj2 (exclusion_applied_once Fixture.sdQuery stmt eq_refl eq_refl))).
Defined.

(** The chained disjunction [Where(a).Or(b)], the expressions
    [a; OrConditions [b]], becomes the AND group of these two followed
    by the exclusion predicate.  The filter reads
    [(a OR b) AND deleted_at = sentinel]: it is the former filter and
    the exclusion predicate, so no row fails the exclusion predicate
    and passes; and the predicates of [a] and [b] are all there, in
    their order, before the exclusion predicate. *)
Lemma disjunction_kept_as_group (sd : SoftDeleteQueryClause.t) (stmt : gorm.Statement.t)
    (a b : clause.Expression) :
  gorm.Statement.Unscoped stmt = false ->
  gorm.Statement.Clauses stmt !! "soft_delete_enabled" = None ->
  whereExprs stmt = [a; clause.OrConditions [b]] ->
  let stmt' := SoftDeleteQueryClause.ModifyStatement sd stmt in
  whereExprs stmt'
    = [clause.AndConditions [a; clause.OrConditions [b]]; SoftDeleteQueryClause.notDeleted sd]
  /\ (forall rho, whereHolds rho (whereExprs stmt')
                  = (holds rho a || holds rho b) && rho (SoftDeleteQueryClause.notDeleted sd))
  /\ (forall rho, whereHolds rho (whereExprs stmt')
                  = whereHolds rho (whereExprs stmt)
                    && rho (SoftDeleteQueryClause.notDeleted sd))
  /\ (forall rho, rho (SoftDeleteQueryClause.notDeleted sd) = false ->
                  whereHolds rho (whereExprs stmt') = false)
  /\ flat_map predicates (whereExprs stmt')
     = predicates a ++ predicates b ++ [SoftDeleteQueryClause.notDeleted sd].
Proof.
  intros Hun Hm Hw stmt'.
  assert (Hw' : whereExprs stmt'
    = [clause.AndConditions [a; clause.OrConditions [b]];
       SoftDeleteQueryClause.notDeleted sd]).
  { unfold stmt'. rewrite whereExprs_Query_ModifyStatement by done.
    rewrite Hw. simpl. by rewrite orb_true_r. }
  assert (Hr : forall rho, whereHolds rho (whereExprs stmt')
    = (holds rho a || holds rho b) && rho (SoftDeleteQueryClause.notDeleted sd)).
  { intros rho. rewrite Hw'. by rewrite whereHolds_group_and. }
  split; [exact Hw' |]. split; [exact Hr |]. split; [| split].
  - intros rho. by rewrite Hr, Hw, whereHolds_or.
  - intros rho Hrho. rewrite Hr, Hrho. apply andb_false_r.
  - unfold stmt'. rewrite predicates_Query_ModifyStatement by done.
    rewrite Hw. simpl. by rewrite !app_nil_r, <- app_assoc.
Qed.

Lemma disjunction_kept_as_group_witness :
  let stmt := Fixture.statement (Fixture.whereOf [Fixture.a; clause.OrConditions [Fixture.b]])
                false EmptyString ∅ Fixture.rv1 (Some 1%nat) (Some 1%nat) in
  whereExprs (SoftDeleteQueryClause.ModifyStatement Fixture.sdQuery stmt)
  = [clause.AndConditions [Fixture.a; clause.OrConditions [Fixture.b]];
     SoftDeleteQueryClause.notDeleted Fixture.sdQuery].
Proof.
  intros stmt.
  exact (proj1 (disjunction_kept_as_group Fixture.sdQuery stmt Fixture.a Fixture.b
                  eq_refl eq_refl eq_refl)).
Defined.

Lemma staysBehind_isSingleOr (e : clause.Expression) :
  staysBehind e = false -> isSingleOr e = false.
Proof. destruct e as [| | | | [| e1 [| e2 es]] | | |]; simpl; done. Qed.

(** C3 does not hold for a disjunction whose OR condition comes first,
    [Or(a).Where(b)], the expressions [OrConditions [a]; b].  Gorm
    writes this filter as [b OR a]: [Where.Build] lets [b] lead.  The
    query modifier wraps the two expressions in an AND group, which
    gorm writes in the order it has, as [(a AND b)], and appends the
    exclusion predicate: the filter becomes
    [(a AND b) AND deleted_at = sentinel].  On a row that is not
    deleted and on which exactly one of [a] and [b] holds, the filter
    [(a OR b) AND deleted_at = sentinel] holds and the filter the
    modifier leaves does not. *)
Theorem leading_or_becomes_conjunction (sd : SoftDeleteQueryClause.t)
    (stmt : gorm.Statement.t) (a b : clause.Expression) :
  gorm.Statement.Unscoped stmt = false ->
  gorm.Statement.Clauses stmt !! "soft_delete_enabled" = None ->
  whereExprs stmt = [clause.OrConditions [a]; b] ->
  staysBehind b = false ->
  let stmt' := SoftDeleteQueryClause.ModifyStatement sd stmt in
  let excl :=
    clause.Eq {| clause.Column.Table := clause.CurrentTable;
                 clause.Column.Name := schema.DBName (SoftDeleteQueryClause.Field sd) |}
              (NullStr (SoftDeleteQueryClause.ZeroValue sd)) in
  whereExprs stmt' = [clause.AndConditions [clause.OrConditions [a]; b]; excl]
  /\ (forall rho, whereHolds rho (whereExprs stmt) = holds rho b || holds rho a)
  /\ (forall rho, whereHolds rho (whereExprs stmt') = holds rho a && holds rho b && rho excl)
  /\ (forall rho, holds rho a = negb (holds rho b) -> rho excl = true ->
        whereHolds rho (whereExprs stmt) && rho excl = true
        /\ whereHolds rho (whereExprs stmt') = false).
Proof.
  intros Hun Hm Hw Hb stmt' excl.
  pose proof (staysBehind_isSingleOr b Hb) as Hb'.
  assert (Hw' : whereExprs stmt'
    = [clause.AndConditions [clause.OrConditions [a]; b]; excl]).
  { unfold stmt'. rewrite whereExprs_Query_ModifyStatement by done.
    rewrite Hw. reflexivity. }
  assert (Hbefore : forall rho,
    whereHolds rho (whereExprs stmt) = holds rho b || holds rho a).
  { intros rho. rewrite Hw. unfold whereHolds.
    change (holds rho (clause.Where [clause.OrConditions [a]; b]))
      with (joinAnd (map snd (switchPosition fst
              [(true, (true, holds rho (clause.OrConditions [a])));
               (staysBehind b, (isSingleOr b, holds rho b))]))).
    rewrite holds_single_or, Hb. reflexivity. }
  assert (Hafter : forall rho,
    whereHolds rho (whereExprs stmt') = holds rho a && holds rho b && rho excl).
  { intros rho. rewrite Hw'. unfold whereHolds.
    change (holds rho (clause.Where [clause.AndConditions [clause.OrConditions [a]; b]; excl]))
      with (joinAnd (map snd (switchPosition fst
              [(false, (false, joinAnd [(true, holds rho (clause.OrConditions [a]));
                                        (isSingleOr b, holds rho b)]));
               (false, (false, rho excl))]))).
    rewrite holds_single_or, Hb'. reflexivity. }
  split; [exact Hw' |]. split; [exact Hbefore |]. split; [exact Hafter |].
  intros rho Hab He. rewrite Hbefore, Hafter, Hab, He.
  by destruct (holds rho b).
Qed.

(** On [Or(a).Where(b)] and a row that is not deleted, on which [a]
    holds and [b] does not. *)
Lemma leading_or_becomes_conjunction_witness :
  let stmt := Fixture.statement
                (Fixture.whereOf [clause.OrConditions [Fixture.a]; Fixture.b])
                false EmptyString ∅ Fixture.rv1 (Some 1%nat) (Some 1%nat) in
  let rho := fun e : clause.Expression =>
               match e with
               | clause.Expr sql _ => negb (String.eqb sql "b")
               | _ => true
               end in
  whereHolds rho (whereExprs stmt)
  && rho (SoftDeleteQueryClause.notDeleted Fixture.sdQuery) = true
  /\ whereHolds rho (whereExprs (SoftDeleteQueryClause.ModifyStatement Fixture.sdQuery stmt))
     = false.
Proof.
  intros stmt rho.
  exact (proj2 (proj2 (proj2 (leading_or_becomes_conjunction Fixture.sdQuery stmt
                                Fixture.a Fixture.b eq_refl eq_refl eq_refl eq_refl)))
           rho eq_refl eq_refl).
Defined.

Lemma not_its_own_group (es : list clause.Expression) :
  es <> [clause.AndConditions es].
Proof.
  intros H. apply (f_equal (fun l => list_sum (map exprSize l))) in H.
  simpl in H. lia.
Qed.

(** C4, as stated, fails: with two OR groups at the top level, as in
    [a OR b OR c], the filter is wrapped all the same. *)
Lemma two_or_groups_normalized :
  ~ normalizedIffOneOrGroup Fixture.sdQuery
      (Fixture.statement
         (Fixture.whereOf [Fixture.a; clause.OrConditions [Fixture.b];
                           clause.OrConditions [Fixture.c]])
         false EmptyString ∅ Fixture.rv1 (Some 1%nat) (Some 1%nat)).
Proof.
  intros [Hcount _].
  assert (Hn : countOrGroups [Fixture.a; clause.OrConditions [Fixture.b];
                              clause.OrConditions [Fixture.c]] = 1%nat).
  { apply Hcount. vm_compute. reflexivity. }
  vm_compute in Hn. discriminate.
Qed.

(** And with exactly one OR group of two conditions, [(a OR b)], it is
    not wrapped. *)
Example one_or_group_of_two_not_normalized :
  let stmt := Fixture.statement
                (Fixture.whereOf [clause.OrConditions [Fixture.a; Fixture.b]])
                false EmptyString ∅ Fixture.rv1 (Some 1%nat) (Some 1%nat) in
  countOrGroups (whereExprs stmt) = 1%nat
  /\ whereExprs (SoftDeleteQueryClause.ModifyStatement Fixture.sdQuery stmt)
     = [clause.OrConditions [Fixture.a; Fixture.b];
        SoftDeleteQueryClause.notDeleted Fixture.sdQuery].
Proof. split; reflexivity. Qed.

(** C4, amended: when the query modifier fires, the former expressions
    of the WHERE clause are wrapped in one AND group exactly when one of
    them is a single OR condition, an [OrConditions] that holds exactly
    one expression, however many such conditions there are; otherwise
    the expressions stay as they are and the exclusion predicate is
    appended to them. *)
Theorem normalization_trigger (sd : SoftDeleteQueryClause.t) (stmt : gorm.Statement.t) :
  gorm.Statement.Unscoped stmt = false ->
  gorm.Statement.Clauses stmt !! "soft_delete_enabled" = None ->
  (normalized sd stmt <-> existsb isSingleOr (whereExprs stmt) = true)
  /\ (existsb isSingleOr (whereExprs stmt) = false ->
      whereExprs (SoftDeleteQueryClause.ModifyStatement sd stmt)
      = whereExprs stmt ++ [SoftDeleteQueryClause.notDeleted sd]).
Proof.
  intros Hun Hm. unfold normalized.
  rewrite whereExprs_Query_ModifyStatement by done.
  destruct (existsb isSingleOr (whereExprs stmt)); split; try done.
  split; [| done]. intros H.
  change ([clause.AndConditions (whereExprs stmt); SoftDeleteQueryClause.notDeleted sd])
    with ([clause.AndConditions (whereExprs stmt)] ++ [SoftDeleteQueryClause.notDeleted sd])
    in H.
  apply app_inj_tail in H as [H _]. by apply not_its_own_group in H.
Qed.

Lemma normalization_trigger_witness :
  let stmt := Fixture.statement
                (Fixture.whereOf [Fixture.a; clause.OrConditions [Fixture.b];
                                  clause.OrConditions [Fixture.c]])
                false EmptyString ∅ Fixture.rv1 (Some 1%nat) (Some 1%nat) in
  normalized Fixture.sdQuery stmt.
Proof.
  intros stmt.
  exact (proj2 (proj1 (normalization_trigger Fixture.sdQuery stmt eq_refl eq_refl)) eq_refl).
Defined.

(** ** What a step of a modifier leaves alone *)

Lemma sameHost_refl (s : gorm.Statement.t) : sameHost s s.
Proof. by repeat split. Qed.

Lemma sameHost_trans (s1 s2 s3 : gorm.Statement.t) :
  sameHost s1 s2 -> sameHost s2 s3 -> sameHost s1 s3.
Proof.
  unfold sameHost. intros (?&?&?&?&?&?&?&?) (?&?&?&?&?&?&?&?).
  repeat split; congruence.
Qed.

Lemma step_refl (K : list string) (s : gorm.Statement.t) : step K [] s s.
Proof. split; [apply sameHost_refl | done | by rewrite app_nil_r | done]. Qed.

Lemma step_trans (K1 K2 : list string) (l1 l2 : list (string * any))
    (s1 s2 s3 : gorm.Statement.t) :
  step K1 l1 s1 s2 -> step K2 l2 s2 s3 -> step (K1 ++ K2) (l1 ++ l2) s1 s3.
Proof.
  intros [H1 Cl1 A1 D1] [H2 Cl2 A2 D2]. split.
  - by eapply sameHost_trans.
  - intros k Hk. apply not_elem_of_app in Hk as [Hk1 Hk2]. by rewrite Cl2, Cl1.
  - by rewrite A2, A1, app_assoc.
  - by rewrite D2, D1.
Qed.

Lemma step_weaken (K K' : list string) (log : list (string * any))
    (s s' : gorm.Statement.t) :
  K ⊆ K' -> step K log s s' -> step K' log s s'.
Proof.
  intros HK [H C A D]. split; [done | | done | done].
  intros k Hk. apply C. intros Hin. apply Hk. by apply HK.
Qed.

Lemma step_insert (k : string) (c : clause.Clause.t) (s : gorm.Statement.t) :
  step [k] [] s (gorm.Statement.with_Clauses (insert k c) s).
Proof.
  split; [by repeat split | | by simpl; rewrite app_nil_r | done].
  intros k' Hk'. simpl. apply lookup_insert_ne. intros ->. apply Hk'. by left.
Qed.

Lemma step_AddClause (s : gorm.Statement.t) (v : clause.Expression) :
  step [clause.Name v] [] s (gorm.Statement.AddClause s v).
Proof. apply step_insert. Qed.

Lemma step_AddClauseIfNotExists (s : gorm.Statement.t) (v : clause.Expression) :
  step [clause.Name v] [] s (gorm.Statement.AddClauseIfNotExists s v).
Proof.
  unfold gorm.Statement.AddClauseIfNotExists.
  destruct (gorm.Statement.Clauses s !! clause.Name v) as [[n [e |]] |];
    first [apply step_refl | apply step_AddClause].
Qed.

(** *** [SetColumn] *)

Lemma recorded_refl (s : gorm.Statement.t) : recorded [] [] s s.
Proof. unfold recorded. destruct s. simpl. by rewrite !app_nil_r. Qed.

Lemma recorded_trans (c1 c2 : list (string * any)) (e1 e2 : list error)
    (s1 s2 s3 : gorm.Statement.t) :
  recorded c1 e1 s1 s2 -> recorded c2 e2 s2 s3 -> recorded (c1 ++ c2) (e1 ++ e2) s1 s3.
Proof. unfold recorded. intros -> ->. simpl. by rewrite !app_assoc. Qed.

Lemma recorded_assigned (s : gorm.Statement.t) (cols : list (string * any)) :
  recorded cols [] s (gorm.Statement.assigned s cols).
Proof. unfold recorded, gorm.Statement.assigned. by rewrite app_nil_r. Qed.

Lemma recorded_AddError (s : gorm.Statement.t) (e : error) :
  recorded [] [e] s (gorm.Statement.AddError s (Some e)).
Proof. unfold recorded. simpl. by rewrite app_nil_r. Qed.

Lemma recorded_step (cols : list (string * any)) (errs : list error)
    (s s' : gorm.Statement.t) :
  recorded cols errs s s' -> step [] cols s s'.
Proof. intros ->. split; [by repeat split | done | done | done]. Qed.

Lemma setField_recorded (field : schema.Field) (rv : reflect.Value) (name : string)
    (value : any) :
  exists k errs, forall s,
    recorded (replicate k (name, value)) errs s
      (gorm.Statement.setField field rv name value s).
Proof.
  unfold gorm.Statement.setField. destruct (schema.Set_ field rv value) as [e |].
  - exists 0%nat, [e]. intros s. apply recorded_AddError.
  - exists 1%nat, []. intros s. apply recorded_assigned.
Qed.

Lemma foldl_setField_recorded (field : schema.Field) (name : string) (value : any)
    (elems : list reflect.Value) :
  exists k errs, forall s,
    recorded (replicate k (name, value)) errs s
      (foldl (fun stmt elem => gorm.Statement.setField field elem name value stmt) s elems).
Proof.
  induction elems as [| elem elems IH].
  - exists 0%nat, []. intros s. apply recorded_refl.
  - destruct (setField_recorded field elem name value) as (k1 & e1 & H1).
    destruct IH as (k2 & e2 & H2).
    exists (k1 + k2)%nat, (e1 ++ e2). intros s. simpl. rewrite replicate_add.
    eapply recorded_trans; [apply H1 | apply H2].
Qed.

(** What [SetColumn] does to a statement: some number of records take
    the value under the name, some errors are added, and both are
    decided by the destination's type, the schema and the reflected
    value. *)
Lemma SetColumn_recorded (s : gorm.Statement.t) (name : string) (value : any) :
  exists k errs, forall s0,
    gorm.Statement.DestKind s0 = gorm.Statement.DestKind s ->
    gorm.Statement.Schema s0 = gorm.Statement.Schema s ->
    gorm.Statement.ReflectValue s0 = gorm.Statement.ReflectValue s ->
    recorded (replicate k (name, value)) errs s0 (gorm.Statement.SetColumn s0 name value).
Proof.
  unfold gorm.Statement.SetColumn.
  destruct (gorm.Statement.DestKind s) as [| len |] eqn:Hd.
  { exists 1%nat, []. intros s0 -> _ _. apply recorded_assigned. }
  { exists len, []. intros s0 -> _ _. apply recorded_assigned. }
  destruct (gorm.Statement.Schema s) as [sch |] eqn:Hs.
  2: { exists 0%nat, [gorm.ErrInvalidField]. intros s0 -> -> _. apply recorded_AddError. }
  destruct (schema.LookUpField sch name) as [field |] eqn:Hf.
  2: { exists 0%nat, [gorm.ErrInvalidField]. intros s0 -> -> _. rewrite Hf.
       apply recorded_AddError. }
  destruct (reflect.Kind (gorm.Statement.ReflectValue s)) eqn:Hk.
  - destruct (reflect.CanAddr (gorm.Statement.ReflectValue s)) eqn:Ha.
    + destruct (setField_recorded field (gorm.Statement.ReflectValue s) name value)
        as (k & errs & H).
      exists k, errs. intros s0 -> -> ->. rewrite Hf, Hk, Ha. apply H.
    + exists 0%nat, [gorm.ErrInvalidValue]. intros s0 -> -> ->. rewrite Hf, Hk, Ha.
      apply recorded_AddError.
  - destruct (foldl_setField_recorded field name value
                (reflect.Elems (gorm.Statement.ReflectValue s))) as (k & errs & H).
    exists k, errs. intros s0 -> -> ->. rewrite Hf, Hk. apply H.
  - destruct (foldl_setField_recorded field name value
                (reflect.Elems (gorm.Statement.ReflectValue s))) as (k & errs & H).
    exists k, errs. intros s0 -> -> ->. rewrite Hf, Hk. apply H.
  - exists 0%nat, []. intros s0 -> -> ->. rewrite Hf, Hk. apply recorded_refl.
  - exists 0%nat, []. intros s0 -> -> ->. rewrite Hf, Hk. apply recorded_refl.
  - exists 0%nat, []. intros s0 -> -> ->. rewrite Hf, Hk. apply recorded_refl.
Qed.

Lemma step_SetColumn (s : gorm.Statement.t) (name : string) (value : any) :
  exists k, step [] (replicate k (name, value)) s (gorm.Statement.SetColumn s name value).
Proof.
  destruct (SetColumn_recorded s name value) as (k & errs & H).
  exists k. eapply recorded_step. by apply H.
Qed.

(** The columns a call of [SetColumn] sets do not depend on the clauses
    of the statement. *)
Lemma SetColumn_Assigned_ext (s s0 : gorm.Statement.t) (name : string) (value : any) :
  gorm.Statement.DestKind s0 = gorm.Statement.DestKind s ->
  gorm.Statement.Schema s0 = gorm.Statement.Schema s ->
  gorm.Statement.ReflectValue s0 = gorm.Statement.ReflectValue s ->
  gorm.Statement.Assigned s0 = gorm.Statement.Assigned s ->
  gorm.Statement.Assigned (gorm.Statement.SetColumn s0 name value)
  = gorm.Statement.Assigned (gorm.Statement.SetColumn s name value).
Proof.
  intros Hd Hs Hr Ha.
  destruct (SetColumn_recorded s name value) as (k & errs & H).
  rewrite (H s0 Hd Hs Hr), (H s eq_refl eq_refl eq_refl). simpl. by rewrite Ha.
Qed.

(** *** [Build] *)

Lemma built_lookup_ne (names : list string) (m : gmap string clause.Clause.t) (k : string) :
  k <> "WHERE" -> gorm.Statement.built names m !! k = m !! k.
Proof.
  intros Hk. unfold gorm.Statement.built.
  destruct (bool_decide _); [| done].
  destruct (m !! "WHERE") as [[n [e |]] |]; try done.
  destruct e; try done. simpl. by rewrite lookup_insert_ne.
Qed.

Lemma step_Build (render : gorm.Statement.t -> list string -> string * list any)
    (s : gorm.Statement.t) (clauses : list string) :
  step ["WHERE"] [] s (gorm.Statement.Build render s clauses).
Proof.
  split; [by repeat split | | by simpl; rewrite app_nil_r | done].
  intros k Hk. simpl. apply built_lookup_ne. intros ->. apply Hk. by left.
Qed.

Lemma switchPosition_Permutation {A : Type} (stays : A -> bool) (xs : list A) :
  switchPosition stays xs ≡ₚ xs.
Proof.
  unfold switchPosition. destruct xs as [| x0 rest]; [done |].
  destruct (firstToLead stays (x0 :: rest)) as [[| i] |]; try done.
  destruct (rest !! i) as [xi |] eqn:Hi; [| done].
  rewrite (delete_Permutation rest i xi Hi) at 2.
  rewrite insert_take_drop by (by eapply lookup_lt_Some).
  rewrite delete_take_drop.
  rewrite <- (Permutation_middle (take i rest) (drop (S i) rest) x0).
  apply perm_swap.
Qed.

Lemma predicates_Where_Build (es : list clause.Expression) :
  flat_map predicates (gorm.Statement.Where_Build es) ≡ₚ flat_map predicates es.
Proof.
  assert (Hflat : forall xs ys : list clause.Expression,
            xs ≡ₚ ys -> flat_map predicates xs ≡ₚ flat_map predicates ys).
  { intros xs ys H. induction H; simpl.
    - done.
    - by apply Permutation_app_head.
    - rewrite !app_assoc. apply Permutation_app_tail, Permutation_app_comm.
    - by etrans. }
  unfold gorm.Statement.Where_Build.
  destruct es as [| e0 [| e1 es]]; try done.
  - destruct e0; try done. simpl. rewrite !app_nil_r.
    apply Hflat, switchPosition_Permutation.
  - apply Hflat, switchPosition_Permutation.
Qed.

Lemma whereExprs_Build (render : gorm.Statement.t -> list string -> string * list any)
    (s : gorm.Statement.t) (names : list string) :
  whereExprs (gorm.Statement.Build render s names)
  = if bool_decide ("WHERE" ∈ names) then gorm.Statement.Where_Build (whereExprs s)
    else whereExprs s.
Proof.
  unfold whereExprs, gorm.Statement.Build, gorm.Statement.built. simpl.
  destruct (bool_decide _); [| done].
  destruct (gorm.Statement.Clauses s !! "WHERE") as [[n [e |]] |] eqn:Hw;
    cbn; rewrite ?Hw; try done.
  destruct e; cbn; rewrite ?Hw, ?lookup_insert_eq; done.
Qed.

(** [Build] keeps the predicates of the WHERE clause; the switch of
    positions may change their order. *)
Lemma predicates_Build (render : gorm.Statement.t -> list string -> string * list any)
    (s : gorm.Statement.t) (names : list string) :
  flat_map predicates (whereExprs (gorm.Statement.Build render s names))
  ≡ₚ flat_map predicates (whereExprs s).
Proof.
  rewrite whereExprs_Build. destruct (bool_decide _); [| done].
  apply predicates_Where_Build.
Qed.

Lemma step_normalizeWhere (s : gorm.Statement.t) :
  step ["WHERE"] [] s (SoftDeleteQueryClause.normalizeWhere s).
Proof.
  unfold SoftDeleteQueryClause.normalizeWhere.
  destruct (gorm.Statement.Clauses s !! "WHERE") as [[n [e |]] |]; try apply step_refl.
  destruct e; try apply step_refl. cbn [clause.Clause.Expression clause.Clause.Name].
  destruct (1 <=? length Exprs)%nat; [| apply step_refl].
  destruct (SoftDeleteQueryClause.wrapLoop Exprs Exprs); [| apply step_refl].
  apply step_insert.
Qed.

Lemma step_Query_ModifyStatement (sd : SoftDeleteQueryClause.t) (s : gorm.Statement.t) :
  step ["WHERE"; "soft_delete_enabled"] [] s (SoftDeleteQueryClause.ModifyStatement sd s).
Proof.
  unfold SoftDeleteQueryClause.ModifyStatement.
  destruct (gorm.Statement.Clauses s !! "soft_delete_enabled"); [apply step_refl |].
  destruct (gorm.Statement.Unscoped s); [apply step_refl |].
  eapply step_weaken; [| eapply (step_trans _ _ [] []);
    [eapply (step_trans _ _ [] []); [apply step_normalizeWhere | apply step_AddClause]
    | apply step_insert]].
  simpl. intros k. rewrite !elem_of_cons, elem_of_nil. tauto.
Qed.

Lemma whereExprs_step (K : list string) (log : list (string * any))
    (s s' : gorm.Statement.t) :
  step K log s s' -> "WHERE" ∉ K -> whereExprs s' = whereExprs s.
Proof. intros [_ C _ _] HK. unfold whereExprs. by rewrite C. Qed.

(** ** The delete modifier *)

Section Delete.
Variable GORM_CTX_DELETED_BY : string.
Variable reflect_ValueOf : nat -> reflect.Value.
Variable GetIdentityFieldValuesMap :
  gmap string any -> reflect.Value -> list schema.Field -> list (list any).
Variable render : gorm.Statement.t -> list string -> string * list any.

Local Abbreviation bindActor := (SoftDeleteDeleteClause.bindActor GORM_CTX_DELETED_BY).
Local Abbreviation scopeByKeys :=
  (SoftDeleteDeleteClause.scopeByKeys GetIdentityFieldValuesMap).
Local Abbreviation scopeByPrimaryKeys :=
  (SoftDeleteDeleteClause.scopeByPrimaryKeys reflect_ValueOf GetIdentityFieldValuesMap).
Local Abbreviation actorIn := (actorOf GORM_CTX_DELETED_BY).
Local Abbreviation keysOf := (keyPredicate GetIdentityFieldValuesMap).
Local Abbreviation keysOfDelete :=
  (keyPredicates reflect_ValueOf GetIdentityFieldValuesMap).
Local Abbreviation Delete_ModifyStatement :=
  (SoftDeleteDeleteClause.ModifyStatement GORM_CTX_DELETED_BY reflect_ValueOf
     GetIdentityFieldValuesMap render).

Lemma bindActor_spec (sd : SoftDeleteDeleteClause.t) (cs : list clause.Assignment)
    (stmt : gorm.Statement.t) :
  bindActor sd cs stmt
  = match actorIn sd stmt with
    | Some cv => (cs ++ [assign cv], gorm.Statement.SetColumn stmt (fst cv) (snd cv))
    | None => (cs, stmt)
    end.
Proof.
  unfold SoftDeleteDeleteClause.bindActor, actorOf.
  destruct (SoftDeleteDeleteClause.ActorField sd) as [af |]; [| done].
  by destruct (gorm.Statement.Context_Value stmt GORM_CTX_DELETED_BY).
Qed.

Lemma step_bindActor (sd : SoftDeleteDeleteClause.t) (cs : list clause.Assignment)
    (stmt : gorm.Statement.t) :
  exists log,
    step [] log stmt (snd (bindActor sd cs stmt))
    /\ forall cv, cv ∈ log -> actorIn sd stmt = Some cv.
Proof.
  rewrite bindActor_spec. destruct (actorIn sd stmt) as [[name v] |]; simpl.
  - destruct (step_SetColumn stmt name v) as [k Hk].
    exists (replicate k (name, v)). split; [exact Hk |].
    intros cv Hcv. apply elem_of_replicate in Hcv as [-> _]. done.
  - exists []. split; [apply step_refl |]. intros cv Hcv. by apply elem_of_nil in Hcv.
Qed.

Lemma keyPredicate_sameHost (sch : schema.SchemaOf schema.Field) (rv : reflect.Value)
    (s s' : gorm.Statement.t) :
  sameHost s s' -> keysOf sch rv s' = keysOf sch rv s.
Proof.
  intros (_ & Hc & Ht & _). unfold keyPredicate. by rewrite Hc, Ht.
Qed.

Lemma keyPredicates_sameHost (s s' : gorm.Statement.t) :
  sameHost s s' -> keysOfDelete s' = keysOfDelete s.
Proof.
  intros Hh. pose proof Hh as (_ & _ & _ & Hs & Hr & Hd & Hm & _).
  unfold keyPredicates. rewrite Hs, Hr, Hd, Hm.
  destruct (gorm.Statement.Schema s) as [sch |]; [| done].
  rewrite (keyPredicate_sameHost _ _ _ _ Hh).
  destruct (gorm.Statement.Model s) as [m |]; [| done].
  by rewrite (keyPredicate_sameHost _ _ _ _ Hh).
Qed.

Lemma step_scopeByKeys (sch : schema.SchemaOf schema.Field) (rv : reflect.Value)
    (s : gorm.Statement.t) :
  step ["WHERE"] [] s (scopeByKeys sch rv s).
Proof.
  unfold SoftDeleteDeleteClause.scopeByKeys.
  destruct (schema.ToQueryValues _ _ _) as [column values].
  destruct (0 <? length values)%nat; [| apply step_refl].
  apply (step_AddClause s (clause.Where _)).
Qed.

Lemma whereExprs_scopeByKeys (sch : schema.SchemaOf schema.Field) (rv : reflect.Value)
    (s : gorm.Statement.t) :
  whereExprs (scopeByKeys sch rv s) = whereExprs s ++ keysOf sch rv s.
Proof.
  unfold SoftDeleteDeleteClause.scopeByKeys, keyPredicate.
  destruct (schema.ToQueryValues _ _ _) as [column values].
  destruct (0 <? length values)%nat.
  - apply whereExprs_AddClause_Where.
  - by rewrite app_nil_r.
Qed.

Lemma step_scopeByPrimaryKeys (s : gorm.Statement.t) :
  step ["WHERE"] [] s (scopeByPrimaryKeys s).
Proof.
  unfold SoftDeleteDeleteClause.scopeByPrimaryKeys.
  destruct (gorm.Statement.Schema s) as [sch |]; [| apply step_refl].
  set (s1 := scopeByKeys sch (gorm.Statement.ReflectValue s) s).
  assert (H1 : step ["WHERE"] [] s s1) by apply step_scopeByKeys.
  destruct (gorm.Statement.Model s1) as [m |]; [| done].
  destruct (_ && _); [| done].
  eapply step_weaken; [| eapply (step_trans _ _ [] []); [exact H1 | apply step_scopeByKeys]].
  intros k. rewrite !elem_of_app. tauto.
Qed.

Lemma whereExprs_scopeByPrimaryKeys (s : gorm.Statement.t) :
  whereExprs (scopeByPrimaryKeys s) = whereExprs s ++ keysOfDelete s.
Proof.
  unfold SoftDeleteDeleteClause.scopeByPrimaryKeys, keyPredicates.
  destruct (gorm.Statement.Schema s) as [sch |]; [| by rewrite app_nil_r].
  set (s1 := scopeByKeys sch (gorm.Statement.ReflectValue s) s).
  assert (H1 : step ["WHERE"] [] s s1) by apply step_scopeByKeys.
  pose proof (step_host _ _ _ _ H1) as Hh.
  pose proof Hh as (_ & _ & _ & _ & Hr & Hd & Hm & _).
  assert (Hw1 : whereExprs s1
    = whereExprs s ++ keysOf sch (gorm.Statement.ReflectValue s) s)
    by apply whereExprs_scopeByKeys.
  rewrite Hr, Hd, Hm.
  destruct (gorm.Statement.Model s) as [m |]; [| by rewrite Hw1, app_nil_r].
  destruct (_ && _); [| by rewrite Hw1, app_nil_r].
  by rewrite whereExprs_scopeByKeys, Hw1, (keyPredicate_sameHost _ _ _ _ Hh), app_assoc.
Qed.

Lemma predicates_keyPredicate (sch : schema.SchemaOf schema.Field) (rv : reflect.Value)
    (s : gorm.Statement.t) :
  flat_map predicates (keysOf sch rv s) = keysOf sch rv s.
Proof.
  unfold keyPredicate. destruct (schema.ToQueryValues _ _ _) as [column values].
  by destruct (0 <? length values)%nat.
Qed.

Lemma predicates_keyPredicates (s : gorm.Statement.t) :
  flat_map predicates (keysOfDelete s) = keysOfDelete s.
Proof.
  unfold keyPredicates. destruct (gorm.Statement.Schema s) as [sch |]; [| done].
  rewrite flat_map_app, predicates_keyPredicate. f_equal.
  destruct (gorm.Statement.Model s) as [m |]; [| done].
  destruct (_ && _); [apply predicates_keyPredicate | done].
Qed.

(** The delete modifier, when its guard lets it run, step by step. *)
Lemma Delete_ModifyStatement_unfold (sd : SoftDeleteDeleteClause.t)
    (stmt : gorm.Statement.t) :
  gorm.Statement.SQL stmt = EmptyString ->
  gorm.Statement.Unscoped stmt = false ->
  let field := schema.DBName (SoftDeleteDeleteClause.Field sd) in
  let curTime := TimeVal (gorm.NowFunc (gorm.Statement.DB stmt) ()) in
  let s1 := snd (bindActor sd [assign (field, curTime)] stmt) in
  let s2 := gorm.Statement.AddClause s1
              (clause.Set_ (assign (field, curTime)
                            :: map assign (option_list (actorIn sd stmt)))) in
  let s3 := gorm.Statement.SetColumn s2 field curTime in
  let s4 := scopeByPrimaryKeys s3 in
  let s5 := SoftDeleteQueryClause.ModifyStatement (SoftDeleteDeleteClause.toQuery sd) s4 in
  let s6 := gorm.Statement.AddClauseIfNotExists s5 clause.Update in
  Delete_ModifyStatement sd stmt
  = gorm.Statement.Build render s6 (gorm.Callback_Update_Clauses (gorm.Statement.DB s6)).
Proof.
  intros Hsql Hun. unfold SoftDeleteDeleteClause.ModifyStatement.
  rewrite Hsql, Hun. simpl. rewrite !bindActor_spec.
  by destruct (actorIn sd stmt) as [[name v] |].
Qed.

(** The statement after the actor has been bound: [SetColumn] has been
    called for the actor column when there is an actor. *)
Lemma snd_bindActor (sd : SoftDeleteDeleteClause.t) (cs : list clause.Assignment)
    (stmt : gorm.Statement.t) :
  snd (bindActor sd cs stmt)
  = match actorIn sd stmt with
    | Some cv => gorm.Statement.SetColumn stmt (fst cv) (snd cv)
    | None => stmt
    end.
Proof. rewrite bindActor_spec. by destruct (actorIn sd stmt). Qed.

(** What the delete modifier leaves when its guard lets it run: the SET
    clause; on the record, what the calls of [SetColumn] for the actor
    column and for the deletion column leave; in the WHERE clause, the
    predicates it had, the [IN] predicates over the keys and the
    exclusion predicate. *)
Lemma Delete_ModifyStatement_fires (sd : SoftDeleteDeleteClause.t)
    (stmt : gorm.Statement.t) :
  gorm.Statement.SQL stmt = EmptyString ->
  gorm.Statement.Unscoped stmt = false ->
  let field := schema.DBName (SoftDeleteDeleteClause.Field sd) in
  let curTime := TimeVal (gorm.NowFunc (gorm.Statement.DB stmt) ()) in
  let stmt' := Delete_ModifyStatement sd stmt in
  gorm.Statement.Clauses stmt' !! "SET"
    = Some {| clause.Clause.Name := "SET";
              clause.Clause.Expression :=
                Some (clause.Set_ (assign (field, curTime)
                                   :: map assign (option_list (actorIn sd stmt)))) |}
  /\ gorm.Statement.Assigned stmt'
     = gorm.Statement.Assigned
         (gorm.Statement.SetColumn
            match actorIn sd stmt with
            | Some cv => gorm.Statement.SetColumn stmt (fst cv) (snd cv)
            | None => stmt
            end field curTime)
  /\ flat_map predicates (whereExprs stmt')
     ≡ₚ flat_map predicates (whereExprs stmt) ++ keysOfDelete stmt ++
        match gorm.Statement.Clauses stmt !! "soft_delete_enabled" with
        | None => [SoftDeleteQueryClause.notDeleted (SoftDeleteDeleteClause.toQuery sd)]
        | Some _ => []
        end.
Proof.
  intros Hsql Hun field curTime stmt'. unfold stmt'.
  rewrite Delete_ModifyStatement_unfold by done. fold field. fold curTime.
  rewrite <- (snd_bindActor sd [assign (field, curTime)] stmt).
  set (s1 := snd (bindActor sd [assign (field, curTime)] stmt)).
  set (cs := assign (field, curTime) :: map assign (option_list (actorIn sd stmt))).
  set (s2 := gorm.Statement.AddClause s1 (clause.Set_ cs)).
  set (s3 := gorm.Statement.SetColumn s2 field curTime).
  set (s4 := scopeByPrimaryKeys s3).
  set (s5 := SoftDeleteQueryClause.ModifyStatement (SoftDeleteDeleteClause.toQuery sd) s4).
  set (s6 := gorm.Statement.AddClauseIfNotExists s5 clause.Update).
  set (s7 := gorm.Statement.Build render s6 _).
  destruct (step_bindActor sd [assign (field, curTime)] stmt) as (l1 & H1 & _).
  fold s1 in H1.
  assert (H2 : step ["SET"] [] s1 s2) by apply (step_AddClause s1 (clause.Set_ cs)).
  destruct (step_SetColumn s2 field curTime) as [k3 H3]. fold s3 in H3.
  assert (H4 : step ["WHERE"] [] s3 s4) by apply step_scopeByPrimaryKeys.
  assert (H5 : step ["WHERE"; "soft_delete_enabled"] [] s4 s5)
    by apply step_Query_ModifyStatement.
  assert (H6 : step ["UPDATE"] [] s5 s6)
    by apply (step_AddClauseIfNotExists s5 clause.Update).
  assert (H7 : step ["WHERE"] [] s6 s7) by apply step_Build.
  pose proof (step_trans _ _ _ _ _ _ _ H1 (step_trans _ _ _ _ _ _ _ H2 H3)) as H13.
  pose proof (step_trans _ _ _ _ _ _ _ H13 H4) as H14.
  pose proof (step_trans _ _ _ _ _ _ _ H4
    (step_trans _ _ _ _ _ _ _ H5 (step_trans _ _ _ _ _ _ _ H6 H7))) as H47.
  pose proof (step_trans _ _ _ _ _ _ _ H3 H47) as H37.
  simpl in H13, H14, H37, H47.
  split; [| split].
  - rewrite (step_clauses _ _ _ _ H37) by not_named.
    unfold s2, gorm.Statement.AddClause. simpl. by rewrite lookup_insert_eq.
  - rewrite (step_assigned _ _ _ _ H47), app_nil_r. unfold s3.
    by apply SetColumn_Assigned_ext.
  - unfold s7. rewrite predicates_Build.
    rewrite (whereExprs_step _ _ _ _ H6) by not_named.
    assert (Hw4 : whereExprs s4 = whereExprs stmt ++ keysOfDelete stmt).
    { unfold s4. rewrite whereExprs_scopeByPrimaryKeys.
      rewrite (whereExprs_step _ _ _ _ H13)
        by not_named.
      by rewrite (keyPredicates_sameHost _ _ (step_host _ _ _ _ H13)). }
    assert (Hun4 : gorm.Statement.Unscoped s4 = false).
    { destruct (step_host _ _ _ _ H14) as [-> _]. exact Hun. }
    assert (Hm4 : gorm.Statement.Clauses s4 !! "soft_delete_enabled"
                  = gorm.Statement.Clauses stmt !! "soft_delete_enabled").
    { apply (step_clauses _ _ _ _ H14). not_named. }
    unfold s5.
    destruct (gorm.Statement.Clauses stmt !! "soft_delete_enabled") as [c |] eqn:Hm.
    + rewrite Query_ModifyStatement_skips by (right; by rewrite Hm4).
      by rewrite Hw4, flat_map_app, predicates_keyPredicates, !app_nil_r.
    + rewrite predicates_Query_ModifyStatement by done.
      by rewrite Hw4, flat_map_app, predicates_keyPredicates, <- !app_assoc.
Qed.

Lemma keyPredicate_IN (sch : schema.SchemaOf schema.Field) (rv : reflect.Value)
    (stmt : gorm.Statement.t) (column : clause.Columns) (values : list any) :
  schema.ToQueryValues (gorm.Statement.Table stmt) (schema.PrimaryFieldDBNames sch)
    (GetIdentityFieldValuesMap (gorm.Statement.Context stmt) rv (schema.PrimaryFields sch))
  = (column, values) ->
  values <> [] ->
  keysOf sch rv stmt = [clause.IN column values].
Proof.
  intros Hq Hv. unfold keyPredicate. rewrite Hq. by destruct values.
Qed.

Lemma ToQueryValues_one_key (table key : string) (vals : list any) :
  schema.ToQueryValues table [key] (map (fun v => [v]) vals)
  = (clause.OneColumn {| clause.Column.Table := table; clause.Column.Name := key |}, vals).
Proof.
  unfold schema.ToQueryValues. f_equal.
  induction vals as [| v vals IH]; simpl; [done | by rewrite IH].
Qed.

(** C7, amended: in a delete that its guard lets run, on a statement
    with a schema.  If the primary key is the one column [key] and the
    record's identity resolves to the values [vals], not none, the WHERE
    clause includes [key IN vals] on the statement's table.  If the
    reflected value is addressable and the model is there and is not the
    destination, the keys are extracted from the model as well and, if
    there are any, the WHERE clause includes the [IN] predicate over
    them.  If the reflected value is not addressable, or there is no
    model, or the model is the destination, the record's own [IN]
    predicate is the only one added: the predicates of the WHERE clause
    are then, in some order, those it had, that predicate if the record
    has keys, and the exclusion predicate unless the statement carried
    the marker. *)
Theorem delete_scopes_by_primary_key (sd : SoftDeleteDeleteClause.t)
    (stmt : gorm.Statement.t) (sch : schema.SchemaOf schema.Field) :
  gorm.Statement.SQL stmt = EmptyString ->
  gorm.Statement.Unscoped stmt = false ->
  gorm.Statement.Schema stmt = Some sch ->
  let stmt' := Delete_ModifyStatement sd stmt in
  (forall key vals,
     schema.PrimaryFieldDBNames sch = [key] ->
     GetIdentityFieldValuesMap (gorm.Statement.Context stmt)
       (gorm.Statement.ReflectValue stmt) (schema.PrimaryFields sch)
     = map (fun v => [v]) vals ->
     vals <> [] ->
     clause.IN (clause.OneColumn {| clause.Column.Table := gorm.Statement.Table stmt;
                                    clause.Column.Name := key |}) vals
     ∈ flat_map predicates (whereExprs stmt'))
  /\ (forall m column values,
        reflect.CanAddr (gorm.Statement.ReflectValue stmt) = true ->
        gorm.Statement.Model stmt = Some m ->
        gorm.Statement.Dest stmt <> Some m ->
        schema.ToQueryValues (gorm.Statement.Table stmt) (schema.PrimaryFieldDBNames sch)
          (GetIdentityFieldValuesMap (gorm.Statement.Context stmt) (reflect_ValueOf m)
             (schema.PrimaryFields sch))
        = (column, values) ->
        values <> [] ->
        clause.IN column values ∈ flat_map predicates (whereExprs stmt'))
  /\ (reflect.CanAddr (gorm.Statement.ReflectValue stmt) = false
      \/ gorm.Statement.Model stmt = None
      \/ gorm.Statement.Dest stmt = gorm.Statement.Model stmt ->
      flat_map predicates (whereExprs stmt')
      ≡ₚ flat_map predicates (whereExprs stmt)
         ++ keysOf sch (gorm.Statement.ReflectValue stmt) stmt
         ++ match gorm.Statement.Clauses stmt !! "soft_delete_enabled" with
            | None =>
                [clause.Eq
                   {| clause.Column.Table := clause.CurrentTable;
                      clause.Column.Name :=
                        schema.DBName (SoftDeleteDeleteClause.Field sd) |}
                   (NullStr (SoftDeleteDeleteClause.ZeroValue sd))]
            | Some _ => []
            end).
Proof.
  intros Hsql Hun Hsch stmt'.
  destruct (Delete_ModifyStatement_fires sd stmt Hsql Hun) as (_ & _ & Hp).
  fold stmt' in Hp. unfold keyPredicates in Hp. rewrite Hsch in Hp.
  split; [| split].
  - intros key vals Hkey Hid Hvals. rewrite Hp.
    rewrite (keyPredicate_IN sch _ stmt
               (clause.OneColumn {| clause.Column.Table := gorm.Statement.Table stmt;
                                    clause.Column.Name := key |}) vals);
      [| by rewrite Hkey, Hid, ToQueryValues_one_key | done].
    rewrite !elem_of_app. right. left. left. by left.
  - intros m column values Haddr Hm Hd Hq Hvals. rewrite Hp.
    rewrite Hm, Haddr, bool_decide_eq_true_2 by done. simpl.
    rewrite (keyPredicate_IN sch (reflect_ValueOf m) stmt column values) by done.
    rewrite !elem_of_app. right. left. right. by left.
  - intros Hskip. rewrite Hp.
    change (SoftDeleteQueryClause.notDeleted (SoftDeleteDeleteClause.toQuery sd))
      with (clause.Eq
              {| clause.Column.Table := clause.CurrentTable;
                 clause.Column.Name := schema.DBName (SoftDeleteDeleteClause.Field sd) |}
              (NullStr (SoftDeleteDeleteClause.ZeroValue sd))).
    assert (Hnone :
      match gorm.Statement.Model stmt with
      | Some model =>
          if reflect.CanAddr (gorm.Statement.ReflectValue stmt)
             && bool_decide (gorm.Statement.Dest stmt <> gorm.Statement.Model stmt)
          then keysOf sch (reflect_ValueOf model) stmt
          else []
      | None => []
      end = []).
    { destruct (gorm.Statement.Model stmt) as [m |] eqn:Hm; [| done].
      destruct Hskip as [-> | [? | ->]]; [done | done |].
      by rewrite bool_decide_eq_false_2, andb_false_r by (by intros H; apply H). }
    by rewrite Hnone, app_nil_r.
Qed.

(** C8, amended: in a delete that its guard lets run, with an actor
    field configured.  If the context holds a value under the key
    [GORM_CTX_DELETED_BY], the SET clause of the statement is the
    assignment of the deletion time to the deletion column followed by
    the assignment of that value to the actor column, and the record is
    as the calls [SetColumn(actorColumn, value)] and then
    [SetColumn(deletionColumn, now)] leave it: when the statement has
    a schema that knows the two columns, the reflected record is an
    addressable struct and the setters of the two fields take the
    values, the actor column and then the deletion column are set on
    the record.  If the context holds nothing under the key, the SET
    clause is the assignment of the deletion time alone and the record
    is as the one call [SetColumn(deletionColumn, now)] leaves it. *)
Theorem delete_records_actor (sd : SoftDeleteDeleteClause.t) (stmt : gorm.Statement.t)
    (actorField : schema.Field) :
  gorm.Statement.SQL stmt = EmptyString ->
  gorm.Statement.Unscoped stmt = false ->
  SoftDeleteDeleteClause.ActorField sd = Some actorField ->
  let field := schema.DBName (SoftDeleteDeleteClause.Field sd) in
  let curTime := TimeVal (gorm.NowFunc (gorm.Statement.DB stmt) ()) in
  let stmt' := Delete_ModifyStatement sd stmt in
  (forall actor,
     gorm.Statement.Context stmt !! GORM_CTX_DELETED_BY = Some actor -> actor <> Nil ->
     gorm.Statement.Clauses stmt' !! "SET"
       = Some {| clause.Clause.Name := "SET";
                 clause.Clause.Expression :=
                   Some (clause.Set_
                     [{| clause.Assignment_Column :=
                           {| clause.Column.Table := EmptyString;
                              clause.Column.Name := field |};
                         clause.Assignment_Value := curTime |};
                      {| clause.Assignment_Column :=
                           {| clause.Column.Table := EmptyString;
                              clause.Column.Name := schema.DBName actorField |};
                         clause.Assignment_Value := actor |}]) |}
     /\ gorm.Statement.Assigned stmt'
        = gorm.Statement.Assigned
            (gorm.Statement.SetColumn
               (gorm.Statement.SetColumn stmt (schema.DBName actorField) actor)
               field curTime)
     /\ (forall sch fa fd,
           gorm.Statement.DestKind stmt = gorm.OtherType ->
           gorm.Statement.Schema stmt = Some sch ->
           schema.LookUpField sch (schema.DBName actorField) = Some fa ->
           schema.LookUpField sch field = Some fd ->
           reflect.Kind (gorm.Statement.ReflectValue stmt) = reflect.Struct ->
           reflect.CanAddr (gorm.Statement.ReflectValue stmt) = true ->
           schema.Set_ fa (gorm.Statement.ReflectValue stmt) actor = None ->
           schema.Set_ fd (gorm.Statement.ReflectValue stmt) curTime = None ->
           gorm.Statement.Assigned stmt'
           = gorm.Statement.Assigned stmt
             ++ [(schema.DBName actorField, actor); (field, curTime)]))
  /\ (gorm.Statement.Context stmt !! GORM_CTX_DELETED_BY = None ->
      gorm.Statement.Clauses stmt' !! "SET"
        = Some {| clause.Clause.Name := "SET";
                  clause.Clause.Expression :=
                    Some (clause.Set_
                      [{| clause.Assignment_Column :=
                            {| clause.Column.Table := EmptyString;
                               clause.Column.Name := field |};
                          clause.Assignment_Value := curTime |}]) |}
      /\ gorm.Statement.Assigned stmt'
         = gorm.Statement.Assigned (gorm.Statement.SetColumn stmt field curTime)).
Proof.
  intros Hsql Hun Haf field curTime stmt'.
  destruct (Delete_ModifyStatement_fires sd stmt Hsql Hun) as (Hset & Hlog & _).
  fold field curTime stmt' in Hset, Hlog.
  split.
  - intros actor Hctx Hactor.
    assert (Hact : actorIn sd stmt = Some (schema.DBName actorField, actor)).
    { unfold actorOf, gorm.Statement.Context_Value. rewrite Haf, Hctx. simpl.
      by destruct actor. }
    rewrite Hact in Hset, Hlog. simpl in Hset, Hlog.
    split; [exact Hset |]. split; [exact Hlog |].
    intros sch fa fd Hd Hs Hfa Hfd Hk Ha Hsa Hsd. rewrite Hlog.
    unfold gorm.Statement.SetColumn at 2.
    rewrite Hd, Hs, Hfa, Hk, Ha. unfold gorm.Statement.setField. rewrite Hsa.
    unfold gorm.Statement.SetColumn. simpl.
    rewrite Hd, Hs, Hfd, Hk, Ha. unfold gorm.Statement.setField. rewrite Hsd.
    simpl. by rewrite <- app_assoc.
  - intros Hctx.
    assert (Hact : actorIn sd stmt = None).
    { unfold actorOf, gorm.Statement.Context_Value. by rewrite Haf, Hctx. }
    rewrite Hact in Hset, Hlog. by split.
Qed.
End Delete.

(** C7, as stated, fails: the destination (the record 1) and the model
    (the record 2, with the key 7) are both there and differ, but the
    reflected value is not addressable, and the keys of the model are not
    in the WHERE clause. *)
Lemma model_keys_not_scoped :
  ~ modelKeysScoped Fixture.GORM_CTX_DELETED_BY Fixture.reflect_ValueOf
      Fixture.GetIdentityFieldValuesMap Fixture.render Fixture.sdDelete
      (Fixture.statement ∅ false EmptyString ∅ Fixture.rv1_unaddressable (Some 1%nat) (Some 2%nat)).
Proof.
  intros H.
  specialize (H 1%nat 2%nat Fixture.users eq_refl eq_refl ltac:(discriminate) eq_refl).
  assert (Hin : clause.IN (clause.OneColumn
                  {| clause.Column.Table := "users"; clause.Column.Name := "id" |}) [Int 7]
                ∈ keyPredicate Fixture.GetIdentityFieldValuesMap Fixture.users
                    (Fixture.reflect_ValueOf 2)
                    (Fixture.statement ∅ false EmptyString ∅ Fixture.rv1_unaddressable
                       (Some 1%nat) (Some 2%nat))).
  { vm_compute. by left. }
  apply H in Hin. vm_compute in Hin.
  repeat (apply elem_of_cons in Hin as [Hin | Hin]; [discriminate |]).
  by apply elem_of_nil in Hin.
Qed.

(** With the keys 1, 2 and 3 in the record, [id IN (1,2,3)] on the table
    [users] is in the WHERE clause. *)
Lemma delete_scopes_by_primary_key_witness :
  let stmt := Fixture.statement ∅ false EmptyString ∅ Fixture.rv1 (Some 1%nat) (Some 1%nat) in
  clause.IN (clause.OneColumn {| clause.Column.Table := "users"; clause.Column.Name := "id" |})
    [Int 1; Int 2; Int 3]
  ∈ flat_map predicates
      (whereExprs
         (SoftDeleteDeleteClause.ModifyStatement Fixture.GORM_CTX_DELETED_BY
            Fixture.reflect_ValueOf Fixture.GetIdentityFieldValuesMap Fixture.render
            Fixture.sdDelete stmt)).
Proof.
  intros stmt.
  exact (proj1 (delete_scopes_by_primary_key Fixture.GORM_CTX_DELETED_BY
                  Fixture.reflect_ValueOf Fixture.GetIdentityFieldValuesMap Fixture.render
                  Fixture.sdDelete stmt Fixture.users eq_refl eq_refl eq_refl)
           "id" [Int 1; Int 2; Int 3] eq_refl eq_refl ltac:(discriminate)).
Defined.

(** With a model that is not the destination and an addressable
    reflected value, the key of the model is in the WHERE clause too. *)
Example delete_scopes_by_model_keys :
  flat_map predicates
    (whereExprs
       (SoftDeleteDeleteClause.ModifyStatement Fixture.GORM_CTX_DELETED_BY
          Fixture.reflect_ValueOf Fixture.GetIdentityFieldValuesMap Fixture.render
          Fixture.sdDelete
          (Fixture.statement ∅ false EmptyString ∅ Fixture.rv1 (Some 1%nat) (Some 2%nat))))
  = [clause.IN (clause.OneColumn {| clause.Column.Table := "users";
                                    clause.Column.Name := "id" |}) [Int 1; Int 2; Int 3];
     clause.IN (clause.OneColumn {| clause.Column.Table := "users";
                                    clause.Column.Name := "id" |}) [Int 7];
     SoftDeleteQueryClause.notDeleted Fixture.sdQuery].
Proof. reflexivity. Qed.

(** The rendering of the update leaves the switch of positions in the
    statement: with the marker set, the filter [Or(a).Where(b)] of a
    delete ends with [b] in front. *)
Example delete_switches_positions :
  whereExprs
    (SoftDeleteDeleteClause.ModifyStatement Fixture.GORM_CTX_DELETED_BY
       Fixture.reflect_ValueOf Fixture.GetIdentityFieldValuesMap Fixture.render
       Fixture.sdDelete
       (Fixture.statement
          (<["soft_delete_enabled" := clause.Clause.zero]>
             (Fixture.whereOf [clause.OrConditions [Fixture.a]; Fixture.b]))
          false EmptyString ∅ Fixture.rv1 (Some 1%nat) (Some 1%nat)))
  = [Fixture.b; clause.OrConditions [Fixture.a];
     clause.IN (clause.OneColumn {| clause.Column.Table := "users";
                                    clause.Column.Name := "id" |}) [Int 1; Int 2; Int 3]].
Proof. reflexivity. Qed.

(** C8, as stated, fails: with an actor field and ["alice"] in the
    context, a delete of a record that is passed by value, a struct
    that is not addressable, sets nothing on the record; [SetColumn]
    refuses it. *)
Lemma actor_not_marked_on_value_record :
  ~ actorMarked Fixture.GORM_CTX_DELETED_BY Fixture.reflect_ValueOf
      Fixture.GetIdentityFieldValuesMap Fixture.render Fixture.sdDelete
      (Fixture.statement ∅ false EmptyString
         {[ Fixture.GORM_CTX_DELETED_BY := Str "alice" ]}
         Fixture.rv1_unaddressable (Some 1%nat) (Some 1%nat)).
Proof.
  intros H.
  specialize (H Fixture.deletedByField (Str "alice") eq_refl eq_refl eq_refl eq_refl
                ltac:(discriminate)).
  vm_compute in H. by apply elem_of_nil in H.
Qed.

(** The statement of that delete carries the two refusals. *)
Example delete_of_value_record_errors :
  gorm.Statement.Error
    (SoftDeleteDeleteClause.ModifyStatement Fixture.GORM_CTX_DELETED_BY
       Fixture.reflect_ValueOf Fixture.GetIdentityFieldValuesMap Fixture.render
       Fixture.sdDelete
       (Fixture.statement ∅ false EmptyString
          {[ Fixture.GORM_CTX_DELETED_BY := Str "alice" ]}
          Fixture.rv1_unaddressable (Some 1%nat) (Some 1%nat)))
  = [gorm.ErrInvalidValue; gorm.ErrInvalidValue].
Proof. reflexivity. Qed.

(** With ["alice"] in the context and a record passed by pointer,
    [deleted_by = "alice"] is assigned and set on the record. *)
Lemma delete_records_actor_witness :
  let stmt := Fixture.statement ∅ false EmptyString
                {[ Fixture.GORM_CTX_DELETED_BY := Str "alice" ]}
                Fixture.rv1 (Some 1%nat) (Some 1%nat) in
  let stmt' := SoftDeleteDeleteClause.ModifyStatement Fixture.GORM_CTX_DELETED_BY
                 Fixture.reflect_ValueOf Fixture.GetIdentityFieldValuesMap Fixture.render
                 Fixture.sdDelete stmt in
  gorm.Statement.Clauses stmt' !! "SET"
    = Some {| clause.Clause.Name := "SET";
              clause.Clause.Expression :=
                Some (clause.Set_
                  [{| clause.Assignment_Column :=
                        {| clause.Column.Table := EmptyString;
                           clause.Column.Name := "deleted_at" |};
                      clause.Assignment_Value := TimeVal Fixture.y2k |};
                   {| clause.Assignment_Column :=
                        {| clause.Column.Table := EmptyString;
                           clause.Column.Name := "deleted_by" |};
                      clause.Assignment_Value := Str "alice" |}]) |}
  /\ gorm.Statement.Assigned stmt'
     = [("deleted_by", Str "alice"); ("deleted_at", TimeVal Fixture.y2k)].
Proof.
  intros stmt stmt'.
  pose proof (proj1 (delete_records_actor Fixture.GORM_CTX_DELETED_BY
                       Fixture.reflect_ValueOf Fixture.GetIdentityFieldValuesMap
                       Fixture.render Fixture.sdDelete stmt
                       Fixture.deletedByField eq_refl eq_refl eq_refl)
                (Str "alice") eq_refl ltac:(discriminate)) as (Hset & _ & Hrec).
  split; [exact Hset |].
  exact (Hrec Fixture.users Fixture.deletedByField
           (schema.mkField "deleted_at" ∅ Fixture.noSchema Fixture.set)
           eq_refl eq_refl eq_refl eq_refl eq_refl eq_refl eq_refl eq_refl).
Defined.

(** Without a value in the context, only the deletion time is assigned. *)
Example delete_without_actor :
  gorm.Statement.Clauses
    (SoftDeleteDeleteClause.ModifyStatement Fixture.GORM_CTX_DELETED_BY
       Fixture.reflect_ValueOf Fixture.GetIdentityFieldValuesMap Fixture.render
       Fixture.sdDelete
       (Fixture.statement ∅ false EmptyString ∅ Fixture.rv1 (Some 1%nat) (Some 1%nat)))
    !! "SET"
  = Some {| clause.Clause.Name := "SET";
            clause.Clause.Expression :=
              Some (clause.Set_ [assign ("deleted_at", TimeVal Fixture.y2k)]) |}.
Proof. reflexivity. Qed.

(** * Further properties of the code *)

(** ** The nullable timestamp: decoding, storage *)

(** X1: when [UnmarshalJSON] returns no error, the receiver is present
    exactly when the text is not the literal [null]; on [null] the time
    the receiver held stays where it was. *)
Theorem UnmarshalJSON_success_presence
    (un : string -> time_Time -> time_Time * option error)
    (n : DeletedAt.t) (b : string) :
  snd (DeletedAt.UnmarshalJSON un n b) = None ->
  DeletedAt.Valid (fst (DeletedAt.UnmarshalJSON un n b)) = bool_decide (b <> "null")
  /\ (b = "null" ->
      DeletedAt.Time (fst (DeletedAt.UnmarshalJSON un n b)) = DeletedAt.Time n).
Proof.
  unfold DeletedAt.UnmarshalJSON. case_decide as Hb.
  - intros _. split; [| done]. simpl. symmetry. apply bool_decide_eq_false_2. tauto.
  - destruct (un b (DeletedAt.Time n)) as [tm [e |]]; simpl; [discriminate |].
    intros _. split; [| done]. symmetry. by apply bool_decide_eq_true_2.
Qed.

Lemma UnmarshalJSON_success_presence_witness :
  let n := {| DeletedAt.Time := Fixture.y2k; DeletedAt.Valid := true |} in
  DeletedAt.Valid (fst (DeletedAt.UnmarshalJSON Fixture.json_Unmarshal_Time n "null")) = false
  /\ DeletedAt.Valid
       (fst (DeletedAt.UnmarshalJSON Fixture.json_Unmarshal_Time DeletedAt.zero
               Fixture.y2k_json)) = true.
Proof.
  intros n. split.
  - exact (proj1 (UnmarshalJSON_success_presence Fixture.json_Unmarshal_Time n "null"
                    eq_refl)).
  - exact (proj1 (UnmarshalJSON_success_presence Fixture.json_Unmarshal_Time
                    DeletedAt.zero Fixture.y2k_json eq_refl)).
Defined.

(** X2: decoding then encoding gives the text back.  If [UnmarshalJSON]
    reads [b] without error and the codec of [time.Time] writes the time
    it decoded from [b] as [b] again, [MarshalJSON] of the receiver is
    [b]; for the literal [null] nothing is asked of the codec, whatever
    time the receiver still holds. *)
Theorem json_decode_encode (ma : time_Time -> result string)
    (un : string -> time_Time -> time_Time * option error)
    (n : DeletedAt.t) (b : string) :
  snd (DeletedAt.UnmarshalJSON un n b) = None ->
  (b <> "null" -> ma (fst (un b (DeletedAt.Time n))) = Ok b) ->
  DeletedAt.MarshalJSON ma (fst (DeletedAt.UnmarshalJSON un n b)) = Ok b.
Proof.
  unfold DeletedAt.UnmarshalJSON, DeletedAt.MarshalJSON. case_decide as Hb.
  - intros _ _. by subst b.
  - intros Herr Hcodec. specialize (Hcodec Hb).
    destruct (un b (DeletedAt.Time n)) as [tm [e |]]; simpl in *; [discriminate | done].
Qed.

Lemma json_decode_encode_witness :
  DeletedAt.MarshalJSON Fixture.json_Marshal_Time
    (fst (DeletedAt.UnmarshalJSON Fixture.json_Unmarshal_Time DeletedAt.zero
            Fixture.y2k_json))
  = Ok Fixture.y2k_json
  /\ DeletedAt.MarshalJSON Fixture.json_Marshal_Time
       (fst (DeletedAt.UnmarshalJSON Fixture.json_Unmarshal_Time
               {| DeletedAt.Time := Fixture.y2k; DeletedAt.Valid := true |} "null"))
     = Ok "null".
Proof.
  split.
  - exact (json_decode_encode Fixture.json_Marshal_Time Fixture.json_Unmarshal_Time
             DeletedAt.zero Fixture.y2k_json eq_refl (fun _ => eq_refl)).
  - refine (json_decode_encode Fixture.json_Marshal_Time Fixture.json_Unmarshal_Time
             {| DeletedAt.Time := Fixture.y2k; DeletedAt.Valid := true |} "null" eq_refl _).
    intros H. by destruct H.
Defined.

(** X3: what goes to storage after a decode.  After [UnmarshalJSON] has
    read [b] without error, [Value] is nil for the literal [null], even
    when the receiver still holds a time, and the decoded time
    otherwise; [Value] never returns an error. *)
Theorem UnmarshalJSON_then_Value
    (un : string -> time_Time -> time_Time * option error)
    (n : DeletedAt.t) (b : string) :
  snd (DeletedAt.UnmarshalJSON un n b) = None ->
  DeletedAt.Value (fst (DeletedAt.UnmarshalJSON un n b))
  = (if decide (b = "null") then None else Some (fst (un b (DeletedAt.Time n))), None).
Proof.
  unfold DeletedAt.UnmarshalJSON, DeletedAt.Value. case_decide as Hb; [done |].
  destruct (un b (DeletedAt.Time n)) as [tm [e |]]; simpl; [discriminate | done].
Qed.

Lemma UnmarshalJSON_then_Value_witness :
  DeletedAt.Value
    (fst (DeletedAt.UnmarshalJSON Fixture.json_Unmarshal_Time
            {| DeletedAt.Time := Fixture.y2k; DeletedAt.Valid := true |} "null"))
  = (None, None).
Proof.
  exact (UnmarshalJSON_then_Value Fixture.json_Unmarshal_Time
           {| DeletedAt.Time := Fixture.y2k; DeletedAt.Valid := true |} "null" eq_refl).
Defined.

(** X4: the storage round trip.  The driver value of [x] scanned into
    any receiver, where the conversion takes the time of a present [x]
    as it is, gives no error and leaves [x] itself when [x] is present
    and the zero wrapper when it is not; the driver value of the
    result is that of [x]. *)
Theorem Scan_Value_round_trip
    (convertAssign : time_Time -> any -> time_Time * option error)
    (x r : DeletedAt.t) :
  (DeletedAt.Valid x = true ->
   convertAssign (DeletedAt.Time r) (TimeVal (DeletedAt.Time x)) = (DeletedAt.Time x, None)) ->
  let scanned :=
    DeletedAt.Scan convertAssign r (DeletedAt.driverValue (fst (DeletedAt.Value x))) in
  snd scanned = None
  /\ fst scanned = (if DeletedAt.Valid x then x else DeletedAt.zero)
  /\ DeletedAt.Value (fst scanned) = DeletedAt.Value x.
Proof.
  intros Hconv. destruct x as [tx [|]]; simpl in *.
  - unfold DeletedAt.Value. simpl. rewrite (Hconv eq_refl). by repeat split.
  - by repeat split.
Qed.

Lemma Scan_Value_round_trip_witness :
  let x := {| DeletedAt.Time := Fixture.y2k; DeletedAt.Valid := true |} in
  fst (DeletedAt.Scan Fixture.convertAssign DeletedAt.zero
         (DeletedAt.driverValue (fst (DeletedAt.Value x)))) = x.
Proof.
  intros x.
  exact (proj1 (proj2 (Scan_Value_round_trip Fixture.convertAssign x DeletedAt.zero
                         (fun _ => eq_refl)))).
Defined.

(** ** Registration *)

(** X6: the sentinel is well formed.  A valid sentinel is the
    [ZEROVALUE] tag of the field and [now.Parse] accepts it; a sentinel
    that is not valid is the null [sql.NullString], with the empty
    string. *)
Theorem sentinel_well_formed (now_Parse : string -> result time_Time) (f : schema.Field) :
  (NullString.Valid (parseZeroValueTag now_Parse f) = true ->
   schema.TagSettings f !! "ZEROVALUE"
     = Some (NullString.String (parseZeroValueTag now_Parse f))
   /\ exists t, now_Parse (NullString.String (parseZeroValueTag now_Parse f)) = Ok t)
  /\ (NullString.Valid (parseZeroValueTag now_Parse f) = false ->
      parseZeroValueTag now_Parse f = NullString.null).
Proof.
  unfold parseZeroValueTag.
  destruct (schema.TagSettings f !! "ZEROVALUE") as [v |]; [| by split].
  destruct (now_Parse v) as [t | e] eqn:Hp; simpl; split; try done.
  intros _. split; [done | by exists t].
Qed.

Lemma sentinel_well_formed_witness :
  exists t, Fixture.now_Parse
              (NullString.String (parseZeroValueTag Fixture.now_Parse Fixture.deletedAtField))
            = Ok t.
Proof.
  exact (proj2 (proj1 (sentinel_well_formed Fixture.now_Parse Fixture.deletedAtField)
                  eq_refl)).
Defined.

(** ** The query and update modifiers *)

Lemma normalizeWhere_buffers (s : gorm.Statement.t) :
  gorm.Statement.SQL (SoftDeleteQueryClause.normalizeWhere s) = gorm.Statement.SQL s
  /\ gorm.Statement.Vars (SoftDeleteQueryClause.normalizeWhere s) = gorm.Statement.Vars s.
Proof.
  unfold SoftDeleteQueryClause.normalizeWhere.
  destruct (gorm.Statement.Clauses s !! "WHERE") as [[n [e |]] |]; try done.
  destruct e; try done. cbn [clause.Clause.Expression clause.Clause.Name].
  destruct (1 <=? length Exprs)%nat; [| done].
  by destruct (SoftDeleteQueryClause.wrapLoop Exprs Exprs).
Qed.

Lemma Query_ModifyStatement_buffers (sd : SoftDeleteQueryClause.t) (s : gorm.Statement.t) :
  gorm.Statement.SQL (SoftDeleteQueryClause.ModifyStatement sd s) = gorm.Statement.SQL s
  /\ gorm.Statement.Vars (SoftDeleteQueryClause.ModifyStatement sd s) = gorm.Statement.Vars s.
Proof.
  unfold SoftDeleteQueryClause.ModifyStatement.
  destruct (gorm.Statement.Clauses s !! "soft_delete_enabled"); [done |].
  destruct (gorm.Statement.Unscoped s); [done |]. simpl.
  apply normalizeWhere_buffers.
Qed.

(** The update modifier is the query modifier on a statement whose SQL
    buffer is empty. *)
Lemma Update_as_Query (sd : SoftDeleteUpdateClause.t) (stmt : gorm.Statement.t) :
  gorm.Statement.SQL stmt = EmptyString ->
  SoftDeleteUpdateClause.ModifyStatement sd stmt
  = SoftDeleteQueryClause.ModifyStatement (SoftDeleteUpdateClause.toQuery sd) stmt.
Proof.
  intros Hsql. unfold SoftDeleteUpdateClause.ModifyStatement. rewrite Hsql. simpl.
  destruct (gorm.Statement.Unscoped stmt) eqn:Hun; simpl; [| done].
  symmetry. apply Query_ModifyStatement_skips. by left.
Qed.

(** X7: the query modifier writes the clauses ["WHERE"] and
    ["soft_delete_enabled"] and nothing else: every other clause of the
    statement, its SQL buffer and variables, the columns set on the
    record and the fields it reads are as they were. *)
Theorem Query_ModifyStatement_frame (sd : SoftDeleteQueryClause.t)
    (stmt : gorm.Statement.t) :
  let stmt' := SoftDeleteQueryClause.ModifyStatement sd stmt in
  (forall k, k <> "WHERE" -> k <> "soft_delete_enabled" ->
     gorm.Statement.Clauses stmt' !! k = gorm.Statement.Clauses stmt !! k)
  /\ gorm.Statement.SQL stmt' = gorm.Statement.SQL stmt
  /\ gorm.Statement.Vars stmt' = gorm.Statement.Vars stmt
  /\ gorm.Statement.Assigned stmt' = gorm.Statement.Assigned stmt
  /\ sameHost stmt stmt'.
Proof.
  intros stmt'. destruct (step_Query_ModifyStatement sd stmt) as [Hh Hc Ha].
  destruct (Query_ModifyStatement_buffers sd stmt) as [Hsql Hvars].
  split.
  { intros k Hk1 Hk2. apply Hc. rewrite !not_elem_of_cons. repeat split; try done.
    apply not_elem_of_nil. }
  split; [done |]. split; [done |].
  split; [unfold stmt'; by rewrite Ha, app_nil_r | exact Hh].
Qed.

(** X8: the query modifier never removes or reorders a predicate.  On
    every statement the predicates of the WHERE clause after the
    modifier are those before it, in their order, followed by the
    exclusion predicate when the modifier fires (no marker, not
    unscoped) and by nothing when it does not. *)
Theorem Query_keeps_predicates (sd : SoftDeleteQueryClause.t) (stmt : gorm.Statement.t) :
  flat_map predicates (whereExprs (SoftDeleteQueryClause.ModifyStatement sd stmt))
  = flat_map predicates (whereExprs stmt)
    ++ match gorm.Statement.Clauses stmt !! "soft_delete_enabled",
             gorm.Statement.Unscoped stmt with
       | None, false => [SoftDeleteQueryClause.notDeleted sd]
       | _, _ => []
       end.
Proof.
  destruct (gorm.Statement.Clauses stmt !! "soft_delete_enabled") as [c |] eqn:Hm.
  - rewrite Query_ModifyStatement_skips by (right; by rewrite Hm). by rewrite app_nil_r.
  - destruct (gorm.Statement.Unscoped stmt) eqn:Hun.
    + rewrite Query_ModifyStatement_skips by (by left). by rewrite app_nil_r.
    + by apply predicates_Query_ModifyStatement.
Qed.

(** X9: a statement without a filter.  When the modifier fires and the
    statement has no ["WHERE"] clause, or one whose expression is nil or
    is not a [clause.Where], the clause afterwards is named ["WHERE"]
    and holds the exclusion predicate alone: an expression of another
    kind that was stored there is replaced. *)
Theorem Query_without_where (sd : SoftDeleteQueryClause.t) (stmt : gorm.Statement.t) :
  gorm.Statement.Unscoped stmt = false ->
  gorm.Statement.Clauses stmt !! "soft_delete_enabled" = None ->
  match gorm.Statement.Clauses stmt !! "WHERE" with
  | Some {| clause.Clause.Expression := Some (clause.Where _) |} => False
  | _ => True
  end ->
  gorm.Statement.Clauses (SoftDeleteQueryClause.ModifyStatement sd stmt) !! "WHERE"
  = Some {| clause.Clause.Name := "WHERE";
            clause.Clause.Expression :=
              Some (clause.Where [SoftDeleteQueryClause.notDeleted sd]) |}.
Proof.
  intros Hun Hm Hw. rewrite Query_ModifyStatement_fires by done. simpl.
  rewrite lookup_insert_ne by done. rewrite lookup_insert_eq.
  unfold SoftDeleteQueryClause.normalizeWhere.
  destruct (gorm.Statement.Clauses stmt !! "WHERE") as [[n [e |]] |] eqn:Hl;
    simpl; rewrite ?Hl; try done.
  destruct e; simpl; rewrite ?Hl; done.
Qed.

Lemma Query_without_where_witness :
  gorm.Statement.Clauses
    (SoftDeleteQueryClause.ModifyStatement Fixture.sdQuery
       (Fixture.statement ∅ false EmptyString ∅ Fixture.rv1 (Some 1%nat) (Some 1%nat)))
    !! "WHERE"
  = Some {| clause.Clause.Name := "WHERE";
            clause.Clause.Expression :=
              Some (clause.Where [SoftDeleteQueryClause.notDeleted Fixture.sdQuery]) |}.
Proof.
  exact (Query_without_where Fixture.sdQuery
           (Fixture.statement ∅ false EmptyString ∅ Fixture.rv1 (Some 1%nat) (Some 1%nat))
           eq_refl eq_refl I).
Defined.

Section ReadingFacts.
Variable rho : clause.Expression -> bool.

Local Abbreviation items :=
  (map (fun x : clause.Expression => (isSingleOr x, holds rho x))).
Local Abbreviation flagged :=
  (map (fun x : clause.Expression => (staysBehind x, (isSingleOr x, holds rho x)))).

Lemma joinFrom_no_or (es : list clause.Expression) (o a : bool) :
  existsb isSingleOr es = false ->
  joinFrom o a (items es) = o || (a && forallb (holds rho) es).
Proof.
  revert a. induction es as [| e es IH]; intros a; simpl.
  - intros _. by rewrite andb_true_r.
  - intros H. apply orb_false_elim in H as [-> Hes].
    rewrite IH by done. by rewrite andb_assoc.
Qed.

Lemma joinAnd_no_or (es : list clause.Expression) :
  existsb isSingleOr es = false ->
  joinAnd (items es) = forallb (holds rho) es.
Proof.
  destruct es as [| e es]; simpl; [done |].
  intros H. apply orb_false_elim in H as [_ Hes]. by rewrite joinFrom_no_or.
Qed.

(** No switch of positions when the first expression is to lead. *)
Lemma switchPosition_head (es : list clause.Expression) :
  (forall e, head es = Some e -> staysBehind e = false) ->
  map snd (switchPosition fst (flagged es)) = items es.
Proof.
  intros Hhd. destruct es as [| e es]; [done |].
  unfold switchPosition. simpl. rewrite (Hhd e eq_refl). simpl.
  f_equal. by rewrite map_map.
Qed.

(** The reading of a filter that is not a lone AND group and whose
    first expression is to lead. *)
Lemma whereHolds_plain (es : list clause.Expression) :
  (forall es', es <> [clause.AndConditions es']) ->
  (forall e, head es = Some e -> staysBehind e = false) ->
  whereHolds rho es = joinAnd (items es).
Proof.
  intros Hlone Hhd. rewrite <- (switchPosition_head es Hhd).
  unfold whereHolds.
  destruct es as [| e0 [| e1 es]]; try reflexivity.
  destruct e0; try reflexivity. by destruct (Hlone Exprs).
Qed.

Lemma whereHolds_group_then (es : list clause.Expression) (e : clause.Expression) :
  isSingleOr e = false ->
  whereHolds rho [clause.AndConditions es; e] = joinAnd (items es) && holds rho e.
Proof.
  intros He. unfold whereHolds.
  change (holds rho (clause.Where [clause.AndConditions es; e]))
    with (joinAnd (map snd (switchPosition fst
            [(false, (false, joinAnd (items es)));
             (staysBehind e, (isSingleOr e, holds rho e))]))).
  simpl. by rewrite He.
Qed.
End ReadingFacts.

(** X10: the exclusion predicate is conjoined with the whole former
    filter.  When the modifier fires on a WHERE clause that is not a
    lone AND group and whose first expression is not an OR condition of
    at most one expression, the filter afterwards, read as gorm writes
    it, holds on a row exactly when the former filter and the exclusion
    predicate both hold there, whether or not the former expressions
    were wrapped. *)
Theorem exclusion_conjoined (sd : SoftDeleteQueryClause.t) (stmt : gorm.Statement.t)
    (rho : clause.Expression -> bool) :
  gorm.Statement.Unscoped stmt = false ->
  gorm.Statement.Clauses stmt !! "soft_delete_enabled" = None ->
  (forall es', whereExprs stmt <> [clause.AndConditions es']) ->
  (forall e, head (whereExprs stmt) = Some e -> staysBehind e = false) ->
  whereHolds rho (whereExprs (SoftDeleteQueryClause.ModifyStatement sd stmt))
  = whereHolds rho (whereExprs stmt) && rho (SoftDeleteQueryClause.notDeleted sd).
Proof.
  intros Hun Hm Hlone Hhd.
  rewrite whereExprs_Query_ModifyStatement by done.
  rewrite (whereHolds_plain rho (whereExprs stmt)) by done.
  destruct (existsb isSingleOr (whereExprs stmt)) eqn:Hex.
  - by rewrite whereHolds_group_then.
  - rewrite whereHolds_plain.
    + rewrite !joinAnd_no_or; [| done |].
      * rewrite forallb_app. simpl. by rewrite andb_true_r.
      * rewrite existsb_app, Hex. reflexivity.
    + intros es' H. destruct (whereExprs stmt) as [| e0 [| e1 es]]; try discriminate.
    + intros e. destruct (whereExprs stmt) as [| e0 es] eqn:Hw; simpl.
      * by intros [= <-].
      * intros [= <-]. by apply Hhd.
Qed.

Lemma exclusion_conjoined_witness :
  let stmt := Fixture.statement
                (Fixture.whereOf [Fixture.a; clause.OrConditions [Fixture.b]; Fixture.c])
                false EmptyString ∅ Fixture.rv1 (Some 1%nat) (Some 1%nat) in
  let rho := fun e : clause.Expression => negb (isNotDeleted Fixture.sdQuery e) in
  whereHolds rho (whereExprs (SoftDeleteQueryClause.ModifyStatement Fixture.sdQuery stmt))
  = whereHolds rho (whereExprs stmt)
    && rho (SoftDeleteQueryClause.notDeleted Fixture.sdQuery).
Proof.
  intros stmt rho.
  refine (exclusion_conjoined Fixture.sdQuery stmt rho eq_refl eq_refl _ _).
  - intros es'. vm_compute. discriminate.
  - intros e. vm_compute. by intros [= <-].
Defined.

(** Where the hypothesis on the first expression is needed: the filter
    [Or(a).Where(b)] reads [b OR a], because [Where.Build] lets [b]
    lead; wrapped in the AND group, which does not, it reads
    [a AND b]. *)
Example leading_or_condition (rho : clause.Expression -> bool) :
  let stmt := Fixture.statement
                (Fixture.whereOf [clause.OrConditions [Fixture.a]; Fixture.b])
                false EmptyString ∅ Fixture.rv1 (Some 1%nat) (Some 1%nat) in
  whereHolds rho (whereExprs stmt) = rho Fixture.b || rho Fixture.a
  /\ whereHolds rho (whereExprs (SoftDeleteQueryClause.ModifyStatement Fixture.sdQuery stmt))
     = rho Fixture.a && rho Fixture.b
       && rho (SoftDeleteQueryClause.notDeleted Fixture.sdQuery).
Proof.
  split.
  - change (rho Fixture.b || (rho Fixture.a || false) = rho Fixture.b || rho Fixture.a).
    by rewrite orb_false_r.
  - change ((rho Fixture.a || false) && rho Fixture.b
            && rho (SoftDeleteQueryClause.notDeleted Fixture.sdQuery)
            = rho Fixture.a && rho Fixture.b
              && rho (SoftDeleteQueryClause.notDeleted Fixture.sdQuery)).
    by rewrite orb_false_r.
Qed.

(** X11: the three registrations of a field agree.  [QueryClauses],
    [UpdateClauses] and [DeleteClauses] each register one clause; the
    update clause and the delete clause, converted to a query clause as
    their modifiers do, are the query clause; and on every statement
    whose SQL buffer is empty, unscoped or not, the registered update
    modifier does exactly what the registered query modifier does. *)
Theorem registrations_agree (now_Parse : string -> result time_Time) (f : schema.Field) :
  exists q u d,
    QueryClauses now_Parse f = [q]
    /\ UpdateClauses now_Parse f = [u]
    /\ DeleteClauses now_Parse f = [d]
    /\ SoftDeleteUpdateClause.toQuery u = q
    /\ SoftDeleteDeleteClause.toQuery d = q
    /\ (forall stmt, gorm.Statement.SQL stmt = EmptyString ->
          SoftDeleteUpdateClause.ModifyStatement u stmt
          = SoftDeleteQueryClause.ModifyStatement q stmt).
Proof.
  eexists _, _, _. repeat (split; [reflexivity |]).
  intros stmt Hsql. by rewrite Update_as_Query.
Qed.

(** X12: the update modifier is idempotent on every statement: applied
    to its own result it changes nothing. *)
Theorem Update_ModifyStatement_idempotent (sd : SoftDeleteUpdateClause.t)
    (stmt : gorm.Statement.t) :
  SoftDeleteUpdateClause.ModifyStatement sd (SoftDeleteUpdateClause.ModifyStatement sd stmt)
  = SoftDeleteUpdateClause.ModifyStatement sd stmt.
Proof.
  destruct (gorm.Statement.SQL stmt) as [| ch sql] eqn:Hsql.
  - rewrite (Update_as_Query sd stmt Hsql).
    rewrite Update_as_Query.
    + apply Query_ModifyStatement_idempotent.
    + by rewrite (proj1 (Query_ModifyStatement_buffers _ stmt)).
  - assert (Hskip : SoftDeleteUpdateClause.ModifyStatement sd stmt = stmt).
    { unfold SoftDeleteUpdateClause.ModifyStatement. by rewrite Hsql. }
    by rewrite !Hskip.
Qed.

(** ** The delete modifier, further *)

Lemma sameBuffers_refl (s : gorm.Statement.t) : sameBuffers s s.
Proof. by split. Qed.

Lemma sameBuffers_trans (s1 s2 s3 : gorm.Statement.t) :
  sameBuffers s1 s2 -> sameBuffers s2 s3 -> sameBuffers s1 s3.
Proof. unfold sameBuffers. intros [? ?] [? ?]. split; congruence. Qed.

Lemma sameBuffers_AddClause (s : gorm.Statement.t) (v : clause.Expression) :
  sameBuffers s (gorm.Statement.AddClause s v).
Proof. by split. Qed.

Lemma sameBuffers_AddClauseIfNotExists (s : gorm.Statement.t) (v : clause.Expression) :
  sameBuffers s (gorm.Statement.AddClauseIfNotExists s v).
Proof.
  unfold gorm.Statement.AddClauseIfNotExists.
  by destruct (gorm.Statement.Clauses s !! clause.Name v) as [[n [e |]] |].
Qed.

Lemma sameBuffers_Query_ModifyStatement (sd : SoftDeleteQueryClause.t)
    (s : gorm.Statement.t) :
  sameBuffers s (SoftDeleteQueryClause.ModifyStatement sd s).
Proof. apply Query_ModifyStatement_buffers. Qed.

(** An expression stored under the name of [v] is there after
    [AddClauseIfNotExists], the one that was there if there was one. *)
Lemma AddClauseIfNotExists_Update (s : gorm.Statement.t) :
  exists c e,
    gorm.Statement.Clauses (gorm.Statement.AddClauseIfNotExists s clause.Update) !! "UPDATE"
    = Some c
    /\ clause.Clause.Expression c = Some e
    /\ (forall c0 e0, gorm.Statement.Clauses s !! "UPDATE" = Some c0 ->
          clause.Clause.Expression c0 = Some e0 -> c = c0).
Proof.
  unfold gorm.Statement.AddClauseIfNotExists. simpl.
  destruct (gorm.Statement.Clauses s !! "UPDATE") as [[n [e |]] |] eqn:Hu.
  - exists {| clause.Clause.Name := n; clause.Clause.Expression := Some e |}, e.
    rewrite Hu. repeat split. by intros c0 e0 [= <-] _.
  - eexists _, _. unfold gorm.Statement.AddClause. simpl. rewrite lookup_insert_eq, ?Hu.
    repeat split. intros c0 e0 [= <-]. discriminate.
  - eexists _, _. unfold gorm.Statement.AddClause. simpl. rewrite lookup_insert_eq, ?Hu.
    repeat split. discriminate.
Qed.

Section DeleteFacts.
Variable GORM_CTX_DELETED_BY : string.
Variable reflect_ValueOf : nat -> reflect.Value.
Variable GetIdentityFieldValuesMap :
  gmap string any -> reflect.Value -> list schema.Field -> list (list any).
Variable render : gorm.Statement.t -> list string -> string * list any.

Local Abbreviation bindActor := (SoftDeleteDeleteClause.bindActor GORM_CTX_DELETED_BY).
Local Abbreviation scopeByKeys :=
  (SoftDeleteDeleteClause.scopeByKeys GetIdentityFieldValuesMap).
Local Abbreviation scopeByPrimaryKeys :=
  (SoftDeleteDeleteClause.scopeByPrimaryKeys reflect_ValueOf GetIdentityFieldValuesMap).
Local Abbreviation actorIn := (actorOf GORM_CTX_DELETED_BY).
Local Abbreviation keysOf := (keyPredicate GetIdentityFieldValuesMap).
Local Abbreviation keysOfDelete :=
  (keyPredicates reflect_ValueOf GetIdentityFieldValuesMap).
Local Abbreviation Delete_ModifyStatement :=
  (SoftDeleteDeleteClause.ModifyStatement GORM_CTX_DELETED_BY reflect_ValueOf
     GetIdentityFieldValuesMap render).

Lemma Delete_ModifyStatement_skips (sd : SoftDeleteDeleteClause.t)
    (stmt : gorm.Statement.t) :
  gorm.Statement.SQL stmt <> EmptyString \/ gorm.Statement.Unscoped stmt = true ->
  Delete_ModifyStatement sd stmt = stmt.
Proof.
  unfold SoftDeleteDeleteClause.ModifyStatement. intros [Hsql | ->].
  - by destruct (gorm.Statement.SQL stmt).
  - by rewrite andb_false_r.
Qed.

Lemma sameBuffers_SetColumn (s : gorm.Statement.t) (name : string) (value : any) :
  sameBuffers s (gorm.Statement.SetColumn s name value).
Proof.
  destruct (SetColumn_recorded s name value) as (k & errs & H).
  rewrite (H s eq_refl eq_refl eq_refl). by split.
Qed.

Lemma sameBuffers_bindActor (sd : SoftDeleteDeleteClause.t) (cs : list clause.Assignment)
    (s : gorm.Statement.t) :
  sameBuffers s (snd (bindActor sd cs s)).
Proof.
  rewrite (bindActor_spec GORM_CTX_DELETED_BY).
  destruct (actorIn sd s) as [[name v] |]; [apply sameBuffers_SetColumn | by split].
Qed.

Lemma sameBuffers_scopeByKeys (sch : schema.SchemaOf schema.Field) (rv : reflect.Value)
    (s : gorm.Statement.t) :
  sameBuffers s (scopeByKeys sch rv s).
Proof.
  unfold SoftDeleteDeleteClause.scopeByKeys.
  destruct (schema.ToQueryValues _ _ _) as [column values].
  by destruct (0 <? length values)%nat.
Qed.

Lemma sameBuffers_scopeByPrimaryKeys (s : gorm.Statement.t) :
  sameBuffers s (scopeByPrimaryKeys s).
Proof.
  unfold SoftDeleteDeleteClause.scopeByPrimaryKeys.
  destruct (gorm.Statement.Schema s) as [sch |]; [| apply sameBuffers_refl].
  set (s1 := scopeByKeys sch (gorm.Statement.ReflectValue s) s).
  assert (H1 : sameBuffers s s1) by apply sameBuffers_scopeByKeys.
  destruct (gorm.Statement.Model s1) as [m |]; [| done].
  destruct (_ && _); [| done].
  eapply sameBuffers_trans; [exact H1 | apply sameBuffers_scopeByKeys].
Qed.

(** The delete modifier, when its guard lets it run, as [Build] on a
    statement [s] that has the rewritten clauses, the columns set and
    an empty SQL buffer. *)
Lemma Delete_ModifyStatement_renders (sd : SoftDeleteDeleteClause.t)
    (stmt : gorm.Statement.t) :
  gorm.Statement.SQL stmt = EmptyString ->
  gorm.Statement.Unscoped stmt = false ->
  exists s log,
    Delete_ModifyStatement sd stmt
    = gorm.Statement.Build render s (gorm.Callback_Update_Clauses (gorm.Statement.DB stmt))
    /\ gorm.Statement.SQL s = EmptyString
    /\ gorm.Statement.Vars s = gorm.Statement.Vars stmt
    /\ step ["SET"; "WHERE"; "soft_delete_enabled"; "UPDATE"] log stmt s
    /\ (forall cv, cv ∈ log ->
          fst cv = schema.DBName (SoftDeleteDeleteClause.Field sd)
          \/ actorIn sd stmt = Some cv)
    /\ is_Some (gorm.Statement.Clauses s !! "soft_delete_enabled")
    /\ (exists c e, gorm.Statement.Clauses s !! "UPDATE" = Some c
                    /\ clause.Clause.Expression c = Some e
                    /\ (forall c0 e0, gorm.Statement.Clauses stmt !! "UPDATE" = Some c0 ->
                          clause.Clause.Expression c0 = Some e0 -> c = c0)).
Proof.
  intros Hsql Hun.
  rewrite (Delete_ModifyStatement_unfold GORM_CTX_DELETED_BY reflect_ValueOf
             GetIdentityFieldValuesMap render sd stmt Hsql Hun).
  set (field := schema.DBName (SoftDeleteDeleteClause.Field sd)).
  set (curTime := TimeVal (gorm.NowFunc (gorm.Statement.DB stmt) ())).
  set (s1 := snd (bindActor sd [assign (field, curTime)] stmt)).
  set (cs := assign (field, curTime) :: map assign (option_list (actorIn sd stmt))).
  set (s2 := gorm.Statement.AddClause s1 (clause.Set_ cs)).
  set (s3 := gorm.Statement.SetColumn s2 field curTime).
  set (s4 := scopeByPrimaryKeys s3).
  set (s5 := SoftDeleteQueryClause.ModifyStatement (SoftDeleteDeleteClause.toQuery sd) s4).
  set (s6 := gorm.Statement.AddClauseIfNotExists s5 clause.Update).
  destruct (step_bindActor GORM_CTX_DELETED_BY sd [assign (field, curTime)] stmt)
    as (l1 & H1 & Hl1).
  fold s1 in H1.
  assert (H2 : step ["SET"] [] s1 s2) by apply (step_AddClause s1 (clause.Set_ cs)).
  destruct (step_SetColumn s2 field curTime) as [k3 H3]. fold s3 in H3.
  assert (H4 : step ["WHERE"] [] s3 s4)
    by apply (step_scopeByPrimaryKeys reflect_ValueOf GetIdentityFieldValuesMap render).
  assert (H5 : step ["WHERE"; "soft_delete_enabled"] [] s4 s5)
    by apply step_Query_ModifyStatement.
  assert (H6 : step ["UPDATE"] [] s5 s6)
    by apply (step_AddClauseIfNotExists s5 clause.Update).
  pose proof (step_trans _ _ _ _ _ _ _ H1 (step_trans _ _ _ _ _ _ _ H2
    (step_trans _ _ _ _ _ _ _ H3 H4))) as H14.
  pose proof (step_trans _ _ _ _ _ _ _ H14 H5) as H15.
  pose proof (step_trans _ _ _ _ _ _ _ H15 H6) as H16.
  simpl in H14, H15, H16. rewrite !app_nil_r in H16.
  assert (B6 : sameBuffers stmt s6).
  { repeat (eapply sameBuffers_trans;
              [| first [ apply sameBuffers_AddClauseIfNotExists
                       | apply sameBuffers_Query_ModifyStatement
                       | apply sameBuffers_scopeByPrimaryKeys ]]).
    eapply sameBuffers_trans; [apply (sameBuffers_bindActor sd [assign (field, curTime)]) |].
    fold s1. eapply sameBuffers_trans; [| apply sameBuffers_SetColumn]. by split. }
  exists s6, (l1 ++ replicate k3 (field, curTime)). split.
  { f_equal. destruct (step_host _ _ _ _ H16) as (_ & _ & _ & _ & _ & _ & _ & ->). done. }
  split; [destruct B6 as [-> _]; exact Hsql |].
  split; [apply B6 |].
  split.
  { eapply step_weaken; [| exact H16].
    intros k. rewrite !elem_of_cons, !elem_of_nil. tauto. }
  split.
  { intros cv Hcv. apply elem_of_app in Hcv as [Hcv | Hcv].
    - right. by apply Hl1.
    - left. by apply elem_of_replicate in Hcv as [-> _]. }
  split.
  { rewrite (step_clauses _ _ _ _ H6) by not_named.
    apply Query_ModifyStatement_marker.
    destruct (step_host _ _ _ _ H14) as [-> _]. exact Hun. }
  destruct (AddClauseIfNotExists_Update s5) as (c & e & Hc & He & Hkeep).
  exists c, e. repeat split; try done.
  intros c0 e0 Hc0 He0. apply (Hkeep c0 e0); [| done].
  rewrite (step_clauses _ _ _ _ H15) by not_named. exact Hc0.
Qed.

(** X13: the delete modifier writes the clauses ["SET"], ["WHERE"],
    ["soft_delete_enabled"] and ["UPDATE"] and no other; the fields of
    the statement it reads are as they were; and the only columns it
    sets on the record are the deletion column and the actor column. *)
Theorem Delete_ModifyStatement_frame (sd : SoftDeleteDeleteClause.t)
    (stmt : gorm.Statement.t) :
  let stmt' := Delete_ModifyStatement sd stmt in
  (forall k, k <> "SET" -> k <> "WHERE" -> k <> "soft_delete_enabled" -> k <> "UPDATE" ->
     gorm.Statement.Clauses stmt' !! k = gorm.Statement.Clauses stmt !! k)
  /\ sameHost stmt stmt'
  /\ exists log,
       gorm.Statement.Assigned stmt' = gorm.Statement.Assigned stmt ++ log
       /\ forall name v, (name, v) ∈ log ->
            name = schema.DBName (SoftDeleteDeleteClause.Field sd)
            \/ exists actorField,
                 SoftDeleteDeleteClause.ActorField sd = Some actorField
                 /\ name = schema.DBName actorField.
Proof.
  intros stmt'.
  destruct (decide (gorm.Statement.SQL stmt = EmptyString)) as [Hsql | Hsql];
    [destruct (gorm.Statement.Unscoped stmt) eqn:Hun |].
  - unfold stmt'. rewrite Delete_ModifyStatement_skips by (by right).
    split; [done |]. split; [apply sameHost_refl |].
    exists []. split; [by rewrite app_nil_r |]. intros name v H. by apply elem_of_nil in H.
  - destruct (Delete_ModifyStatement_renders sd stmt Hsql Hun)
      as (s & log & Hs & _ & _ & [Hh Hc Ha _] & Hlog & _).
    fold stmt' in Hs. rewrite Hs. split; [| split].
    + intros k ? ? ? ?. simpl. rewrite built_lookup_ne by done.
      apply Hc. rewrite !not_elem_of_cons. repeat split; try done.
      apply not_elem_of_nil.
    + eapply sameHost_trans; [exact Hh |].
      apply (step_host _ _ _ _ (step_Build render s _)).
    + exists log. split; [exact Ha |].
      intros name v Hin. apply Hlog in Hin as [Hin | Hin]; [by left |].
      right. unfold actorOf in Hin.
      destruct (SoftDeleteDeleteClause.ActorField sd) as [af |]; [| done].
      exists af. split; [done |].
      destruct (gorm.Statement.Context_Value stmt GORM_CTX_DELETED_BY);
        simpl in Hin; congruence.
  - unfold stmt'. rewrite Delete_ModifyStatement_skips by (by left).
    split; [done |]. split; [apply sameHost_refl |].
    exists []. split; [by rewrite app_nil_r |]. intros name v H. by apply elem_of_nil in H.
Qed.

(** X14: what a delete leaves for the update path.  After a delete that
    its guard lets run the statement carries the marker
    ["soft_delete_enabled"] and an ["UPDATE"] clause with an expression;
    an ["UPDATE"] clause that had an expression before is kept as it
    was. *)
Theorem Delete_leaves_update_clause (sd : SoftDeleteDeleteClause.t)
    (stmt : gorm.Statement.t) :
  gorm.Statement.SQL stmt = EmptyString ->
  gorm.Statement.Unscoped stmt = false ->
  let stmt' := Delete_ModifyStatement sd stmt in
  is_Some (gorm.Statement.Clauses stmt' !! "soft_delete_enabled")
  /\ (exists c e, gorm.Statement.Clauses stmt' !! "UPDATE" = Some c
                  /\ clause.Clause.Expression c = Some e)
  /\ (forall c e, gorm.Statement.Clauses stmt !! "UPDATE" = Some c ->
        clause.Clause.Expression c = Some e ->
        gorm.Statement.Clauses stmt' !! "UPDATE" = Some c).
Proof.
  intros Hsql Hun stmt'.
  destruct (Delete_ModifyStatement_renders sd stmt Hsql Hun)
    as (s & log & Hs & _ & _ & _ & _ & Hm & (c & e & Hc & He & Hkeep)).
  fold stmt' in Hs. rewrite Hs. simpl. rewrite !built_lookup_ne by done.
  split; [done |]. split; [by exists c, e |].
  intros c0 e0 Hc0 He0. by rewrite Hc, (Hkeep c0 e0 Hc0 He0).
Qed.

(** X15: the delete ends in the rendering.  After a delete that its
    guard lets run, the SQL buffer holds what the host renders, for the
    clause names of the update callback, from a statement that has the
    clauses and the record of the result, the fields of the statement
    the modifier reads, and an empty buffer; the variables of the
    rendering come after those the statement had. *)
Theorem Delete_renders_update (sd : SoftDeleteDeleteClause.t) (stmt : gorm.Statement.t) :
  gorm.Statement.SQL stmt = EmptyString ->
  gorm.Statement.Unscoped stmt = false ->
  let stmt' := Delete_ModifyStatement sd stmt in
  let names := gorm.Callback_Update_Clauses (gorm.Statement.DB stmt) in
  exists s,
    gorm.Statement.Clauses s = gorm.Statement.Clauses stmt'
    /\ gorm.Statement.Assigned s = gorm.Statement.Assigned stmt'
    /\ sameHost stmt s
    /\ gorm.Statement.SQL s = EmptyString
    /\ gorm.Statement.SQL stmt' = fst (render s names)
    /\ gorm.Statement.Vars stmt' = gorm.Statement.Vars stmt ++ snd (render s names).
Proof.
  intros Hsql Hun stmt' names.
  destruct (Delete_ModifyStatement_renders sd stmt Hsql Hun)
    as (s & log & Hs & Hsql' & Hvars & [Hh _ _ _] & _).
  fold stmt' names in Hs.
  exists (gorm.Statement.with_Clauses (gorm.Statement.built names) s).
  rewrite Hs. simpl. by rewrite Hsql', Hvars.
Qed.

(** X16: a second delete is a no-op once the first has rendered.  If
    the rendering that a delete writes when its guard lets it run is not
    empty, the delete modifier applied to its own result changes
    nothing. *)
Theorem Delete_ModifyStatement_idempotent (sd : SoftDeleteDeleteClause.t)
    (stmt : gorm.Statement.t) :
  (gorm.Statement.SQL stmt = EmptyString ->
   gorm.Statement.Unscoped stmt = false ->
   gorm.Statement.SQL (Delete_ModifyStatement sd stmt) <> EmptyString) ->
  Delete_ModifyStatement sd (Delete_ModifyStatement sd stmt)
  = Delete_ModifyStatement sd stmt.
Proof.
  intros Hrender.
  destruct (decide (gorm.Statement.SQL stmt = EmptyString)) as [Hsql | Hsql];
    [destruct (gorm.Statement.Unscoped stmt) eqn:Hun |].
  - by rewrite !(Delete_ModifyStatement_skips sd stmt) by (by right).
  - apply Delete_ModifyStatement_skips. left. by apply Hrender.
  - by rewrite !(Delete_ModifyStatement_skips sd stmt) by (by left).
Qed.

Lemma actorOf_none (sd : SoftDeleteDeleteClause.t) (stmt : gorm.Statement.t) :
  SoftDeleteDeleteClause.ActorField sd = None
  \/ gorm.Statement.Context stmt !! GORM_CTX_DELETED_BY = None
  \/ gorm.Statement.Context stmt !! GORM_CTX_DELETED_BY = Some Nil ->
  actorIn sd stmt = None.
Proof.
  unfold actorOf, gorm.Statement.Context_Value.
  intros [-> | [-> | ->]]; [done | |];
    by destruct (SoftDeleteDeleteClause.ActorField sd).
Qed.

(** X17: a delete without an actor.  When no actor field is configured,
    or the context has nothing under [GORM_CTX_DELETED_BY], or it has a
    nil value there, a delete that its guard lets run leaves a SET
    clause with the assignment of the deletion time to the deletion
    column alone, whatever SET clause the statement had, and the record
    is as the one call [SetColumn(deletionColumn, now)] leaves it. *)
Theorem delete_without_actor_value (sd : SoftDeleteDeleteClause.t)
    (stmt : gorm.Statement.t) :
  gorm.Statement.SQL stmt = EmptyString ->
  gorm.Statement.Unscoped stmt = false ->
  SoftDeleteDeleteClause.ActorField sd = None
  \/ gorm.Statement.Context stmt !! GORM_CTX_DELETED_BY = None
  \/ gorm.Statement.Context stmt !! GORM_CTX_DELETED_BY = Some Nil ->
  let field := schema.DBName (SoftDeleteDeleteClause.Field sd) in
  let curTime := TimeVal (gorm.NowFunc (gorm.Statement.DB stmt) ()) in
  let stmt' := Delete_ModifyStatement sd stmt in
  gorm.Statement.Clauses stmt' !! "SET"
    = Some {| clause.Clause.Name := "SET";
              clause.Clause.Expression :=
                Some (clause.Set_
                  [{| clause.Assignment_Column :=
                        {| clause.Column.Table := EmptyString;
                           clause.Column.Name := field |};
                      clause.Assignment_Value := curTime |}]) |}
  /\ gorm.Statement.Assigned stmt'
     = gorm.Statement.Assigned (gorm.Statement.SetColumn stmt field curTime).
Proof.
  intros Hsql Hun Hnone field curTime stmt'.
  destruct (Delete_ModifyStatement_fires GORM_CTX_DELETED_BY reflect_ValueOf
              GetIdentityFieldValuesMap render sd stmt Hsql Hun) as (Hset & Hlog & _).
  fold field curTime stmt' in Hset, Hlog.
  rewrite (actorOf_none sd stmt Hnone) in Hset, Hlog. by split.
Qed.

(** X18: a field whose actor tag leads nowhere.  When the [ACTORFIELD]
    tag of the field is missing, empty, or names no field of the schema,
    the delete clause that [DeleteClauses] registers records no actor:
    a delete that its guard lets run assigns the deletion time to the
    column of the field alone, whatever the context carries, and the
    record is as the one call of [SetColumn] for that column leaves
    it. *)
Theorem delete_with_stray_actor_tag (now_Parse : string -> result time_Time)
    (f : schema.Field) (sd : SoftDeleteDeleteClause.t) (stmt : gorm.Statement.t) :
  sd ∈ DeleteClauses now_Parse f ->
  gorm.Statement.SQL stmt = EmptyString ->
  gorm.Statement.Unscoped stmt = false ->
  match schema.TagSettings f !! "ACTORFIELD" with
  | Some v => v = EmptyString \/ schema.LookUpField (schema.Schema f) v = None
  | None => True
  end ->
  let curTime := TimeVal (gorm.NowFunc (gorm.Statement.DB stmt) ()) in
  let stmt' := Delete_ModifyStatement sd stmt in
  gorm.Statement.Clauses stmt' !! "SET"
    = Some {| clause.Clause.Name := "SET";
              clause.Clause.Expression :=
                Some (clause.Set_
                  [{| clause.Assignment_Column :=
                        {| clause.Column.Table := EmptyString;
                           clause.Column.Name := schema.DBName f |};
                      clause.Assignment_Value := curTime |}]) |}
  /\ gorm.Statement.Assigned stmt'
     = gorm.Statement.Assigned (gorm.Statement.SetColumn stmt (schema.DBName f) curTime).
Proof.
  intros Hsd Hsql Hun Htag curTime stmt'.
  apply list_elem_of_singleton in Hsd.
  assert (Hnone : SoftDeleteDeleteClause.ActorField sd = None).
  { subst sd. simpl. unfold actorFieldOf.
    destruct (schema.TagSettings f !! "ACTORFIELD") as [v |]; simpl; [| done].
    destruct Htag as [-> | Hl]; [done |].
    destruct v as [| ch v]; [done | exact Hl]. }
  destruct (Delete_ModifyStatement_fires GORM_CTX_DELETED_BY reflect_ValueOf
              GetIdentityFieldValuesMap render sd stmt Hsql Hun) as (Hset & Hlog & _).
  fold curTime stmt' in Hset, Hlog.
  rewrite (actorOf_none sd stmt (or_introl Hnone)) in Hset, Hlog. by subst sd.
Qed.

(** X19: the delete never removes a predicate.  After a delete that
    its guard lets run, the predicates of the WHERE clause are those it
    had, the [IN] predicates over the primary keys (of the record and
    of the model), and the exclusion predicate unless the statement
    carried the marker, each as often as that; their order is the one
    in which [Where.Build] has left the expressions when it wrote
    them. *)
Theorem Delete_keeps_predicates (sd : SoftDeleteDeleteClause.t) (stmt : gorm.Statement.t) :
  gorm.Statement.SQL stmt = EmptyString ->
  gorm.Statement.Unscoped stmt = false ->
  flat_map predicates (whereExprs (Delete_ModifyStatement sd stmt))
  ≡ₚ flat_map predicates (whereExprs stmt)
     ++ keysOfDelete stmt
     ++ match gorm.Statement.Clauses stmt !! "soft_delete_enabled" with
        | None =>
            [clause.Eq
               {| clause.Column.Table := clause.CurrentTable;
                  clause.Column.Name := schema.DBName (SoftDeleteDeleteClause.Field sd) |}
               (NullStr (SoftDeleteDeleteClause.ZeroValue sd))]
        | Some _ => []
        end.
Proof.
  intros Hsql Hun.
  exact (proj2 (proj2 (Delete_ModifyStatement_fires GORM_CTX_DELETED_BY reflect_ValueOf
                         GetIdentityFieldValuesMap render sd stmt Hsql Hun))).
Qed.

Lemma ToQueryValues_no_values (table : string) (keys : list string) :
  snd (schema.ToQueryValues table keys []) = [].
Proof. unfold schema.ToQueryValues. by destruct keys as [| k [| k' ks]]. Qed.

Lemma keyPredicate_no_values (sch : schema.SchemaOf schema.Field) (rv : reflect.Value)
    (s : gorm.Statement.t) :
  GetIdentityFieldValuesMap (gorm.Statement.Context s) rv (schema.PrimaryFields sch) = [] ->
  keysOf sch rv s = [].
Proof.
  intros Hid. unfold keyPredicate. rewrite Hid.
  pose proof (ToQueryValues_no_values (gorm.Statement.Table s)
                (schema.PrimaryFieldDBNames sch)) as Hv.
  destruct (schema.ToQueryValues _ _ _) as [column values]. simpl in Hv. by subst values.
Qed.

(** X20: a delete that finds no key.  On a statement without a schema,
    or when no primary-key value is found in the reflected record and,
    where the keys of the model are extracted as well, none is found in
    the model, the delete adds no [IN] predicate: the WHERE clause gets
    the exclusion predicate and nothing else, so the update is scoped
    by the filter the statement already had alone. *)
Theorem delete_without_keys (sd : SoftDeleteDeleteClause.t) (stmt : gorm.Statement.t) :
  gorm.Statement.SQL stmt = EmptyString ->
  gorm.Statement.Unscoped stmt = false ->
  gorm.Statement.Clauses stmt !! "soft_delete_enabled" = None ->
  match gorm.Statement.Schema stmt with
  | None => True
  | Some sch =>
      GetIdentityFieldValuesMap (gorm.Statement.Context stmt)
        (gorm.Statement.ReflectValue stmt) (schema.PrimaryFields sch) = []
      /\ forall m,
           gorm.Statement.Model stmt = Some m ->
           reflect.CanAddr (gorm.Statement.ReflectValue stmt) = true ->
           gorm.Statement.Dest stmt <> Some m ->
           GetIdentityFieldValuesMap (gorm.Statement.Context stmt) (reflect_ValueOf m)
             (schema.PrimaryFields sch) = []
  end ->
  flat_map predicates (whereExprs (Delete_ModifyStatement sd stmt))
  ≡ₚ flat_map predicates (whereExprs stmt)
     ++ [clause.Eq
           {| clause.Column.Table := clause.CurrentTable;
              clause.Column.Name := schema.DBName (SoftDeleteDeleteClause.Field sd) |}
           (NullStr (SoftDeleteDeleteClause.ZeroValue sd))].
Proof.
  intros Hsql Hun Hm Hkeys.
  destruct (Delete_ModifyStatement_fires GORM_CTX_DELETED_BY reflect_ValueOf
              GetIdentityFieldValuesMap render sd stmt Hsql Hun) as (_ & _ & Hp).
  rewrite Hp, Hm.
  assert (Hnone : keysOfDelete stmt = []); [| by rewrite Hnone].
  unfold keyPredicates.
  destruct (gorm.Statement.Schema stmt) as [sch |]; [| done].
  destruct Hkeys as [Hrec Hmodel].
  rewrite keyPredicate_no_values by exact Hrec. simpl.
  destruct (gorm.Statement.Model stmt) as [m |] eqn:HM; [| done].
  destruct (reflect.CanAddr (gorm.Statement.ReflectValue stmt)) eqn:Ha; [| done].
  simpl. case_bool_decide as Hd; [| done].
  by rewrite keyPredicate_no_values by (by apply Hmodel).
Qed.

(** X21: a composite primary key.  With two or more key columns and at
    least one tuple of key values in the record, the WHERE clause after
    the delete includes one [IN] predicate over the list of the key
    columns, each on the statement's table, with the tuples as its
    values. *)
Theorem delete_scopes_by_composite_key (sd : SoftDeleteDeleteClause.t)
    (stmt : gorm.Statement.t) (sch : schema.SchemaOf schema.Field)
    (k1 k2 : string) (ks : list string) (tuples : list (list any)) :
  gorm.Statement.SQL stmt = EmptyString ->
  gorm.Statement.Unscoped stmt = false ->
  gorm.Statement.Schema stmt = Some sch ->
  schema.PrimaryFieldDBNames sch = k1 :: k2 :: ks ->
  GetIdentityFieldValuesMap (gorm.Statement.Context stmt)
    (gorm.Statement.ReflectValue stmt) (schema.PrimaryFields sch) = tuples ->
  tuples <> [] ->
  clause.IN
    (clause.ManyColumns
       (map (fun key => {| clause.Column.Table := gorm.Statement.Table stmt;
                           clause.Column.Name := key |}) (k1 :: k2 :: ks)))
    (map Tuple tuples)
  ∈ flat_map predicates (whereExprs (Delete_ModifyStatement sd stmt)).
Proof.
  intros Hsql Hun Hsch Hkeys Hid Htuples.
  destruct (Delete_ModifyStatement_fires GORM_CTX_DELETED_BY reflect_ValueOf
              GetIdentityFieldValuesMap render sd stmt Hsql Hun) as (_ & _ & Hp).
  rewrite Hp. unfold keyPredicates. rewrite Hsch.
  rewrite (keyPredicate_IN GetIdentityFieldValuesMap sch _ stmt
             (clause.ManyColumns
                (map (fun key => {| clause.Column.Table := gorm.Statement.Table stmt;
                                    clause.Column.Name := key |}) (k1 :: k2 :: ks)))
             (map Tuple tuples)).
  - rewrite !elem_of_app. right. left. left. by left.
  - by rewrite Hkeys, Hid.
  - by destruct tuples.
Qed.

(** X22: after a delete the other modifiers have nothing to do.  On the
    result of a delete that its guard let run, the query modifier and
    the update modifier of any soft-delete field change nothing. *)
Theorem modifiers_after_delete (q : SoftDeleteQueryClause.t)
    (u : SoftDeleteUpdateClause.t) (sd : SoftDeleteDeleteClause.t)
    (stmt : gorm.Statement.t) :
  gorm.Statement.SQL stmt = EmptyString ->
  gorm.Statement.Unscoped stmt = false ->
  let stmt' := Delete_ModifyStatement sd stmt in
  SoftDeleteQueryClause.ModifyStatement q stmt' = stmt'
  /\ SoftDeleteUpdateClause.ModifyStatement u stmt' = stmt'.
Proof.
  intros Hsql Hun stmt'.
  destruct (Delete_ModifyStatement_renders sd stmt Hsql Hun)
    as (s & log & Hs & _ & _ & _ & _ & Hm & _).
  fold stmt' in Hs.
  assert (Hq : forall q', SoftDeleteQueryClause.ModifyStatement q' stmt' = stmt').
  { intros q'. apply Query_ModifyStatement_skips. right. rewrite Hs. simpl.
    by rewrite built_lookup_ne. }
  split; [apply Hq |].
  unfold SoftDeleteUpdateClause.ModifyStatement.
  destruct (_ && _); [apply Hq | done].
Qed.

Lemma keyPredicate_not_exclusion (q : SoftDeleteQueryClause.t)
    (sch : schema.SchemaOf schema.Field) (rv : reflect.Value) (s : gorm.Statement.t) :
  filter (fun e => isNotDeleted q e = true) (keysOf sch rv s) = [].
Proof.
  unfold keyPredicate. destruct (schema.ToQueryValues _ _ _) as [column values].
  by destruct (0 <? length values)%nat.
Qed.

Lemma keyPredicates_not_exclusion (q : SoftDeleteQueryClause.t) (s : gorm.Statement.t) :
  filter (fun e => isNotDeleted q e = true) (keysOfDelete s) = [].
Proof.
  unfold keyPredicates. destruct (gorm.Statement.Schema s) as [sch |]; [| done].
  rewrite filter_app, keyPredicate_not_exclusion. simpl.
  destruct (gorm.Statement.Model s) as [m |]; [| done].
  destruct (_ && _); [apply keyPredicate_not_exclusion | done].
Qed.

(** X23: the delete adds the exclusion predicate once and no more.
    After a delete that its guard lets run, the WHERE clause has one
    exclusion predicate more than before when the statement did not
    carry the marker, and as many as before when it did, as after an
    earlier query modifier. *)
Theorem delete_excludes_once (sd : SoftDeleteDeleteClause.t) (stmt : gorm.Statement.t) :
  gorm.Statement.SQL stmt = EmptyString ->
  gorm.Statement.Unscoped stmt = false ->
  countNotDeleted (SoftDeleteDeleteClause.toQuery sd) (Delete_ModifyStatement sd stmt)
  = (countNotDeleted (SoftDeleteDeleteClause.toQuery sd) stmt
     + match gorm.Statement.Clauses stmt !! "soft_delete_enabled" with
       | None => 1
       | Some _ => 0
       end)%nat.
Proof.
  intros Hsql Hun. unfold countNotDeleted.
  destruct (Delete_ModifyStatement_fires GORM_CTX_DELETED_BY reflect_ValueOf
              GetIdentityFieldValuesMap render sd stmt Hsql Hun) as (_ & _ & Hp).
  rewrite Hp, !filter_app, !length_app, keyPredicates_not_exclusion.
  destruct (gorm.Statement.Clauses stmt !! "soft_delete_enabled"); simpl; [lia |].
  rewrite filter_cons_True by apply isNotDeleted_notDeleted. simpl. lia.
Qed.
End DeleteFacts.

(** ** The further properties on the examples *)

Lemma Delete_leaves_update_clause_witness :
  let stmt := Fixture.statement ∅ false EmptyString ∅ Fixture.rv1 (Some 1%nat) (Some 1%nat) in
  is_Some (gorm.Statement.Clauses (Fixture.delete Fixture.sdDelete stmt)
             !! "soft_delete_enabled").
Proof.
  intros stmt.
  exact (proj1 (Delete_leaves_update_clause Fixture.GORM_CTX_DELETED_BY
                  Fixture.reflect_ValueOf Fixture.GetIdentityFieldValuesMap Fixture.render
                  Fixture.sdDelete stmt eq_refl eq_refl)).
Defined.

Lemma Delete_renders_update_witness :
  let stmt := Fixture.statement ∅ false EmptyString ∅ Fixture.rv1 (Some 1%nat) (Some 1%nat) in
  exists s,
    gorm.Statement.Clauses s = gorm.Statement.Clauses (Fixture.delete Fixture.sdDelete stmt)
    /\ gorm.Statement.Assigned s
       = gorm.Statement.Assigned (Fixture.delete Fixture.sdDelete stmt)
    /\ sameHost stmt s
    /\ gorm.Statement.SQL s = EmptyString
    /\ gorm.Statement.SQL (Fixture.delete Fixture.sdDelete stmt)
       = fst (Fixture.render s ["UPDATE"; "SET"; "WHERE"])
    /\ gorm.Statement.Vars (Fixture.delete Fixture.sdDelete stmt)
       = [] ++ snd (Fixture.render s ["UPDATE"; "SET"; "WHERE"]).
Proof.
  intros stmt.
  exact (Delete_renders_update Fixture.GORM_CTX_DELETED_BY Fixture.reflect_ValueOf
           Fixture.GetIdentityFieldValuesMap Fixture.render Fixture.sdDelete stmt
           eq_refl eq_refl).
Defined.

Lemma Delete_ModifyStatement_idempotent_witness :
  let stmt := Fixture.statement ∅ false EmptyString ∅ Fixture.rv1 (Some 1%nat) (Some 1%nat) in
  gorm.Statement.SQL (Fixture.delete Fixture.sdDelete stmt) = "UPDATE"
  /\ Fixture.delete Fixture.sdDelete (Fixture.delete Fixture.sdDelete stmt)
     = Fixture.delete Fixture.sdDelete stmt.
Proof.
  intros stmt. split; [reflexivity |].
  exact (Delete_ModifyStatement_idempotent Fixture.GORM_CTX_DELETED_BY
           Fixture.reflect_ValueOf Fixture.GetIdentityFieldValuesMap Fixture.render
           Fixture.sdDelete stmt (fun _ _ => ltac:(discriminate))).
Defined.

(** A nil value under the context key. *)
Lemma delete_without_actor_value_witness :
  let stmt := Fixture.statement ∅ false EmptyString
                {[ Fixture.GORM_CTX_DELETED_BY := Nil ]}
                Fixture.rv1 (Some 1%nat) (Some 1%nat) in
  gorm.Statement.Assigned (Fixture.delete Fixture.sdDelete stmt)
  = [("deleted_at", TimeVal Fixture.y2k)].
Proof.
  intros stmt.
  exact (proj2 (delete_without_actor_value Fixture.GORM_CTX_DELETED_BY
                  Fixture.reflect_ValueOf Fixture.GetIdentityFieldValuesMap Fixture.render
                  Fixture.sdDelete stmt eq_refl eq_refl (or_intror (or_intror eq_refl)))).
Defined.

(** The tag names [Nobody]; the context carries ["alice"]. *)
Lemma delete_with_stray_actor_tag_witness :
  let stmt := Fixture.statement ∅ false EmptyString
                {[ Fixture.GORM_CTX_DELETED_BY := Str "alice" ]}
                Fixture.rv1 (Some 1%nat) (Some 1%nat) in
  let sd := SoftDeleteDeleteClause.mk NullString.null Fixture.strayActorField None in
  sd ∈ DeleteClauses Fixture.now_Parse Fixture.strayActorField
  /\ gorm.Statement.Assigned (Fixture.delete sd stmt)
     = [("deleted_at", TimeVal Fixture.y2k)].
Proof.
  intros stmt sd.
  assert (Hsd : sd ∈ DeleteClauses Fixture.now_Parse Fixture.strayActorField).
  { apply list_elem_of_singleton. reflexivity. }
  split; [exact Hsd |].
  exact (proj2 (delete_with_stray_actor_tag Fixture.GORM_CTX_DELETED_BY
                  Fixture.reflect_ValueOf Fixture.GetIdentityFieldValuesMap Fixture.render
                  Fixture.now_Parse Fixture.strayActorField sd stmt Hsd eq_refl eq_refl
                  (or_intror eq_refl))).
Defined.

Lemma Delete_keeps_predicates_witness :
  let stmt := Fixture.statement (Fixture.whereOf [Fixture.a; Fixture.b]) false EmptyString ∅
                Fixture.rv1 (Some 1%nat) (Some 2%nat) in
  flat_map predicates (whereExprs (Fixture.delete Fixture.sdDelete stmt))
  ≡ₚ [Fixture.a; Fixture.b]
     ++ [clause.IN (clause.OneColumn {| clause.Column.Table := "users";
                                        clause.Column.Name := "id" |})
           [Int 1; Int 2; Int 3];
         clause.IN (clause.OneColumn {| clause.Column.Table := "users";
                                        clause.Column.Name := "id" |}) [Int 7]]
     ++ [SoftDeleteQueryClause.notDeleted Fixture.sdQuery].
Proof.
  intros stmt.
  exact (Delete_keeps_predicates Fixture.GORM_CTX_DELETED_BY Fixture.reflect_ValueOf
           Fixture.GetIdentityFieldValuesMap Fixture.render Fixture.sdDelete stmt
           eq_refl eq_refl).
Defined.

(** The record 3 holds no key, and neither does the model 4. *)
Lemma delete_without_keys_witness :
  let rv3 := {| reflect.CanAddr := true; reflect.Kind := reflect.Struct; reflect.Of := 3;
                reflect.Elems := [] |} in
  let stmt := Fixture.statement (Fixture.whereOf [Fixture.a]) false EmptyString ∅
                rv3 (Some 3%nat) (Some 4%nat) in
  flat_map predicates (whereExprs (Fixture.delete Fixture.sdDelete stmt))
  ≡ₚ [Fixture.a] ++ [SoftDeleteQueryClause.notDeleted Fixture.sdQuery].
Proof.
  intros rv3 stmt.
  refine (delete_without_keys Fixture.GORM_CTX_DELETED_BY Fixture.reflect_ValueOf
            Fixture.GetIdentityFieldValuesMap Fixture.render Fixture.sdDelete stmt
            eq_refl eq_refl eq_refl _).
  split; [reflexivity |]. intros m Hm _ _. injection Hm as <-. reflexivity.
Defined.

Lemma delete_scopes_by_composite_key_witness :
  clause.IN
    (clause.ManyColumns
       [{| clause.Column.Table := "orders"; clause.Column.Name := "tenant_id" |};
        {| clause.Column.Table := "orders"; clause.Column.Name := "id" |}])
    [Tuple [Int 1; Int 10]; Tuple [Int 1; Int 11]]
  ∈ flat_map predicates
      (whereExprs
         (SoftDeleteDeleteClause.ModifyStatement Fixture.GORM_CTX_DELETED_BY
            Fixture.reflect_ValueOf Fixture.orderIdentity Fixture.render Fixture.sdDelete
            Fixture.orderStatement)).
Proof.
  exact (delete_scopes_by_composite_key Fixture.GORM_CTX_DELETED_BY
           Fixture.reflect_ValueOf Fixture.orderIdentity Fixture.render Fixture.sdDelete
           Fixture.orderStatement Fixture.orders "tenant_id" "id" []
           [[Int 1; Int 10]; [Int 1; Int 11]]
           eq_refl eq_refl eq_refl eq_refl eq_refl ltac:(discriminate)).
Defined.

Lemma modifiers_after_delete_witness :
  let stmt := Fixture.statement (Fixture.whereOf [Fixture.a]) false EmptyString ∅
                Fixture.rv1 (Some 1%nat) (Some 1%nat) in
  SoftDeleteQueryClause.ModifyStatement Fixture.sdQuery (Fixture.delete Fixture.sdDelete stmt)
  = Fixture.delete Fixture.sdDelete stmt
  /\ SoftDeleteUpdateClause.ModifyStatement Fixture.sdUpdate
       (Fixture.delete Fixture.sdDelete stmt)
     = Fixture.delete Fixture.sdDelete stmt.
Proof.
  intros stmt.
  exact (modifiers_after_delete Fixture.GORM_CTX_DELETED_BY Fixture.reflect_ValueOf
           Fixture.GetIdentityFieldValuesMap Fixture.render Fixture.sdQuery Fixture.sdUpdate
           Fixture.sdDelete stmt eq_refl eq_refl).
Defined.

(** A delete after the query modifier has run: still one exclusion
    predicate. *)
Lemma delete_excludes_once_witness :
  let stmt := SoftDeleteQueryClause.ModifyStatement Fixture.sdQuery
                (Fixture.statement (Fixture.whereOf [Fixture.a]) false EmptyString ∅
                   Fixture.rv1 (Some 1%nat) (Some 1%nat)) in
  countNotDeleted Fixture.sdQuery (Fixture.delete Fixture.sdDelete stmt) = (1 + 0)%nat.
Proof.
  intros stmt.
  exact (delete_excludes_once Fixture.GORM_CTX_DELETED_BY Fixture.reflect_ValueOf
           Fixture.GetIdentityFieldValuesMap Fixture.render Fixture.sdDelete stmt
           eq_refl eq_refl).
Defined.
